(** * Request telemetry and experiment assignment of llm_ops

    A shallow embedding of
      - [config/settings.py]            (rate table, [get_model_config]),
      - [src/monitoring/monitor.py]     ([LLMMonitor]),
      - [src/prompts/prompt_manager.py] ([PromptManager]),
    together with the properties of the specification that concern them.

    Python values are modelled as follows.
      - [int] is [Z] (unbounded).
      - [float] is an IEEE 754 binary64 value, [spec_float] with
        [prec = 53] and [emax = 1024]; arithmetic is the correctly rounded
        arithmetic of [SpecFloat].
      - [datetime] (naive, local) is the number of microseconds since
        1970-01-01T00:00:00, a [Z]; [timedelta(days=1)] is [86400000000].
        The clock of a world is not bounded: [datetime.now()] is taken to
        be an instant from which one day can be added or subtracted, as
        every instant between 0001-01-02 and 9999-12-30 is.  Where a
        caller chooses the distance, in [end_time - timedelta(hours=hours)],
        the range of [datetime] is checked as Python checks it.
      - Redis is a record of two finite maps (strings with an expiry, lists
        with an optional expiry) and a schedule of connection faults.  The
        store reads the clock of the program, and a key is served up to and
        including the instant of its expiry.  The
        keys of the strings ("request:", "prompt:", "ab_test:") and of the
        lists ("requests:", "model_requests:") never coincide, so a command
        never meets a value of the wrong type.
      - An exception is a value of [exn]; code that may raise returns
        [Result].  An exception carries no text: a line that the program
        prints or logs about an exception is kept up to that text.
      - What the program takes from a library and only passes on is a
        parameter of the function that uses it: the hex digest of MD5 for
        [create_prompt], [str.format] for [render_prompt], the tokenizer
        for [log_request], the order in which the server lists its keys for
        [_load_prompts], the order that [sorted] gives to floats that
        include a NaN for [get_performance_metrics].  The time that passes
        between the reads of the clock in [create_prompt] is a parameter as
        well.
      - The Prometheus metrics are the sequence of the updates made to
        them. *)

From Stdlib Require Import ZArith Bool List Lia Sorting.Sorted Sorting.Permutation.
From Stdlib Require Import Floats.SpecFloat.
From stdpp Require Import base option list gmap strings pretty fin_maps.

Local Open Scope string_scope.
Local Open Scope Z_scope.

(** ** Exceptions and results *)

Inductive exn : Type :=
  | ZeroDivisionError
  | OverflowError
  | ValueError
  | KeyError
  | IndexError
  | ConnectionError.

Inductive Result (A : Type) : Type :=
  | OK (a : A)
  | Raise (e : exn).
Arguments OK {A} a.
Arguments Raise {A} e.

Definition is_ok {A} (r : Result A) : bool :=
  match r with OK _ => true | Raise _ => false end.

(** ** Python numbers *)

Module Py.

Definition prec : Z := 53.
Definition emax : Z := 1024.

Abbreviation float := spec_float.

Definition fadd : float -> float -> float := SFadd prec emax.
Definition fmul : float -> float -> float := SFmul prec emax.
Definition fdiv : float -> float -> float := SFdiv prec emax.
Definition flt : float -> float -> bool := SFltb.
Definition fle : float -> float -> bool := SFleb.
Definition feq : float -> float -> bool := SFeqb.

Definition is_nan (x : float) : bool :=
  match x with S754_nan => true | _ => false end.

Definition is_zero (x : float) : bool :=
  match x with S754_zero _ => true | _ => false end.

(** The correctly rounded quotient of two positive integers.  A decimal
    literal such as [0.03] denotes the double nearest to [3/100]. *)
Definition ratio (n d : positive) : float :=
  fdiv (S754_finite false n 0) (S754_finite false d 0).

Definition zero : float := S754_zero false.
Definition one : float := ratio 1 1.
Definition hundred : float := ratio 100 1.

(** [float(z)]: conversion of an int, rounding to nearest even; Python
    raises [OverflowError] when the int is beyond the range of a double. *)
Definition of_Z (z : Z) : float := binary_normalize prec emax z 0 false.

Definition float_of_int (z : Z) : Result float :=
  match of_Z z with
  | S754_infinity _ => Raise OverflowError
  | f => OK f
  end.

(** [a / b] on two ints: the correctly rounded quotient. *)
Definition int_truediv (a b : Z) : Result float :=
  match a, b with
  | _, Z0 => Raise ZeroDivisionError
  | Z0, _ => OK (S754_zero (b <? 0))
  | Zpos p, Zpos q | Zneg p, Zneg q =>
      match fdiv (S754_finite false p 0) (S754_finite false q 0) with
      | S754_infinity _ => Raise OverflowError
      | f => OK f
      end
  | Zpos p, Zneg q | Zneg p, Zpos q =>
      match fdiv (S754_finite true p 0) (S754_finite false q 0) with
      | S754_infinity _ => Raise OverflowError
      | f => OK f
      end
  end.

(** [x / y] on two floats. *)
Definition float_truediv (x y : float) : Result float :=
  if is_zero y then Raise ZeroDivisionError else OK (fdiv x y).

(** [x / n] with [x] a float and [n] an int. *)
Definition float_div_int (x : float) (n : Z) : Result float :=
  match float_of_int n with
  | OK y => float_truediv x y
  | Raise e => Raise e
  end.

(** [n * x] with [n] an int and [x] a float. *)
Definition int_mul_float (n : Z) (x : float) : Result float :=
  match float_of_int n with
  | OK y => OK (fmul y x)
  | Raise e => Raise e
  end.

(** [int(x)]: truncation towards zero. *)
Definition int_of_float (x : float) : Result Z :=
  match x with
  | S754_zero _ => OK 0
  | S754_finite s m (Zneg k) => OK (cond_Zopp s (Z.shiftr (Zpos m) (Zpos k)))
  | S754_finite s m e => OK (cond_Zopp s (Z.shiftl (Zpos m) e))
  | S754_infinity _ => Raise OverflowError
  | S754_nan => Raise ValueError
  end.

(** [i < x] with [i] an int of at most 53 bits and [x] a float. *)
Definition int_lt_float (i : Z) (x : float) : bool := flt (of_Z i) x.

End Py.

Export Py(float).

(** ** [config/settings.py] *)

Inductive ModelProvider : Type := OPENAI | ANTHROPIC | AZURE_OPENAI.

(** The fields of [Settings] read by the code below. *)
Record Settings : Type := {
  cost_alert_threshold : float;
  ab_test_enabled : bool;
  prompt_cache_ttl : Z
}.

(** One entry of [MODEL_CONFIGS], a dict: a key may be absent. *)
Record ModelConfig : Type := {
  provider : option ModelProvider;
  max_tokens : option Z;
  temperature : option float;
  cost_per_1k_tokens : option float
}.

Definition model_entry (p : ModelProvider) (mt : Z) (cost : float) : ModelConfig :=
  {| provider := Some p; max_tokens := Some mt;
     temperature := Some (Py.ratio 7 10); cost_per_1k_tokens := Some cost |}.

Definition MODEL_CONFIGS : gmap string ModelConfig :=
  <["gpt-4" := model_entry OPENAI 8192 (Py.ratio 3 100)]>
  (<["gpt-3.5-turbo" := model_entry OPENAI 4096 (Py.ratio 2 1000)]>
  (<["claude-3-opus" := model_entry ANTHROPIC 4096 (Py.ratio 15 1000)]>
  (<["claude-3-sonnet" := model_entry ANTHROPIC 4096 (Py.ratio 3 1000)]> ∅))).

(** [MODEL_CONFIGS.get(model_name, MODEL_CONFIGS["gpt-4"])]: the default is
    evaluated first, and a missing ["gpt-4"] would raise [KeyError]. *)
Definition get_model_config (model_name : string) : Result ModelConfig :=
  match MODEL_CONFIGS !! "gpt-4" with
  | Some dflt => OK (default dflt (MODEL_CONFIGS !! model_name))
  | None => Raise KeyError
  end.

(** ** [LLMMonitor.calculate_cost] *)

Definition calculate_cost (model_name : string) (input_tokens output_tokens : Z)
  : Result float :=
  match get_model_config model_name with
  | Raise e => Raise e
  | OK model_config =>
      let cost_per_1k := default Py.zero (cost_per_1k_tokens model_config) in
      let total_tokens := input_tokens + output_tokens in
      match Py.int_truediv total_tokens 1000 with
      | Raise e => Raise e
      | OK q => OK (Py.fmul q cost_per_1k)
      end
  end.

(** ** Data model *)

Inductive PromptStatus : Type := DRAFT | ACTIVE | TESTING | DEPRECATED.

Record PromptVersion : Type := {
  pv_id : string;
  pv_template_name : string;
  pv_version : string;
  pv_template : string;
  pv_variables : list string;
  pv_status : PromptStatus;
  pv_created_at : Z;
  pv_updated_at : Z;
  pv_performance_metrics : list (string * float);
  pv_description : option string;
  pv_tags : list string
}.

Record LLMRequest : Type := {
  request_id : string;
  model_name : string;
  model_version : string;
  prompt_id : option string;
  user_id : option string;
  timestamp : Z;
  input_tokens : Z;
  output_tokens : Z;
  latency_ms : float;
  cost_usd : float;
  success : bool;
  error_message : option string;
  metadata : list (string * string)
}.

(** The dict written by [start_ab_test] under ["ab_test:<template_name>"]. *)
Record AbTestConfig : Type := {
  ab_template_name : string;
  prompt_a : string;
  prompt_b : string;
  traffic_split : float;
  started_at : Z;
  active : bool
}.

(** A value stored with [setex]: the JSON text of one of the three dicts.
    [json.loads (json.dumps d)] gives [d] back, so the store keeps the dict. *)
Inductive Blob : Type :=
  | BRequest (r : LLMRequest)
  | BAbTest (c : AbTestConfig)
  | BPrompt (p : PromptVersion).

(** ** Time *)

Definition second : Z := 1000000.
Definition hour : Z := 3600 * second.
Definition day : Z := 86400 * second.

Definition dec_digit (d : Z) : string :=
  String (Ascii.ascii_of_N (48 + Z.to_N (d mod 10))) EmptyString.
Definition zero_pad2 (n : Z) : string := dec_digit (n / 10) +:+ dec_digit n.
Definition zero_pad4 (n : Z) : string := zero_pad2 (n / 100) +:+ zero_pad2 n.

(** Year, month and day of the proleptic Gregorian calendar for a number of
    days since 1970-01-01. *)
Definition civil_from_days (z : Z) : Z * Z * Z :=
  let z := z + 719468 in
  let era := z / 146097 in
  let doe := z - era * 146097 in
  let yoe := (doe - doe / 1460 + doe / 36524 - doe / 146096) / 365 in
  let doy := doe - (365 * yoe + yoe / 4 - yoe / 100) in
  let mp := (5 * doy + 2) / 153 in
  let d := doy - (153 * mp + 2) / 5 + 1 in
  let m := if mp <? 10 then mp + 3 else mp - 9 in
  let y := yoe + era * 400 + (if m <=? 2 then 1 else 0) in
  (y, m, d).

(** [t.strftime('%Y-%m-%d')]: the C library does not pad a year below
    1000. *)
Definition strftime_Ymd (t : Z) : string :=
  let '(y, m, d) := civil_from_days (t / day) in
  pretty y +:+ "-" +:+ zero_pad2 m +:+ "-" +:+ zero_pad2 d.

(** [timedelta(hours=h)]: the number of days must have at most nine digits. *)
Definition timedelta_hours (h : Z) : Result Z :=
  let days := h * hour / day in
  if (-999999999 <=? days) && (days <=? 999999999) then OK (h * hour)
  else Raise OverflowError.

(** The least and the greatest [datetime]: 0001-01-01T00:00:00 and
    9999-12-31T23:59:59.999999. *)
Definition datetime_min : Z := -719162 * day.
Definition datetime_max : Z := 2932897 * day - 1.

(** [t - delta] for a datetime and a timedelta: the difference must be a
    datetime. *)
Definition datetime_sub (t delta : Z) : Result Z :=
  let difference := t - delta in
  if (datetime_min <=? difference) && (difference <=? datetime_max) then OK difference
  else Raise OverflowError.

(** An instant given as a calendar day (days since 1970-01-01), hours,
    minutes and seconds; used to write examples. *)
Definition at_time (days h m s : Z) : Z :=
  days * day + h * hour + m * 60 * second + s * second.

(** ** The world: Redis, the prompt registry, the clock, the generator *)

Record Redis : Type := {
  r_strings : gmap string (Blob * Z);
  r_lists : gmap string (list string * option Z);
  r_faults : list bool
}.

Record World : Type := {
  w_settings : Settings;
  w_now : Z;
  w_redis : Redis;
  w_prompts : list (string * PromptVersion);
  w_hash : string -> Z;
  w_rng : nat -> float;
  w_out : list string
}.

Definition set_redis (r : Redis) (w : World) : World :=
  {| w_settings := w_settings w; w_now := w_now w; w_redis := r; w_prompts := w_prompts w;
     w_hash := w_hash w; w_rng := w_rng w; w_out := w_out w |}.
Definition set_prompts (ps : list (string * PromptVersion)) (w : World) : World :=
  {| w_settings := w_settings w; w_now := w_now w; w_redis := w_redis w; w_prompts := ps;
     w_hash := w_hash w; w_rng := w_rng w; w_out := w_out w |}.
Definition set_rng (g : nat -> float) (w : World) : World :=
  {| w_settings := w_settings w; w_now := w_now w; w_redis := w_redis w; w_prompts := w_prompts w;
     w_hash := w_hash w; w_rng := g; w_out := w_out w |}.
Definition set_out (o : list string) (w : World) : World :=
  {| w_settings := w_settings w; w_now := w_now w; w_redis := w_redis w; w_prompts := w_prompts w;
     w_hash := w_hash w; w_rng := w_rng w; w_out := o |}.
Definition set_now (t : Z) (w : World) : World :=
  {| w_settings := w_settings w; w_now := t; w_redis := w_redis w; w_prompts := w_prompts w;
     w_hash := w_hash w; w_rng := w_rng w; w_out := w_out w |}.

(** Computations that read and write the world and may raise. *)
Definition M (A : Type) : Type := World -> Result A * World.

#[export] Instance M_ret : MRet M := λ A a w, (OK a, w).
#[export] Instance M_bind : MBind M := λ A B f m w,
  match m w with
  | (OK a, w') => f a w'
  | (Raise e, w') => (Raise e, w')
  end.

Definition raise {A} (e : exn) : M A := λ w, (Raise e, w).

(** [try: body except Exception as e: handler e] *)
Definition try_except {A} (body : M A) (handler : exn -> M A) : M A := λ w,
  match body w with
  | (OK a, w') => (OK a, w')
  | (Raise e, w') => handler e w'
  end.

Definition lift {A} (r : Result A) : M A := λ w, (r, w).

Definition datetime_now : M Z := λ w, (OK (w_now w), w).
Definition print (line : string) : M unit := λ w, (OK tt, set_out (line :: w_out w) w).

(** [random.random()]: the next draw of the generator. *)
Definition random_random : M float := λ w,
  (OK (w_rng w 0%nat), set_rng (λ n, w_rng w (S n)) w).

(** [hash(s)] for a str: fixed for the life of the interpreter. *)
Definition py_hash (s : string) : M Z := λ w, (OK (w_hash w s), w).

Fixpoint foldM {A B} (f : A -> B -> M A) (l : list B) (a : A) : M A :=
  match l with
  | [] => mret a
  | b :: l' => a' ← f a b; foldM f l' a'
  end.

(** *** Redis commands

    Every command first consumes one entry of the fault schedule; [true]
    means the connection fails and the command raises. *)
Definition redis_call {A} (cmd : Z -> Redis -> Result A * Redis) : M A := λ w,
  let r := w_redis w in
  let run fs :=
    let '(a, r') := cmd (w_now w)
      {| r_strings := r_strings r; r_lists := r_lists r; r_faults := fs |} in
    (a, set_redis r' w) in
  match r_faults r with
  | true :: fs =>
      (Raise ConnectionError,
       set_redis {| r_strings := r_strings r; r_lists := r_lists r; r_faults := fs |} w)
  | false :: fs => run fs
  | [] => run []
  end.

(** A key with an expiry is gone once the clock is past the expiry. *)
Definition live_string (now : Z) (r : Redis) (key : string) : option Blob :=
  match r_strings r !! key with
  | Some (b, expiry) => if now <=? expiry then Some b else None
  | None => None
  end.

Definition live_list (now : Z) (r : Redis) (key : string) : option (list string * option Z) :=
  match r_lists r !! key with
  | Some (l, Some expiry) => if now <=? expiry then Some (l, Some expiry) else None
  | Some (l, None) => Some (l, None)
  | None => None
  end.

Definition redis_setex (key : string) (ttl : Z) (value : Blob) : M unit :=
  redis_call (λ now r,
    if ttl <=? 0 then (Raise ValueError, r)
    else (OK tt, {| r_strings := <[key := (value, now + ttl * second)]> (r_strings r);
                    r_lists := delete key (r_lists r);
                    r_faults := r_faults r |})).

Definition redis_get (key : string) : M (option Blob) :=
  redis_call (λ now r, (OK (live_string now r key), r)).

Definition redis_lpush (key : string) (value : string) : M unit :=
  redis_call (λ now r,
    let entry :=
      match live_list now r key with
      | Some (l, expiry) => (value :: l, expiry)
      | None => ([value], None)
      end in
    (OK tt, {| r_strings := r_strings r;
               r_lists := <[key := entry]> (r_lists r);
               r_faults := r_faults r |})).

Definition redis_expire (key : string) (ttl : Z) : M unit :=
  redis_call (λ now r,
    match live_list now r key with
    | Some (l, _) =>
        (OK tt, {| r_strings := r_strings r;
                   r_lists := <[key := (l, Some (now + ttl * second))]> (r_lists r);
                   r_faults := r_faults r |})
    | None => (OK tt, r)
    end).

(** [lrange key 0 -1] *)
Definition redis_lrange (key : string) : M (list string) :=
  redis_call (λ now r,
    (OK (match live_list now r key with Some (l, _) => l | None => [] end), r)).

Definition settings : M Settings := λ w, (OK (w_settings w), w).

(** ** [LLMMonitor] *)

(** [f"{msg}{e}"]: the text of an exception is worded by the library that
    raised it, and the line is kept up to it. *)
Definition with_exception (msg : string) (e : exn) : string := msg.

(** [self.logger.error(msg)] *)
Definition logger_error (msg : string) : M unit := print msg.

Definition _save_request (request : LLMRequest) : M unit :=
  try_except
    (let request_key := "request:" +:+ request_id request in
     redis_setex request_key 86400 (BRequest request);;
     let date_key := "requests:" +:+ strftime_Ymd (timestamp request) in
     redis_lpush date_key (request_id request);;
     redis_expire date_key 2592000;;
     let model_key := "model_requests:" +:+ model_name request +:+ ":"
                      +:+ strftime_Ymd (timestamp request) in
     redis_lpush model_key (request_id request);;
     redis_expire model_key 2592000)
    (λ e, logger_error (with_exception "Fehler beim Speichern der Request: " e)).

(** *** Reading a stored dict *)

(** [d.get("cost_usd", 0.0)] and the like: the default when the key is absent. *)
Definition get_cost_usd (d : Blob) : float :=
  match d with BRequest r => cost_usd r | _ => Py.zero end.
Definition get_input_tokens (d : Blob) : Z :=
  match d with BRequest r => input_tokens r | _ => 0 end.
Definition get_output_tokens (d : Blob) : Z :=
  match d with BRequest r => output_tokens r | _ => 0 end.

(** [d["timestamp"]]: [KeyError] when the key is absent.  The dicts that
    have it are the request dicts. *)
Definition as_request (d : Blob) : Result LLMRequest :=
  match d with BRequest r => OK r | _ => Raise KeyError end.

(** [if s:] on a str *)
Definition truthy (s : string) : bool :=
  match s with EmptyString => false | _ => true end.

Definition date_key (model : option string) (current_date : Z) : string :=
  match model with
  | Some m =>
      if truthy m
      then "model_requests:" +:+ m +:+ ":" +:+ strftime_Ymd current_date
      else "requests:" +:+ strftime_Ymd current_date
  | None => "requests:" +:+ strftime_Ymd current_date
  end.

(** The inner loop shared by the three aggregations:
    [for request_id in request_ids: request_data = get(...); if request_data: ...] *)
Definition visit_ids {S} (visit : S -> Blob -> M S) (request_ids : list string) (acc : S)
  : M S :=
  foldM (λ acc request_id,
           request_data ← redis_get ("request:" +:+ request_id);
           match request_data with
           | Some d => visit acc d
           | None => mret acc
           end) request_ids acc.

(** The outer loop shared by the three aggregations:
    [while current_date <= end_date: ...; current_date += timedelta(days=1)].
    [fuel] bounds the number of iterations; [scan_fuel] is enough.  The
    sum [current_date + timedelta(days=1)] is a datetime as long as the scan
    ends before the last day of the year 9999. *)
Fixpoint scan_days {S} (fuel : nat) (key : Z -> string) (visit : S -> Blob -> M S)
    (current_date end_date : Z) (acc : S) : M S :=
  match fuel with
  | O => mret acc
  | S fuel' =>
      if current_date <=? end_date then
        request_ids ← redis_lrange (key current_date);
        acc' ← visit_ids visit request_ids acc;
        scan_days fuel' key visit (current_date + day) end_date acc'
      else mret acc
  end.

Definition scan_fuel (start_date end_date : Z) : nat :=
  Z.to_nat ((end_date - start_date) / day + 1).

Record CostMetrics : Type := {
  total_cost_usd : float;
  cost_per_request : float;
  cost_per_token : float;
  requests_count : Z;
  tokens_count : Z;
  period_start : Z;
  period_end : Z
}.

(** The body of the loop of [get_cost_metrics] on one stored dict. *)
Definition cost_step (acc : float * Z * Z) (request_dict : Blob) : float * Z * Z :=
  let '(total_cost, total_requests, total_tokens) := acc in
  (Py.fadd total_cost (get_cost_usd request_dict),
   total_requests + 1,
   total_tokens + (get_input_tokens request_dict + get_output_tokens request_dict)).

Definition cost_visit (acc : float * Z * Z) (request_dict : Blob) : M (float * Z * Z) :=
  mret (cost_step acc request_dict).

Definition get_cost_metrics (model : option string) (start_date end_date : option Z)
  : M CostMetrics :=
  start_date ← match start_date with
               | Some t => mret t
               | None => t ← datetime_now; mret (t - day)
               end;
  end_date ← match end_date with
             | Some t => mret t
             | None => datetime_now
             end;
  '(total_cost, total_requests, total_tokens) ←
    scan_days (scan_fuel start_date end_date) (date_key model) cost_visit
              start_date end_date (Py.zero, 0, 0);
  per_request ← (if 0 <? total_requests
                 then lift (Py.float_div_int total_cost total_requests)
                 else mret Py.zero);
  per_token ← (if 0 <? total_tokens
               then lift (Py.float_div_int total_cost total_tokens)
               else mret Py.zero);
  mret {| total_cost_usd := total_cost;
          cost_per_request := per_request;
          cost_per_token := per_token;
          requests_count := total_requests;
          tokens_count := total_tokens;
          period_start := start_date;
          period_end := end_date |}.

(** *** Performance metrics *)

Inductive Num : Type := NInt (z : Z) | NFloat (x : float).

(** [sum(xs)] over floats, from the int [0], left to right.  (CPython 3.12
    and later compensate the rounding errors of the additions; no property
    below depends on the value of a sum of more than one float.) *)
Definition py_sum (xs : list float) : float := fold_left Py.fadd xs Py.zero.

(** [min(xs)] and [max(xs)] keep the first extremal element. *)
Definition py_min (x : float) (xs : list float) : float :=
  fold_left (λ m y, if Py.flt y m then y else m) xs x.
Definition py_max (x : float) (xs : list float) : float :=
  fold_left (λ m y, if Py.flt m y then y else m) xs x.

(** [sorted(xs)]: a stable sort that compares with [<] only.  On floats
    without a NaN, [<] is a total preorder and the result is the one of
    every stable sort: ascending, equal elements in their former order.
    With a NaN, every comparison with which is false, the result depends on
    the comparisons that the sort of the interpreter happens to make; it is
    what [sorted_nan] gives. *)
Fixpoint insert_sorted (x : float) (l : list float) : list float :=
  match l with
  | [] => [x]
  | y :: l' => if Py.flt y x then y :: insert_sorted x l' else x :: l
  end.
Definition py_sorted (sorted_nan : list float -> list float) (xs : list float)
  : list float :=
  if existsb Py.is_nan xs then sorted_nan xs else fold_right insert_sorted [] xs.

(** [xs[i]] for [0 <= i] *)
Definition py_index {A} (xs : list A) (i : Z) : Result A :=
  if i <? 0 then Raise IndexError
  else match xs !! Z.to_nat i with Some x => OK x | None => Raise IndexError end.

(** [int(len(latencies) * 0.95)] *)
Definition p95_index (n : Z) : Result Z :=
  match Py.int_mul_float n (Py.ratio 95 100) with
  | OK x => Py.int_of_float x
  | Raise e => Raise e
  end.

Definition len {A} (l : list A) : Z := Z.of_nat (length l).

Definition window_visit (start_time end_time : Z) (keep : LLMRequest -> bool)
    (requests : list LLMRequest) (request_dict : Blob) : M (list LLMRequest) :=
  r ← lift (as_request request_dict);
  let request_time := timestamp r in
  if (start_time <=? request_time) && (request_time <=? end_time) && keep r
  then mret (requests ++ [r])%list
  else mret requests.

Definition performance_dict (sorted_nan : list float -> list float)
    (requests : list LLMRequest) (hours : Z) : Result (list (string * Num)) :=
  match requests with
  | [] => OK [("avg_latency_ms", NFloat Py.zero);
              ("success_rate", NFloat Py.zero);
              ("requests_per_hour", NFloat Py.zero);
              ("total_requests", NInt 0)]
  | r0 :: rest =>
      let latencies := map latency_ms requests in
      let successes := map success requests in
      match Py.float_div_int (py_sum latencies) (len latencies) with
      | Raise e => Raise e
      | OK avg =>
      match Py.int_truediv (len (filter (λ b, b = true) successes)) (len successes) with
      | Raise e => Raise e
      | OK rate =>
      match Py.int_truediv (len requests) hours with
      | Raise e => Raise e
      | OK per_hour =>
      match p95_index (len latencies) with
      | Raise e => Raise e
      | OK i =>
      match py_index (py_sorted sorted_nan latencies) i with
      | Raise e => Raise e
      | OK p95 =>
          OK [("avg_latency_ms", NFloat avg);
              ("success_rate", NFloat rate);
              ("requests_per_hour", NFloat per_hour);
              ("total_requests", NInt (len requests));
              ("min_latency_ms", NFloat (py_min (latency_ms r0) (map latency_ms rest)));
              ("max_latency_ms", NFloat (py_max (latency_ms r0) (map latency_ms rest)));
              ("p95_latency_ms", NFloat p95)]
      end end end end end
  end.

(** The requests that [get_performance_metrics] collects. *)
Definition window_requests (model : option string) (hours : Z) : M (list LLMRequest) :=
  end_time ← datetime_now;
  delta ← lift (timedelta_hours hours);
  start_time ← lift (datetime_sub end_time delta);
  scan_days (scan_fuel start_time end_time) (date_key model)
            (window_visit start_time end_time (λ _, true)) start_time end_time [].

Definition get_performance_metrics (sorted_nan : list float -> list float)
    (model : option string) (hours : Z) : M (list (string * Num)) :=
  requests ← window_requests model hours;
  lift (performance_dict sorted_nan requests hours).

(** *** Alerts *)

Record Alert : Type := {
  alert_type : string;
  alert_message : float * float;   (* the two amounts the message prints *)
  alert_severity : string;
  alert_timestamp : Z
}.

Definition check_cost_alerts : M (list Alert) :=
  let alerts := [] in
  start_date ← (t ← datetime_now; mret (t - day));
  end_date ← datetime_now;
  daily_metrics ← get_cost_metrics None (Some start_date) (Some end_date);
  s ← settings;
  if Py.flt (cost_alert_threshold s) (total_cost_usd daily_metrics) then
    t ← datetime_now;
    mret (app alerts [{| alert_type := "cost_alert";
                        alert_message := (total_cost_usd daily_metrics, cost_alert_threshold s);
                        alert_severity := "high";
                        alert_timestamp := t |}])
  else mret alerts.

(** *** Error summary *)

Record ErrorSummary : Type := {
  total_errors : Z;
  error_types : list (option string * Z);
  error_rate : float
}.

(** [error_types[msg] = error_types.get(msg, 0) + 1] on a dict kept in
    insertion order. *)
Fixpoint count_error (msg : option string) (types : list (option string * Z))
  : list (option string * Z) :=
  match types with
  | [] => [(msg, 1)]
  | (m, c) :: types' =>
      if decide (m = msg) then (m, c + 1) :: types'
      else (m, c) :: count_error msg types'
  end.

Definition error_dict (errors : list LLMRequest) : Result ErrorSummary :=
  let error_types := fold_left (λ types error, count_error (error_message error) types)
                               errors [] in
  match Py.int_truediv (len errors) (Z.max 1 (len errors + 100)) with
  | Raise e => Raise e
  | OK rate => OK {| total_errors := len errors;
                     error_types := error_types;
                     error_rate := rate |}
  end.

Definition window_errors (hours : Z) : M (list LLMRequest) :=
  end_time ← datetime_now;
  delta ← lift (timedelta_hours hours);
  start_time ← lift (datetime_sub end_time delta);
  scan_days (scan_fuel start_time end_time) (date_key None)
            (window_visit start_time end_time (λ r, negb (success r)))
            start_time end_time [].

Definition get_error_summary (hours : Z) : M ErrorSummary :=
  errors ← window_errors hours;
  lift (error_dict errors).

(** ** [PromptManager] *)

(** [self.prompts]: a dict, kept in insertion order. *)
Fixpoint dict_get {V} (key : string) (d : list (string * V)) : option V :=
  match d with
  | [] => None
  | (k, v) :: d' => if decide (k = key) then Some v else dict_get key d'
  end.

(** Assignment to an attribute of the object stored under [key]. *)
Fixpoint dict_alter {V} (f : V -> V) (key : string) (d : list (string * V))
  : list (string * V) :=
  match d with
  | [] => []
  | (k, v) :: d' =>
      if decide (k = key) then (k, f v) :: d' else (k, v) :: dict_alter f key d'
  end.

Definition with_status (st : PromptStatus) (p : PromptVersion) : PromptVersion :=
  {| pv_id := pv_id p; pv_template_name := pv_template_name p;
     pv_version := pv_version p; pv_template := pv_template p;
     pv_variables := pv_variables p; pv_status := st;
     pv_created_at := pv_created_at p; pv_updated_at := pv_updated_at p;
     pv_performance_metrics := pv_performance_metrics p;
     pv_description := pv_description p; pv_tags := pv_tags p |}.

Definition with_updated_at (t : Z) (p : PromptVersion) : PromptVersion :=
  {| pv_id := pv_id p; pv_template_name := pv_template_name p;
     pv_version := pv_version p; pv_template := pv_template p;
     pv_variables := pv_variables p; pv_status := pv_status p;
     pv_created_at := pv_created_at p; pv_updated_at := t;
     pv_performance_metrics := pv_performance_metrics p;
     pv_description := pv_description p; pv_tags := pv_tags p |}.

Definition status_eqb (a b : PromptStatus) : bool :=
  match a, b with
  | DRAFT, DRAFT | ACTIVE, ACTIVE | TESTING, TESTING | DEPRECATED, DEPRECATED => true
  | _, _ => false
  end.

Definition get_prompt (prompt_id : string) : M (option PromptVersion) := λ w,
  (OK (dict_get prompt_id (w_prompts w)), w).

Definition get_active_prompt (template_name : string) : M (option PromptVersion) := λ w,
  let active_prompts :=
    List.filter (λ p, bool_decide (pv_template_name p = template_name)
                      && status_eqb (pv_status p) ACTIVE)
                (map snd (w_prompts w)) in
  (OK (head active_prompts), w).

(** [obj.attr = v] for the prompt object registered under [key]. *)
Definition mutate_prompt (key : string) (f : PromptVersion -> PromptVersion) : M unit :=
  λ w, (OK tt, set_prompts (dict_alter f key (w_prompts w)) w).

Definition _save_prompt (prompt : PromptVersion) : M unit :=
  try_except
    (s ← settings;
     redis_setex ("prompt:" +:+ pv_id prompt) (prompt_cache_ttl s) (BPrompt prompt))
    (λ e, print (with_exception "Fehler beim Speichern des Prompts: " e)).

(** [_save_prompt(obj)] for the prompt object registered under [key], in its
    current state. *)
Definition save_registered (key : string) : M unit :=
  p ← get_prompt key;
  match p with
  | Some prompt => _save_prompt prompt
  | None => mret tt
  end.

Definition start_ab_test (template_name prompt_id_a prompt_id_b : string)
    (split : float) : M bool :=
  s ← settings;
  if negb (ab_test_enabled s) then
    print "A/B Testing ist deaktiviert";;
    mret false
  else
    prompt_a ← get_prompt prompt_id_a;
    prompt_b ← get_prompt prompt_id_b;
    match prompt_a, prompt_b with
    | Some _, Some _ =>
        mutate_prompt prompt_id_a (with_status TESTING);;
        mutate_prompt prompt_id_b (with_status TESTING);;
        (t ← datetime_now; mutate_prompt prompt_id_a (with_updated_at t));;
        (t ← datetime_now; mutate_prompt prompt_id_b (with_updated_at t));;
        save_registered prompt_id_a;;
        save_registered prompt_id_b;;
        t ← datetime_now;
        let ab_test_config :=
          {| ab_template_name := template_name;
             prompt_a := prompt_id_a;
             prompt_b := prompt_id_b;
             traffic_split := split;
             started_at := t;
             active := true |} in
        redis_setex ("ab_test:" +:+ template_name) 86400 (BAbTest ab_test_config);;
        print ("A/B Test für " +:+ template_name +:+ " gestartet");;
        mret true
    | _, _ =>
        print "Einer oder beide Prompts nicht gefunden";;
        mret false
    end.

(** [ab_test_config.get("active", False)] *)
Definition get_active (d : Blob) : bool :=
  match d with BAbTest c => active c | _ => false end.

(** The choice between the two prompt ids, lines 259 to 267. *)
Definition choose_variant (c : AbTestConfig) (user : option string) : M string :=
  use_version_b ←
    match user with
    | Some u =>
        if truthy u then
          h ← py_hash u;
          let user_hash := h `mod` 100 in
          mret (Py.int_lt_float user_hash (Py.fmul (traffic_split c) Py.hundred))
        else
          x ← random_random; mret (Py.flt x (traffic_split c))
    | None =>
        x ← random_random; mret (Py.flt x (traffic_split c))
    end;
  mret (if use_version_b : bool then prompt_b c else prompt_a c).

Definition get_ab_test_prompt (template_name : string) (user : option string)
  : M (option PromptVersion) :=
  ab_test_data ← redis_get ("ab_test:" +:+ template_name);
  match ab_test_data with
  | None => get_active_prompt template_name
  | Some ab_test_config =>
      if negb (get_active ab_test_config) then get_active_prompt template_name
      else
        match ab_test_config with
        | BAbTest c => prompt_id ← choose_variant c user; get_prompt prompt_id
        | _ => raise KeyError
        end
  end.

(** * The rest of the two managers *)

(** ** [PromptManager]: the other operations on the registry *)

(** [d[key] = v]: an existing key keeps its place, a new key goes last. *)
Fixpoint dict_set {V} (key : string) (v : V) (d : list (string * V)) : list (string * V) :=
  match d with
  | [] => [(key, v)]
  | (k, x) :: d' =>
      if decide (k = key) then (k, v) :: d' else (k, x) :: dict_set key v d'
  end.

(** [del d[key]] *)
Fixpoint dict_del {V} (key : string) (d : list (string * V)) : list (string * V) :=
  match d with
  | [] => []
  | (k, x) :: d' =>
      if decide (k = key) then dict_del key d' else (k, x) :: dict_del key d'
  end.

(** [d.update(other)] *)
Definition dict_update {V} (other d : list (string * V)) : list (string * V) :=
  fold_left (λ acc kv, dict_set kv.1 kv.2 acc) other d.

(** [key in self.prompts] *)
Definition registered (prompt_id : string) : M bool := λ w,
  (OK (bool_decide (is_Some (dict_get prompt_id (w_prompts w)))), w).

(** [self.prompts.keys()] and [self.prompts.values()] *)
Definition prompt_keys : M (list string) := λ w, (OK (map fst (w_prompts w)), w).
Definition prompt_values : M (list PromptVersion) := λ w, (OK (map snd (w_prompts w)), w).

Definition with_performance_metrics (m : list (string * float)) (p : PromptVersion)
  : PromptVersion :=
  {| pv_id := pv_id p; pv_template_name := pv_template_name p;
     pv_version := pv_version p; pv_template := pv_template p;
     pv_variables := pv_variables p; pv_status := pv_status p;
     pv_created_at := pv_created_at p; pv_updated_at := pv_updated_at p;
     pv_performance_metrics := m;
     pv_description := pv_description p; pv_tags := pv_tags p |}.

(** [DEL key] *)
Definition redis_delete (key : string) : M unit :=
  redis_call (λ now r,
    (OK tt, {| r_strings := delete key (r_strings r);
               r_lists := delete key (r_lists r);
               r_faults := r_faults r |})).

(** [KEYS prefix*]: the keys that are alive and start with [prefix].  The
    server lists them in an order of its own, [key_order]. *)
Definition live_keys (now : Z) (r : Redis) : list string :=
  (map fst (List.filter (λ kv, now <=? kv.2.2) (map_to_list (r_strings r)))
   ++ map fst (List.filter (λ kv, match kv.2.2 with Some e => now <=? e | None => true end)
                 (map_to_list (r_lists r))))%list.

Definition redis_keys (key_order : list string -> list string) (prefix : string)
  : M (list string) :=
  redis_call (λ now r,
    (OK (key_order (List.filter (String.prefix prefix) (live_keys now r))), r)).

(** *** [_load_prompts]

    A stored dict that is not the dict of a prompt has no ['created_at']. *)
Definition _load_prompts (key_order : list string -> list string) : M unit :=
  try_except
    (keys ← redis_keys key_order "prompt:";
     foldM (λ _ key,
              prompt_data ← redis_get key;
              match prompt_data with
              | Some (BPrompt prompt) =>
                  λ w, (OK tt, set_prompts (dict_set (pv_id prompt) prompt (w_prompts w)) w)
              | Some _ => raise KeyError
              | None => mret tt
              end) keys tt)
    (λ e, print (with_exception "Fehler beim Laden der Prompts: " e)).

(** *** [datetime.isoformat] *)

Definition zero_pad6 (n : Z) : string := zero_pad2 (n / 10000) +:+ zero_pad4 n.

(** [YYYY-MM-DDTHH:MM:SS], the year with four digits, followed by
    [.ffffff] unless the microseconds are zero. *)
Definition isoformat (t : Z) : string :=
  let '(y, m, d) := civil_from_days (t / day) in
  let tod := t `mod` day in
  let hours := tod / hour in
  let minutes := (tod / (60 * second)) `mod` 60 in
  let seconds := (tod / second) `mod` 60 in
  let microseconds := tod `mod` second in
  zero_pad4 y +:+ "-" +:+ zero_pad2 m +:+ "-" +:+ zero_pad2 d
  +:+ "T" +:+ zero_pad2 hours +:+ ":" +:+ zero_pad2 minutes +:+ ":" +:+ zero_pad2 seconds
  +:+ (if microseconds =? 0 then EmptyString else "." +:+ zero_pad6 microseconds).

(** Time passes: the clock is [elapsed] microseconds further. *)
Definition clock_advances (elapsed : Z) : M unit := λ w,
  (OK tt, set_now (w_now w + elapsed) w).

(** *** [create_prompt]

    [md5_hexdigest] is [hashlib.md5(s.encode()).hexdigest()].  The clock is
    read three times, for the id, for [created_at] and for [updated_at];
    [lapse1] and [lapse2] are the times that pass between the reads. *)
Definition create_prompt (md5_hexdigest : string -> string) (lapse1 lapse2 : Z)
    (template_name template : string) (variables : list string)
    (description : option string) (tags : option (list string)) : M string :=
  now ← datetime_now;
  let timestamp := isoformat now in
  let template_hash := String.substring 0 8 (md5_hexdigest template) in
  let prompt_id := template_name +:+ "_" +:+ timestamp +:+ "_" +:+ template_hash in
  values ← prompt_values;
  let same_name :=
    List.filter (λ p, bool_decide (pv_template_name p = template_name)) values in
  clock_advances lapse1;;
  created ← datetime_now;
  clock_advances lapse2;;
  updated ← datetime_now;
  let prompt :=
    {| pv_id := prompt_id;
       pv_template_name := template_name;
       pv_version := "v" +:+ pretty (len same_name + 1);
       pv_template := template;
       pv_variables := variables;
       pv_status := DRAFT;
       pv_created_at := created;
       pv_updated_at := updated;
       pv_performance_metrics := [];
       pv_description := description;
       pv_tags := match tags with Some (t :: ts) => t :: ts | _ => [] end |} in
  (λ w, (OK tt, set_prompts (dict_set prompt_id prompt (w_prompts w)) w));;
  _save_prompt prompt;;
  print ("Prompt " +:+ template_name +:+ " Version " +:+ pv_version prompt +:+ " erstellt");;
  mret prompt_id.

(** *** [activate_prompt] *)

(** The body of the loop over [self.prompts.values()], for the object
    registered under [key]. *)
Definition deprecate_if_active (template_name key : string) : M unit :=
  other ← get_prompt key;
  match other with
  | Some other_prompt =>
      if bool_decide (pv_template_name other_prompt = template_name)
         && status_eqb (pv_status other_prompt) ACTIVE
      then
        mutate_prompt key (with_status DEPRECATED);;
        (t ← datetime_now; mutate_prompt key (with_updated_at t));;
        save_registered key
      else mret tt
  | None => mret tt
  end.

Definition activate_prompt (prompt_id : string) : M bool :=
  known ← registered prompt_id;
  if negb known then mret false
  else
    found ← get_prompt prompt_id;
    match found with
    | None => raise KeyError
    | Some prompt =>
        keys ← prompt_keys;
        foldM (λ _ key, deprecate_if_active (pv_template_name prompt) key) keys tt;;
        mutate_prompt prompt_id (with_status ACTIVE);;
        (t ← datetime_now; mutate_prompt prompt_id (with_updated_at t));;
        save_registered prompt_id;;
        print ("Prompt " +:+ pv_template_name prompt +:+ " Version "
               +:+ pv_version prompt +:+ " aktiviert");;
        mret true
    end.

(** *** [update_prompt_metrics] *)

Definition update_prompt_metrics (prompt_id : string) (metrics : list (string * float))
  : M bool :=
  known ← registered prompt_id;
  if negb known then mret false
  else
    mutate_prompt prompt_id
      (λ p, with_performance_metrics (dict_update metrics (pv_performance_metrics p)) p);;
    (t ← datetime_now; mutate_prompt prompt_id (with_updated_at t));;
    save_registered prompt_id;;
    mret true.

(** *** [list_prompts] *)

(** [sorted(prompts, key=lambda p: p.updated_at, reverse=True)]: prompts
    with the same key keep their order. *)
Fixpoint insert_newest (p : PromptVersion) (l : list PromptVersion) : list PromptVersion :=
  match l with
  | [] => [p]
  | q :: l' =>
      if pv_updated_at p <? pv_updated_at q then q :: insert_newest p l' else p :: l
  end.
Definition sorted_newest_first (prompts : list PromptVersion) : list PromptVersion :=
  fold_right insert_newest [] prompts.

Definition list_prompts (template_name : option string) (status : option PromptStatus)
  : M (list PromptVersion) :=
  prompts ← prompt_values;
  let prompts :=
    match template_name with
    | Some name =>
        if truthy name
        then List.filter (λ p, bool_decide (pv_template_name p = name)) prompts
        else prompts
    | None => prompts
    end in
  let prompts :=
    match status with
    | Some st => List.filter (λ p, status_eqb (pv_status p) st) prompts
    | None => prompts
    end in
  mret (sorted_newest_first prompts).

(** *** [delete_prompt] *)

Definition delete_prompt (prompt_id : string) : M bool :=
  known ← registered prompt_id;
  if negb known then mret false
  else
    redis_delete ("prompt:" +:+ prompt_id);;
    (λ w, (OK tt, set_prompts (dict_del prompt_id (w_prompts w)) w));;
    print ("Prompt " +:+ prompt_id +:+ " gelöscht");;
    mret true.

(** *** [render_prompt] *)

(** One entry of [PROMPT_TEMPLATES]. *)
Record TemplateConfig : Type := {
  tc_version : string;
  tc_template : string;
  tc_variables : list string
}.

Definition newline : string := String (Ascii.ascii_of_N 10) EmptyString.

Definition PROMPT_TEMPLATES : list (string * TemplateConfig) :=
  [("chatbot",
    {| tc_version := "1.0";
       tc_template :=
         newline
         +:+ "Du bist ein hilfreicher Assistent. Antworte auf Deutsch und sei freundlich und professionell."
         +:+ newline +:+ newline
         +:+ "Kontext: {context}" +:+ newline
         +:+ "Frage: {question}" +:+ newline +:+ newline
         +:+ "Antwort:";
       tc_variables := ["context"; "question"] |});
   ("summarization",
    {| tc_version := "1.0";
       tc_template :=
         newline
         +:+ "Fasse den folgenden Text in maximal 100 Wörtern zusammen:"
         +:+ newline +:+ newline
         +:+ "Text: {text}" +:+ newline +:+ newline
         +:+ "Zusammenfassung:";
       tc_variables := ["text"] |});
   ("translation",
    {| tc_version := "1.0";
       tc_template :=
         newline
         +:+ "Übersetze den folgenden Text von {source_language} nach {target_language}:"
         +:+ newline +:+ newline
         +:+ "Text: {text}" +:+ newline +:+ newline
         +:+ "Übersetzung:";
       tc_variables := ["source_language"; "target_language"; "text"] |})].

(** [PROMPT_TEMPLATES.get(template_name, {})]; [None] is the empty dict. *)
Definition get_prompt_template (template_name : string) : option TemplateConfig :=
  dict_get template_name PROMPT_TEMPLATES.

(** [set(declared) - set(variables.keys())] *)
Definition missing_vars (declared : list string) (variables : list (string * string))
  : list string :=
  List.filter (λ v, negb (bool_decide (is_Some (dict_get v variables)))) declared.

(** [str_format t variables] is [t.format( **variables )]. *)
Definition render_prompt (str_format : string -> list (string * string) -> Result string)
    (template_name : string) (variables : list (string * string))
    (prompt_id : option string) : M string :=
  prompt ← match prompt_id with
           | Some id => if truthy id then get_prompt id
                        else get_active_prompt template_name
           | None => get_active_prompt template_name
           end;
  match prompt with
  | None =>
      match get_prompt_template template_name with
      | None => raise ValueError
      | Some template_config => lift (str_format (tc_template template_config) variables)
      end
  | Some prompt =>
      match missing_vars (pv_variables prompt) variables with
      | _ :: _ => raise ValueError
      | [] =>
          try_except (lift (str_format (pv_template prompt) variables))
            (λ e, match e with
                  | KeyError => raise ValueError
                  | _ => raise e
                  end)
      end
  end.

(** ** [LLMMonitor]: logging a request *)

(** [tokenizer_encode] is [self.tokenizer.encode]. *)
Definition count_tokens (tokenizer_encode : string -> Result (list Z)) (text : string)
  : Result Z :=
  match tokenizer_encode text with
  | OK tokens => OK (len tokens)
  | Raise e => Raise e
  end.

(** *** The Prometheus metrics

    The state of the four metrics is the sequence of the updates made to
    them, oldest first. *)
Inductive MetricUpdate : Type :=
  | CounterInc (name : string) (labels : list (string * string)) (amount : Num)
  | HistogramObserve (name : string) (labels : list (string * string)) (amount : float)
  | GaugeInc (name : string) (labels : list (string * string)) (amount : float).

Definition Prometheus : Type := list MetricUpdate.

(** [Counter.inc(amount)] refuses a negative amount. *)
Definition counter_inc (name : string) (labels : list (string * string)) (amount : Z)
    (reg : Prometheus) : Result Prometheus :=
  if amount <? 0 then Raise ValueError
  else OK (reg ++ [CounterInc name labels (NInt amount)])%list.

Definition histogram_observe (name : string) (labels : list (string * string))
    (amount : Result float) (reg : Prometheus) : Result Prometheus :=
  match amount with
  | OK x => OK (reg ++ [HistogramObserve name labels x])%list
  | Raise e => Raise e
  end.

Definition gauge_inc (name : string) (labels : list (string * string)) (amount : float)
    (reg : Prometheus) : Result Prometheus :=
  OK (reg ++ [GaugeInc name labels amount])%list.

(** The statements of a [try] block that update the metrics: the updates
    made before an exception stay. *)
Fixpoint run_updates (steps : list (Prometheus -> Result Prometheus)) (reg : Prometheus)
  : option exn * Prometheus :=
  match steps with
  | [] => (None, reg)
  | step :: steps' =>
      match step reg with
      | OK reg' => run_updates steps' reg'
      | Raise e => (Some e, reg)
      end
  end.

(** [s or "unknown"] *)
Definition or_unknown (s : option string) : string :=
  match s with
  | Some x => if truthy x then x else "unknown"
  | None => "unknown"
  end.

Definition _update_prometheus_metrics (request : LLMRequest) (reg : Prometheus)
  : M Prometheus :=
  let status := if success request then "success" else "error" in
  let '(failure, reg') :=
    run_updates
      [counter_inc "llm_requests_total"
         [("model", model_name request); ("status", status);
          ("prompt_id", or_unknown (prompt_id request))] 1;
       histogram_observe "llm_request_duration_seconds"
         [("model", model_name request); ("prompt_id", or_unknown (prompt_id request))]
         (Py.float_div_int (latency_ms request) 1000);
       counter_inc "llm_tokens_total"
         [("model", model_name request); ("token_type", "input")] (input_tokens request);
       counter_inc "llm_tokens_total"
         [("model", model_name request); ("token_type", "output")] (output_tokens request);
       gauge_inc "llm_cost_usd"
         [("model", model_name request); ("period", "daily")] (cost_usd request)]
      reg in
  match failure with
  | Some e =>
      logger_error (with_exception "Fehler beim Update der Prometheus Metriken: " e);;
      mret reg'
  | None => mret reg'
  end.

(** [self.logger.info(event, ...)]: the event is kept, its fields are not. *)
Definition logger_info (event : string) : M unit := print event.

Definition log_request (tokenizer_encode : string -> Result (list Z))
    (request_id model_name model_version prompt response : string)
    (latency_ms : float) (success : bool) (error_message prompt_id user_id : option string)
    (metadata : option (list (string * string))) (reg : Prometheus)
  : M (LLMRequest * Prometheus) :=
  input_tokens ← lift (count_tokens tokenizer_encode prompt);
  output_tokens ← (if truthy response then lift (count_tokens tokenizer_encode response)
                   else mret 0);
  cost_usd ← lift (calculate_cost model_name input_tokens output_tokens);
  now ← datetime_now;
  let request :=
    {| request_id := request_id;
       model_name := model_name;
       model_version := model_version;
       prompt_id := prompt_id;
       user_id := user_id;
       timestamp := now;
       input_tokens := input_tokens;
       output_tokens := output_tokens;
       latency_ms := latency_ms;
       cost_usd := cost_usd;
       success := success;
       error_message := error_message;
       metadata := default [] metadata |} in
  _save_request request;;
  reg' ← _update_prometheus_metrics request reg;
  logger_info "LLM request processed";;
  mret (request, reg').
(** * Auxiliary definitions used in the statements *)

(** ** Binary64 rounding *)

(** The number of bits of a positive mantissa. *)
Abbreviation digits p := (Zpos (digits2_pos p)).

(** The sticky and round bits after a right shift by [k] bits. *)
Definition shifted (m : Z) (r0 s0 : bool) (k : Z) : shr_record :=
  if k =? 0 then {| shr_m := m; shr_r := r0; shr_s := s0 |}
  else {| shr_m := m / 2 ^ k;
          shr_r := Z.testbit m (k - 1);
          shr_s := negb (m mod 2 ^ (k - 1) =? 0) || r0 || s0 |}.

(** Round to nearest, ties to even, from the shifted mantissa. *)
Definition rne (mrs : shr_record) : Z :=
  round_nearest_even (shr_m mrs) (loc_of_shr_record mrs).

Definition loc_r (l : location) : bool :=
  match l with loc_Inexact Eq | loc_Inexact Gt => true | _ => false end.
Definition loc_s (l : location) : bool :=
  match l with loc_Inexact Lt | loc_Inexact Gt => true | _ => false end.

(** The mantissa of 53 bits kept from [mx], and its rounding. *)
Definition kept (mx : positive) : Z := Zpos mx / 2 ^ (digits mx - 53).
Definition rounded (mx : positive) (lx : location) : Z :=
  rne (shifted (Zpos mx) (loc_r lx) (loc_s lx) (digits mx - 53)).

Definition round_result (sx : bool) (mx : positive) (ex : Z) (lx : location) : float :=
  let e := ex + (digits mx - 53) in
  if rounded mx lx <? 2 ^ 53 then
    if e <=? 971 then S754_finite sx (Z.to_pos (rounded mx lx)) e else S754_infinity sx
  else
    if e + 1 <=? 971 then S754_finite sx (Z.to_pos (2 ^ 52)) (e + 1) else S754_infinity sx.

(** The quotient of two positive ints: the scaled integer quotient that is
    rounded, when the result is a normal number. *)
Definition div_scale (p q : positive) : Z := Z.max 0 (53 - (digits p - digits q)).
Definition div_quot (p q : positive) : Z := (Zpos p * 2 ^ div_scale p q) / Zpos q.
Definition div_loc (p q : positive) : location :=
  new_location (Zpos q) ((Zpos p * 2 ^ div_scale p q) mod Zpos q).

(** ** Running a computation *)

Definition eval {A} (m : M A) (w : World) : Result A := fst (m w).
Definition exec {A} (m : M A) (w : World) : World := snd (m w).

(** No connection fault is scheduled. *)
Definition connected (w : World) : Prop := r_faults (w_redis w) = [].

(** ** What a scan reads *)

(** The ids listed under a key, the stored dicts that are still alive. *)
Definition bucket (w : World) (key : string) : list string :=
  match live_list (w_now w) (w_redis w) key with Some (l, _) => l | None => [] end.

Definition live_record (w : World) (id : string) : option Blob :=
  live_string (w_now w) (w_redis w) ("request:" +:+ id).

Definition live_blobs (w : World) (ids : list string) : list Blob :=
  omap (live_record w) ids.

(** The instants at which the loop of a scan evaluates its body. *)
Fixpoint visited_days (fuel : nat) (current_date end_date : Z) : list Z :=
  match fuel with
  | O => []
  | S fuel' =>
      if current_date <=? end_date
      then current_date :: visited_days fuel' (current_date + day) end_date
      else []
  end.

(** The dicts a scan reads, in the order it reads them. *)
Definition scanned (w : World) (key : Z -> string) (start_date end_date : Z) : list Blob :=
  flat_map (λ d, live_blobs w (bucket w (key d)))
           (visited_days (scan_fuel start_date end_date) start_date end_date).

Fixpoint fold_result {S B} (g : S -> B -> Result S) (l : list B) (acc : S) : Result S :=
  match l with
  | [] => OK acc
  | b :: l' =>
      match g acc b with
      | OK acc' => fold_result g l' acc'
      | Raise e => Raise e
      end
  end.

(** The step of the two windowed scans, as a function. *)
Definition window_step (start_time end_time : Z) (keep : LLMRequest -> bool)
    (requests : list LLMRequest) (request_dict : Blob) : Result (list LLMRequest) :=
  match as_request request_dict with
  | Raise e => Raise e
  | OK r =>
      if (start_time <=? timestamp r) && (timestamp r <=? end_time) && keep r
      then OK (requests ++ [r])%list
      else OK requests
  end.

(** The start of the window of [hours] hours that ends at [end_time]. *)
Definition window_start (end_time hours : Z) : Result Z :=
  match timedelta_hours hours with
  | OK delta => datetime_sub end_time delta
  | Raise e => Raise e
  end.

(** ** The rate table, as the specification words it *)

Definition rate_table : list (string * float) :=
  [("gpt-4", Py.ratio 3 100);
   ("gpt-3.5-turbo", Py.ratio 2 1000);
   ("claude-3-opus", Py.ratio 15 1000);
   ("claude-3-sonnet", Py.ratio 3 1000)].

(** The rate of a model; the rate of the default entry, ["gpt-4"], for an
    unknown name. *)
Definition rate_of (name : string) : float :=
  default (Py.ratio 3 100) (dict_get name rate_table).

(** ** Reading leaves the data alone *)

(** [w'] differs from [w] at most in the schedule of connection faults. *)
Definition same_data (w w' : World) : Prop :=
  w_settings w' = w_settings w /\ w_now w' = w_now w /\ w_prompts w' = w_prompts w
  /\ w_hash w' = w_hash w /\ w_rng w' = w_rng w /\ w_out w' = w_out w
  /\ r_strings (w_redis w') = r_strings (w_redis w)
  /\ r_lists (w_redis w') = r_lists (w_redis w).


(** ** Cost metrics from the totals of the scan *)

Definition cost_metrics_of (totals : float * Z * Z) (start_date end_date : Z)
  : Result CostMetrics :=
  let '(total_cost, total_requests, total_tokens) := totals in
  match (if 0 <? total_requests then Py.float_div_int total_cost total_requests
         else OK Py.zero) with
  | Raise e => Raise e
  | OK per_request =>
      match (if 0 <? total_tokens then Py.float_div_int total_cost total_tokens
             else OK Py.zero) with
      | Raise e => Raise e
      | OK per_token =>
          OK {| total_cost_usd := total_cost;
                cost_per_request := per_request;
                cost_per_token := per_token;
                requests_count := total_requests;
                tokens_count := total_tokens;
                period_start := start_date;
                period_end := end_date |}
      end
  end.

(** ** Error summary *)

(** The dict of error messages and their counts. *)
Definition error_types_of (errors : list LLMRequest) : list (option string * Z) :=
  fold_left (λ types error, count_error (error_message error) types) errors [].

(** ** Writing to the store *)

(** [w'] has the clock, settings, registry, generator and output of [w]. *)
Definition same_env (w w' : World) : Prop :=
  w_settings w' = w_settings w /\ w_now w' = w_now w /\ w_prompts w' = w_prompts w
  /\ w_hash w' = w_hash w /\ w_rng w' = w_rng w /\ w_out w' = w_out w.

Definition live (w : World) (key : string) : option Blob :=
  live_string (w_now w) (w_redis w) key.

(** The store does not answer: every command of the next call fails. *)
Definition unavailable (w : World) : World :=
  set_redis {| r_strings := r_strings (w_redis w); r_lists := r_lists (w_redis w);
               r_faults := [true; true; true; true; true; true; true; true] |} w.

(** *** Connection faults during a call *)

(** The same world with [fs] as the schedule of connection faults, and with
    a store that answers. *)
Definition with_faults (fs : list bool) (w : World) : World :=
  set_redis {| r_strings := r_strings (w_redis w); r_lists := r_lists (w_redis w);
               r_faults := fs |} w.

Definition reachable (w : World) : World := with_faults [] w.

(** [w'] holds the strings and the lists of [w]. *)
Definition same_store (w w' : World) : Prop :=
  r_strings (w_redis w') = r_strings (w_redis w)
  /\ r_lists (w_redis w') = r_lists (w_redis w).

(** The five commands that [_save_request] sends, in their order. *)
Definition save_commands (request : LLMRequest) : list (M unit) :=
  let request_key := "request:" +:+ request_id request in
  let date_key := "requests:" +:+ strftime_Ymd (timestamp request) in
  let model_key := "model_requests:" +:+ model_name request +:+ ":"
                   +:+ strftime_Ymd (timestamp request) in
  [redis_setex request_key 86400 (BRequest request);
   redis_lpush date_key (request_id request);
   redis_expire date_key 2592000;
   redis_lpush model_key (request_id request);
   redis_expire model_key 2592000].

Fixpoint run_commands (commands : list (M unit)) : M unit :=
  match commands with
  | [] => mret tt
  | command :: commands' => command;; run_commands commands'
  end.

(** How many of [n] commands are carried out: those before the first
    fault of the schedule. *)
Fixpoint commands_done (n : nat) (fs : list bool) : nat :=
  match n, fs with
  | O, _ => O
  | S n', [] => S n'
  | S n', true :: _ => O
  | S n', false :: fs' => S (commands_done n' fs')
  end.

(** A command to the store that succeeds whenever the connection does, and
    whose effect does not depend on the faults to come. *)
Definition store_command (c : M unit) : Prop :=
  forall (fs : list bool) (b : World),
    connected b ->
    exists b',
      c b = (OK tt, b') /\ connected b' /\ same_env b b'
      /\ c (with_faults (true :: fs) b) = (Raise ConnectionError, with_faults fs b)
      /\ c (with_faults (false :: fs) b) = (OK tt, with_faults fs b').

(** The instants of the requests whose records the store holds. *)
Definition stored_timestamps (w : World) : list Z :=
  omap (λ kv, match kv.2.1 with BRequest r => Some (timestamp r) | _ => None end)
       (map_to_list (r_strings (w_redis w))).

(** ** Experiment assignment *)

(** The prompt id chosen for a user whose id hashes to [h]. *)
Definition sticky_variant (c : AbTestConfig) (h : Z) : string :=
  if Py.int_lt_float (h `mod` 100) (Py.fmul (traffic_split c) Py.hundred)
  then prompt_b c else prompt_a c.

(** The id of the prompt that a call returned. *)
Definition assigned_id (r : Result (option PromptVersion)) : option string :=
  match r with OK (Some p) => Some (pv_id p) | _ => None end.

(** A draw of [random.random()] lies in [0, 1). *)
Definition unit_draw (x : float) : Prop :=
  Py.fle Py.zero x = true /\ Py.flt x Py.one = true.

(** ** Alerts *)

Definition cost_alert (total threshold : float) (t : Z) : Alert :=
  {| alert_type := "cost_alert";
     alert_message := (total, threshold);
     alert_severity := "high";
     alert_timestamp := t |}.

Definition zero_cost_metrics (start_date end_date : Z) : CostMetrics :=
  {| total_cost_usd := Py.zero; cost_per_request := Py.zero; cost_per_token := Py.zero;
     requests_count := 0; tokens_count := 0;
     period_start := start_date; period_end := end_date |}.

Definition zero_performance : list (string * Num) :=
  [("avg_latency_ms", NFloat Py.zero);
   ("success_rate", NFloat Py.zero);
   ("requests_per_hour", NFloat Py.zero);
   ("total_requests", NInt 0)].

(** ** Sample worlds *)

Definition sample_settings : Settings :=
  {| cost_alert_threshold := Py.ratio 100 1; ab_test_enabled := true;
     prompt_cache_ttl := 3600 |}.

Definition sample_prompt (id : string) : PromptVersion :=
  {| pv_id := id; pv_template_name := "chat"; pv_version := "v1"; pv_template := "Hi";
     pv_variables := []; pv_status := DRAFT; pv_created_at := 0; pv_updated_at := 0;
     pv_performance_metrics := []; pv_description := None; pv_tags := [] |}.

Definition sample_request (id : string) (t : Z) (latency cost : float) (ok : bool)
  : LLMRequest :=
  {| request_id := id; model_name := "gpt-4"; model_version := "1";
     prompt_id := None; user_id := None; timestamp := t;
     input_tokens := 100; output_tokens := 50;
     latency_ms := latency; cost_usd := cost; success := ok;
     error_message := if ok then None else Some "timeout"; metadata := [] |}.

(** A sample prompt once [start_ab_test] has put it under test at noon. *)
Definition sample_prompt_testing (id : string) : PromptVersion :=
  with_updated_at (at_time 19723 12 0 0) (with_status TESTING (sample_prompt id)).

(** 2024-01-01 is day 19723.  An empty store, two registered prompts, a
    generator that draws 0.1 and then 0.9 for ever. *)
Definition sample_world (t : Z) : World :=
  {| w_settings := sample_settings;
     w_now := t;
     w_redis := {| r_strings := ∅; r_lists := ∅; r_faults := [] |};
     w_prompts := [("pa", sample_prompt "pa"); ("pb", sample_prompt "pb")];
     w_hash := λ s, Z.of_nat (String.length s) * 37;
     w_rng := λ n, match n with O => Py.ratio 1 10 | _ => Py.ratio 9 10 end;
     w_out := [] |}.

Definition noon : Z := at_time 19723 12 0 0.

(** Two requests logged on 2024-01-01 before noon, costing 60 and 40 USD. *)
Definition world_at_threshold : World :=
  exec (_save_request (sample_request "r2" (at_time 19723 11 30 0)
                         (Py.ratio 250 1) (Py.ratio 40 1) false))
    (exec (_save_request (sample_request "r1" (at_time 19723 11 0 0)
                            (Py.ratio 150 1) (Py.ratio 60 1) true))
       (sample_world noon)).

(** A third request of one cent. *)
Definition world_over_threshold : World :=
  exec (_save_request (sample_request "r3" (at_time 19723 11 45 0)
                         (Py.ratio 90 1) (Py.ratio 1 100) true))
    world_at_threshold.

(** An experiment on the two sample prompts, half of the traffic to B. *)
Definition world_with_experiment : World :=
  exec (start_ab_test "chat" "pa" "pb" (Py.ratio 1 2)) (sample_world noon).

(** ** Percentiles *)

Definition fle_prop (a b : float) : Prop := Py.fle a b = true.

(** Twenty requests with latencies 100, 200, ..., 2000 ms, out of order. *)
Definition twenty_latencies : list Z :=
  [700; 1900; 300; 2000; 100; 1500; 900; 1200; 400; 1700;
   600; 1100; 200; 1800; 1000; 500; 1400; 800; 1600; 1300].

Definition twenty_requests : list LLMRequest :=
  imap (λ i ms, sample_request ("r" +:+ zero_pad2 (Z.of_nat i)) (at_time 19723 11 0 0)
                               (Py.of_Z ms) (Py.ratio 1 100) true)
       twenty_latencies.

(** The store at noon after the twenty requests were logged. *)
Definition world_twenty : World :=
  fold_left (λ w r, exec (_save_request r) w) twenty_requests (sample_world noon).

(** ** A window across midnight *)

(** 2024-01-01 23:00 and 2024-01-02 01:00. *)
Definition late_start : Z := at_time 19723 23 0 0.
Definition early_end : Z := at_time 19724 1 0 0.

(** A request logged on 2024-01-02 at 00:30, inside that window. *)
Definition midnight_request : LLMRequest :=
  sample_request "r1" (at_time 19724 0 30 0) (Py.ratio 150 1) (Py.ratio 5 1) true.

(** The store a quarter of an hour later. *)
Definition world_after_midnight : World :=
  set_now (at_time 19724 0 45 0)
    (exec (_save_request midnight_request) (sample_world (at_time 19724 0 30 0))).

(** The sample store with the clock at 13:00: both of its requests are older
    than one hour. *)
Definition world_at_one : World := set_now (noon + hour) world_at_threshold.

(** A request that failed on 2024-01-02 at 00:30, and the store a quarter of
    an hour later. *)
Definition failed_midnight_request : LLMRequest :=
  sample_request "r1" (at_time 19724 0 30 0) (Py.ratio 150 1) (Py.ratio 5 1) false.

Definition world_failed_after_midnight : World :=
  set_now (at_time 19724 0 45 0)
    (exec (_save_request failed_midnight_request) (sample_world (at_time 19724 0 30 0))).

(** A request stamped with the present instant. *)
Definition world_stamped_now : World :=
  exec (_save_request (sample_request "r1" noon (Py.ratio 150 1) (Py.ratio 60 1) true))
       (sample_world noon).

(** ** The passing of time *)

(** The same world, [elapsed] microseconds later. *)
Definition later (elapsed : Z) (w : World) : World := set_now (w_now w + elapsed) w.

(** ** Totals of a cost scan *)

Definition tokens_of (request : LLMRequest) : Z :=
  input_tokens request + output_tokens request.

Definition cost_totals (w : World) (model : option string) (start_date end_date : Z)
  : float * Z * Z :=
  fold_left cost_step (scanned w (date_key model) start_date end_date) (Py.zero, 0, 0).

(** ** Error messages and their counts *)

(** [error_types.get(msg, 0)] *)
Fixpoint type_count (msg : option string) (types : list (option string * Z)) : Z :=
  match types with
  | [] => 0
  | (m, c) :: types' => if decide (m = msg) then c else type_count msg types'
  end.

(** The number of errors that carry the message [msg]. *)
Definition occurrences (msg : option string) (errors : list LLMRequest) : Z :=
  len (List.filter (λ e, bool_decide (error_message e = msg)) errors).

Definition sum_Z (l : list Z) : Z := fold_right Z.add 0 l.

(** ** The order of doubles *)

Definition not_nan (x : float) : Prop := Py.is_nan x = false.

(** ** The registry of prompts *)

(** The keys of a dict are distinct. *)
Definition distinct_keys {V} (d : list (string * V)) : Prop := List.NoDup (map fst d).

(** [w'] has the settings, the clock, the hash and the generator of [w]; the
    store, the registry and the output may differ. *)
Definition same_clock (w w' : World) : Prop :=
  w_settings w' = w_settings w /\ w_now w' = w_now w
  /\ w_hash w' = w_hash w /\ w_rng w' = w_rng w.

(** What [activate_prompt], at the instant [now], makes of a prompt that it
    deactivates and of the prompt that it activates. *)
Definition deprecated (now : Z) (template_name : string) (p : PromptVersion)
  : PromptVersion :=
  if bool_decide (pv_template_name p = template_name) && status_eqb (pv_status p) ACTIVE
  then with_updated_at now (with_status DEPRECATED p)
  else p.

Definition activated (now : Z) (p : PromptVersion) : PromptVersion :=
  with_updated_at now (with_status ACTIVE p).

(** One turn of the loop of [activate_prompt], on the registry. *)
Definition deprecate_key (now : Z) (template_name key : string)
    (ps : list (string * PromptVersion)) : list (string * PromptVersion) :=
  match dict_get key ps with
  | Some other =>
      if bool_decide (pv_template_name other = template_name)
         && status_eqb (pv_status other) ACTIVE
      then dict_alter (with_updated_at now) key (dict_alter (with_status DEPRECATED) key ps)
      else ps
  | None => ps
  end.

(** The registry after [activate_prompt prompt_id]. *)
Definition registry_after_activation (now : Z) (template_name prompt_id : string)
    (ps : list (string * PromptVersion)) : list (string * PromptVersion) :=
  map (λ kv, (kv.1, if decide (kv.1 = prompt_id) then activated now kv.2
                    else deprecated now template_name kv.2)) ps.

(** The prompts of a template that are active. *)
Definition active_of (template_name : string) (ps : list (string * PromptVersion))
  : list PromptVersion :=
  List.filter (λ p, bool_decide (pv_template_name p = template_name)
                    && status_eqb (pv_status p) ACTIVE) (map snd ps).

(** The number of registered prompts of a template. *)
Definition versions_of (template_name : string) (ps : list (string * PromptVersion)) : Z :=
  len (List.filter (λ p, bool_decide (pv_template_name p = template_name)) (map snd ps)).

(** A stand-in for the hex digest of MD5, for the examples. *)
Definition sample_digest (s : string) : string := "0123456789abcdef0123456789abcdef".

(** ** Listing prompts *)

(** A prompt passes the filters of [list_prompts]: an absent or empty
    template name, and an absent status, filter nothing. *)
Definition matching (template_name : option string) (status : option PromptStatus)
    (p : PromptVersion) : bool :=
  match template_name with
  | Some name => if truthy name then bool_decide (pv_template_name p = name) else true
  | None => true
  end
  && match status with
     | Some st => status_eqb (pv_status p) st
     | None => true
     end.

(** [p] comes before [q] in a list sorted by [updated_at], newest first. *)
Definition not_older (p q : PromptVersion) : Prop := pv_updated_at q <= pv_updated_at p.

(** The prompts of a list that were updated at [t]. *)
Definition updated_at_instant (t : Z) (l : list PromptVersion) : list PromptVersion :=
  List.filter (λ p, pv_updated_at p =? t) l.

(** ** Logging a request *)

(** The five updates of the metrics that a request with non-negative token
    counts causes, [seconds] being its latency in seconds. *)
Definition updates_of (request : LLMRequest) (seconds : float) : list MetricUpdate :=
  [CounterInc "llm_requests_total"
     [("model", model_name request);
      ("status", if success request then "success" else "error");
      ("prompt_id", or_unknown (prompt_id request))] (NInt 1);
   HistogramObserve "llm_request_duration_seconds"
     [("model", model_name request); ("prompt_id", or_unknown (prompt_id request))] seconds;
   CounterInc "llm_tokens_total"
     [("model", model_name request); ("token_type", "input")]
     (NInt (input_tokens request));
   CounterInc "llm_tokens_total"
     [("model", model_name request); ("token_type", "output")]
     (NInt (output_tokens request));
   GaugeInc "llm_cost_usd"
     [("model", model_name request); ("period", "daily")] (cost_usd request)].

(** A tokenizer that makes one token of every character and refuses the
    text ["<|endoftext|>"], as the tokenizer of the monitor refuses the
    special tokens. *)
Definition sample_encode (text : string) : Result (list Z) :=
  if bool_decide (text = "<|endoftext|>") then Raise ValueError
  else OK (map (λ c, Z.of_N (Ascii.N_of_ascii c)) (String.list_ascii_of_string text)).

(** ** Rendering *)

(** The result of formatting the template of a registered prompt: a
    [KeyError] of [str.format] is raised again as a [ValueError]. *)
Definition registered_rendering (r : Result string) : Result string :=
  match r with
  | Raise KeyError => Raise ValueError
  | _ => r
  end.

(** The result of formatting the built-in template of a name, [ValueError]
    when there is none. *)
Definition builtin_rendering (str_format : string -> list (string * string) -> Result string)
    (template_name : string) (variables : list (string * string)) : Result string :=
  match get_prompt_template template_name with
  | Some template_config => str_format (tc_template template_config) variables
  | None => Raise ValueError
  end.

(** A stand-in for [str.format], for the examples: it knows the field
    [{name}] only, and needs it. *)
Definition sample_format (template : string) (variables : list (string * string))
  : Result string :=
  match dict_get "name" variables with
  | Some v => OK (template +:+ v)
  | None => Raise KeyError
  end.

(** ** The prompts in the store *)

(** Every value alive under a key ["prompt:..."] is the dict of a prompt,
    stored under ["prompt:<id>"] for its own id, and no list is alive under
    such a key: the state of a store that only [_save_prompt] writes such
    keys to. *)
Definition prompt_store_ok (w : World) : bool :=
  forallb (λ kv, negb (String.prefix "prompt:" kv.1) || negb (w_now w <=? kv.2.2)
                 || match kv.2.1 with
                    | BPrompt p => bool_decide (kv.1 = "prompt:" +:+ pv_id p)
                    | _ => false
                    end)
          (map_to_list (r_strings (w_redis w)))
  && forallb (λ kv, negb (String.prefix "prompt:" kv.1)
                    || negb match kv.2.2 with Some e => w_now w <=? e | None => true end)
             (map_to_list (r_lists (w_redis w))).

(** The prompt that the store holds for an id. *)
Definition stored_prompt (w : World) (prompt_id : string) : option PromptVersion :=
  match live w ("prompt:" +:+ prompt_id) with
  | Some (BPrompt p) => Some p
  | _ => None
  end.

(** A new process: the registry is empty, the store is what it was. *)
Definition restarted (w : World) : World := set_prompts [] w.

(** One turn of the loop of [_load_prompts], on the registry. *)
Definition load_key (w : World) (ps : list (string * PromptVersion)) (key : string)
  : list (string * PromptVersion) :=
  match live w key with
  | Some (BPrompt p) => dict_set (pv_id p) p ps
  | _ => ps
  end.

(** ** A second process *)

(** [hash] of a str is salted when the interpreter starts: another process
    has another hash. *)
Definition set_hash (h : string -> Z) (w : World) : World :=
  {| w_settings := w_settings w; w_now := w_now w; w_redis := w_redis w;
     w_prompts := w_prompts w; w_hash := h; w_rng := w_rng w; w_out := w_out w |}.

Definition other_hash (s : string) : Z := Z.of_nat (String.length s) * 37 + 60.

(** A process started on the store of [w]: it has the hash [h], and its
    [PromptManager] loads the registry from the store. *)
Definition second_process (h : string -> Z) (w : World) : World :=
  exec (_load_prompts (λ keys, keys)) (restarted (set_hash h w)).
(** * Properties *)

(** ** Binary64 rounding *)

Lemma digits2_size (p : positive) : digits2_pos p = Pos.size p.
Proof. induction p; simpl; congruence. Qed.

Lemma digits_bounds (p : positive) :
  2 ^ (digits p - 1) <= Zpos p < 2 ^ digits p.
Proof.
  simpl. rewrite digits2_size. split.
  - pose proof (Pos.size_le p) as H.
    assert (Hz : 2 ^ Zpos (Pos.size p) <= Zpos p~0).
    { rewrite <- Pos2Z.inj_pow. apply Pos2Z.pos_le_pos. exact H. }
    replace (Zpos (Pos.size p)) with (Zpos (Pos.size p) - 1 + 1) in Hz by lia.
    rewrite Z.pow_add_r in Hz by lia. lia.
  - pose proof (Pos.size_gt p) as H.
    rewrite <- Pos2Z.inj_pow. apply Pos2Z.pos_lt_pos. exact H.
Qed.

Lemma digits_unique (p : positive) (d : Z) :
  2 ^ (d - 1) <= Zpos p < 2 ^ d -> digits p = d.
Proof.
  intros [Hlo Hhi]. pose proof (digits_bounds p) as [Blo Bhi].
  cbv beta in *.
  assert (Hd : 0 < d).
  { destruct (Z.ltb_spec 0 d) as [|Hle]; [done|].
    assert (2 ^ d <= 1); [|lia].
    destruct (Z.eq_dec d 0) as [->|]; [simpl; lia|].
    rewrite Z.pow_neg_r; lia. }
  destruct (Z.lt_trichotomy (Zpos (digits2_pos p)) d) as [Hlt | [Heq | Hgt]]; [|done|].
  - assert (2 ^ Zpos (digits2_pos p) <= 2 ^ (d - 1)) by (apply Z.pow_le_mono_r; lia). lia.
  - assert (2 ^ d <= 2 ^ (Zpos (digits2_pos p) - 1)) by (apply Z.pow_le_mono_r; lia). lia.
Qed.

Lemma iter_pos_iter {A} (f : A -> A) (n : positive) (x : A) :
  SpecFloat.iter_pos f n x = Pos.iter f x n.
Proof.
  revert x. induction n as [n IH | n IH |]; intros x; simpl.
  - rewrite !IH. rewrite <- !Pos.iter_swap. done.
  - rewrite !IH. done.
  - done.
Qed.

Lemma shr_1_nonneg (m : Z) (r s : bool) :
  0 <= m ->
  shr_1 {| shr_m := m; shr_r := r; shr_s := s |}
  = {| shr_m := m / 2; shr_r := Z.odd m; shr_s := r || s |}.
Proof.
  intros Hm. destruct m as [|p|p]; [done| |lia].
  destruct p as [p|p|]; simpl; f_equal.
  - rewrite Pos2Z.inj_xI. apply Z.div_unique with 1; lia.
  - rewrite Pos2Z.inj_xO. apply Z.div_unique with 0; lia.
Qed.

Lemma sticky_step (m k : Z) :
  0 <= m -> 1 <= k ->
  (m mod 2 ^ k =? 0) = negb (Z.testbit m (k - 1)) && (m mod 2 ^ (k - 1) =? 0).
Proof.
  intros Hm Hk.
  assert (Hp : 0 < 2 ^ (k - 1)) by (apply Z.pow_pos_nonneg; lia).
  replace (2 ^ k) with (2 ^ (k - 1) * 2).
  2:{ rewrite <- (Z.pow_1_r 2) at 2. rewrite <- Z.pow_add_r by lia. f_equal. lia. }
  rewrite Z.rem_mul_r by lia.
  rewrite <- Z.testbit_spec' by lia.
  pose proof (Z.mod_pos_bound m (2 ^ (k - 1)) Hp) as Hb.
  destruct (Z.testbit m (k - 1)); simpl Z.b2z; simpl negb.
  - apply Z.eqb_neq. lia.
  - rewrite Z.mul_0_r, Z.add_0_r. done.
Qed.

Lemma shr_iter (m : Z) (r0 s0 : bool) (k : positive) :
  0 <= m ->
  SpecFloat.iter_pos shr_1 k {| shr_m := m; shr_r := r0; shr_s := s0 |}
  = shifted m r0 s0 (Zpos k).
Proof.
  intros Hm. rewrite iter_pos_iter. unfold shifted.
  induction k as [|k IH] using Pos.peano_ind.
  - cbn [Pos.iter]. rewrite shr_1_nonneg by done. cbn [Z.eqb].
    f_equal. change (2 ^ (1 - 1)) with 1. rewrite Z.mod_1_r. done.
  - rewrite Pos.iter_succ, IH.
    replace (Zpos k =? 0) with false by (symmetry; apply Z.eqb_neq; lia).
    replace (Zpos (Pos.succ k) =? 0) with false by (symmetry; apply Z.eqb_neq; lia).
    assert (Hp : 0 < 2 ^ Zpos k) by (apply Z.pow_pos_nonneg; lia).
    rewrite shr_1_nonneg by (apply Z.div_pos; lia).
    rewrite Pos2Z.inj_succ.
    replace (Z.succ (Zpos k) - 1) with (Zpos k) by lia.
    f_equal.
    + rewrite Z.div_div by lia. f_equal.
      rewrite Z.pow_succ_r by lia. lia.
    + rewrite Z.testbit_odd, Z.shiftr_div_pow2 by lia. done.
    + rewrite (sticky_step m (Zpos k)) by lia.
      destruct (Z.testbit m (Zpos k - 1)), (m mod 2 ^ (Zpos k - 1) =? 0), r0, s0; done.
Qed.

Lemma shr_spec (m : Z) (r0 s0 : bool) (e n : Z) :
  0 <= m ->
  shr {| shr_m := m; shr_r := r0; shr_s := s0 |} e n
  = (shifted m r0 s0 (Z.max 0 n), e + Z.max 0 n).
Proof.
  intros Hm. destruct n as [|p|p]; simpl shr.
  - unfold shifted; simpl. rewrite Z.add_0_r. done.
  - rewrite shr_iter by done. replace (Z.max 0 (Zpos p)) with (Zpos p) by lia. done.
  - unfold shifted; simpl. rewrite Z.add_0_r. done.
Qed.

Lemma rne_cases (mrs : shr_record) :
  (rne mrs = shr_m mrs \/ rne mrs = shr_m mrs + 1)
  /\ (rne mrs = shr_m mrs + 1 -> shr_r mrs = true)
  /\ (shr_r mrs = true -> shr_s mrs = true -> rne mrs = shr_m mrs + 1)
  /\ (shr_r mrs = false -> rne mrs = shr_m mrs).
Proof.
  destruct mrs as [m [|] [|]]; unfold rne; simpl;
    try destruct (Z.even m); repeat split; intros; try done; auto; lia.
Qed.

Lemma shr_record_of_loc_eq (m : Z) (l : location) :
  shr_record_of_loc m l = {| shr_m := m; shr_r := loc_r l; shr_s := loc_s l |}.
Proof. destruct l as [|[]]; done. Qed.

Lemma shifted_m (m : Z) (r0 s0 : bool) (k : Z) :
  0 <= k -> shr_m (shifted m r0 s0 k) = m / 2 ^ k.
Proof.
  intros Hk. unfold shifted. destruct (Z.eqb_spec k 0) as [->|]; simpl.
  - rewrite Z.div_1_r. done.
  - done.
Qed.

Lemma kept_bounds (mx : positive) :
  53 <= digits mx -> 2 ^ 52 <= kept mx < 2 ^ 53.
Proof.
  intros Hd. unfold kept. pose proof (digits_bounds mx) as [Hlo Hhi].
  set (d := digits mx) in *.
  assert (Hp : 0 < 2 ^ (d - 53)) by (apply Z.pow_pos_nonneg; lia).
  split.
  - apply Z.div_le_lower_bound; [lia|].
    rewrite Z.mul_comm, <- Z.pow_add_r by lia.
    replace (52 + (d - 53)) with (d - 1) by lia. done.
  - apply Z.div_lt_upper_bound; [lia|].
    rewrite <- Z.pow_add_r by lia.
    replace (d - 53 + 53) with d by lia. done.
Qed.

Lemma rounded_cases (mx : positive) (lx : location) :
  53 <= digits mx ->
  rounded mx lx = kept mx \/ rounded mx lx = kept mx + 1.
Proof.
  intros Hd. unfold rounded, kept.
  destruct (rne_cases (shifted (Zpos mx) (loc_r lx) (loc_s lx) (digits mx - 53)))
    as [H _].
  rewrite shifted_m in H by lia. done.
Qed.

Lemma binary_round_aux_normal (sx : bool) (mx : positive) (ex : Z) (lx : location) :
  53 <= digits mx ->
  -1074 <= digits mx + ex - 53 ->
  binary_round_aux Py.prec Py.emax sx (Zpos mx) ex lx = round_result sx mx ex lx.
Proof.
  intros Hd He.
  pose proof (kept_bounds mx Hd) as Hk.
  pose proof (rounded_cases mx lx Hd) as Hr.
  unfold binary_round_aux, shr_fexp, round_result.
  change (Zdigits2 (Zpos mx)) with (digits mx).
  fold (rne (shifted (Zpos mx) (loc_r lx) (loc_s lx) (digits mx - 53))).
  set (d := digits mx) in *.
  assert (Hf : forall x, -1074 <= x - 53 -> fexp Py.prec Py.emax x = x - 53).
  { intros x Hx. unfold fexp, emin, Py.prec, Py.emax. lia. }
  rewrite Hf by lia.
  replace (d + ex - 53 - ex) with (d - 53) by lia.
  rewrite shr_record_of_loc_eq, shr_spec by lia.
  replace (Z.max 0 (d - 53)) with (d - 53) by lia.
  assert (Hm2 : round_nearest_even
                  (shr_m (shifted (Zpos mx) (loc_r lx) (loc_s lx) (d - 53)))
                  (loc_of_shr_record (shifted (Zpos mx) (loc_r lx) (loc_s lx) (d - 53)))
                = rounded mx lx) by reflexivity.
  rewrite !Hm2. clear Hm2.
  set (m2 := rounded mx lx) in *.
  set (e := ex + (d - 53)).
  change (Py.emax - Py.prec) with 971.
  change (2 ^ 53) with 9007199254740992 in *.
  change (2 ^ 52) with 4503599627370496 in *.
  destruct m2 as [|p|p] eqn:Ep; [lia| |lia].
  rewrite shr_record_of_loc_eq, shr_spec by lia.
  change (Zdigits2 (Zpos p)) with (digits p).
  destruct (Z.ltb_spec (Zpos p) 9007199254740992) as [Hlt|Hge].
  - rewrite (digits_unique p 53) by (change (2 ^ (53 - 1)) with 4503599627370496;
                                      change (2 ^ 53) with 9007199254740992; lia).
    rewrite Hf by lia.
    replace (53 + e - 53 - e) with 0 by lia.
    cbn [Z.max Z.compare shifted Z.eqb shr_m]. rewrite Z.add_0_r. done.
  - assert (Zpos p = 9007199254740992) as Hp by lia.
    rewrite (digits_unique p 54) by (change (2 ^ (54 - 1)) with 9007199254740992;
                                      change (2 ^ 54) with 18014398509481984; lia).
    rewrite Hf by lia.
    replace (54 + e - 53 - e) with 1 by lia.
    change (Z.max 0 1) with 1.
    rewrite shifted_m by lia. rewrite Hp. done.
Qed.


Lemma round_result_finite (sx : bool) (mx : positive) (ex : Z) (lx : location) :
  digits mx + ex <= 1023 ->
  exists m e, round_result sx mx ex lx = S754_finite sx m e.
Proof.
  intros H. unfold round_result.
  destruct (_ <? _).
  - destruct (Z.leb_spec (ex + (digits mx - 53)) 971); [eauto | lia].
  - destruct (Z.leb_spec (ex + (digits mx - 53) + 1) 971); [eauto | lia].
Qed.

Lemma iter_xO (p k : positive) : Zpos (Pos.iter xO p k) = Zpos p * 2 ^ Zpos k.
Proof.
  induction k as [|k IH] using Pos.peano_ind.
  - simpl. lia.
  - rewrite Pos.iter_succ, Pos2Z.inj_xO, IH, Pos2Z.inj_succ, Z.pow_succ_r by lia. lia.
Qed.

Lemma digits_shift (p : positive) (k : Z) (m : positive) :
  0 <= k -> Zpos m = Zpos p * 2 ^ k -> digits m = digits p + k.
Proof.
  intros Hk Hm. apply digits_unique. rewrite Hm.
  pose proof (digits_bounds p) as [Hlo Hhi].
  assert (Hp : 0 < 2 ^ k) by (apply Z.pow_pos_nonneg; lia).
  replace (digits p + k - 1) with (digits p - 1 + k) by lia.
  rewrite !Z.pow_add_r by lia. split.
  - apply Z.mul_le_mono_nonneg_r; lia.
  - apply Z.mul_lt_mono_pos_r; lia.
Qed.

(** [float(n)] for a positive int. *)
Lemma of_Z_pos_small (p : positive) :
  digits p <= 53 ->
  Py.of_Z (Zpos p)
  = S754_finite false (Z.to_pos (Zpos p * 2 ^ (53 - digits p))) (digits p - 53).
Proof.
  intros Hd. unfold Py.of_Z, binary_normalize, binary_round.
  assert (Hf : fexp Py.prec Py.emax (digits p + 0) = digits p - 53).
  { unfold fexp, emin, Py.prec, Py.emax. lia. }
  rewrite Hf. unfold shl_align.
  destruct (Z.eq_dec (digits p) 53) as [E53|N53].
  - rewrite E53. change (53 - 53 - 0) with 0. change (53 - 53) with 0. cbv beta iota.
    rewrite binary_round_aux_normal by lia.
    unfold round_result, rounded. rewrite E53. change (53 - 53) with 0.
    unfold shifted, rne. cbn [Z.eqb shr_m loc_of_shr_record loc_r loc_s round_nearest_even].
    change (2 ^ 0) with 1. rewrite Z.mul_1_r, Z.add_0_r. cbn [Z.to_pos].
    pose proof (digits_bounds p) as [Hlo Hhi]. rewrite E53 in Hlo, Hhi.
    change (2 ^ (53 - 1)) with 4503599627370496 in Hlo.
    change (2 ^ 53) with 9007199254740992 in *.
    destruct (Z.ltb_spec (Zpos p) 9007199254740992); [|lia].
    done.
  - destruct (digits p - 53 - 0) as [|k|k] eqn:Ek; [lia|lia|].
    assert (Hm : Zpos (Pos.iter xO p k) = Zpos p * 2 ^ (53 - digits p)).
    { rewrite iter_xO. f_equal. f_equal. lia. }
    pose proof (digits_shift p (53 - digits p) _ ltac:(lia) Hm) as Hdm.
    rewrite binary_round_aux_normal by lia.
    unfold round_result, rounded. rewrite Hdm.
    replace (digits p + (53 - digits p) - 53) with 0 by lia.
    unfold shifted, rne. simpl Z.eqb. cbv iota. simpl shr_m. simpl loc_of_shr_record.
    simpl round_nearest_even.
    pose proof (digits_bounds (Pos.iter xO p k)) as [Hlo Hhi]. rewrite Hdm in Hlo, Hhi.
    replace (digits p + (53 - digits p)) with 53 in Hlo, Hhi by lia.
    change (2 ^ (53 - 1)) with 4503599627370496 in Hlo.
    change (2 ^ 53) with 9007199254740992 in *.
    destruct (Z.ltb_spec (Zpos (Pos.iter xO p k)) 9007199254740992); [|lia].
    rewrite Z.add_0_r.
    destruct (Z.leb_spec (digits p - 53) 971); [|lia].
    rewrite <- Hm. done.
Qed.


Lemma of_Z_pos_finite (p : positive) :
  digits p <= 1023 -> exists m e, Py.of_Z (Zpos p) = S754_finite false m e.
Proof.
  intros H1023.
  destruct (Z.le_gt_cases (digits p) 53) as [Hd|Hd].
  - rewrite of_Z_pos_small by done. eauto.
  - unfold Py.of_Z, binary_normalize, binary_round.
    assert (Hf : fexp Py.prec Py.emax (digits p + 0) = digits p - 53).
    { unfold fexp, emin, Py.prec, Py.emax. lia. }
    rewrite Hf. unfold shl_align.
    destruct (digits p - 53 - 0) as [|k|k] eqn:Ek; [lia| |lia].
    rewrite binary_round_aux_normal by lia.
    apply round_result_finite. lia.
Qed.

Lemma digits_ge (m : positive) (k : Z) : 2 ^ (k - 1) <= Zpos m -> k <= digits m.
Proof.
  intros H. pose proof (digits_bounds m) as [_ Hhi].
  destruct (Z.le_gt_cases k (digits m)) as [|Hgt]; [done|].
  assert (2 ^ digits m <= 2 ^ (k - 1)) by (apply Z.pow_le_mono_r; lia). lia.
Qed.

Lemma digits_le (m : positive) (k : Z) : 0 <= k -> Zpos m < 2 ^ k -> digits m <= k.
Proof.
  intros Hk H. pose proof (digits_bounds m) as [Hlo _].
  destruct (Z.le_gt_cases (digits m) k) as [|Hgt]; [done|].
  assert (2 ^ k <= 2 ^ (digits m - 1)) by (apply Z.pow_le_mono_r; lia). lia.
Qed.

Lemma div_quot_digits (p q : positive) :
  0 < div_quot p q
  /\ 53 <= digits (Z.to_pos (div_quot p q))
  /\ digits p - digits q + div_scale p q <= digits (Z.to_pos (div_quot p q))
     <= digits p - digits q + div_scale p q + 1.
Proof.
  unfold div_quot. set (s := div_scale p q).
  assert (Hs : 0 <= s /\ 53 <= digits p - digits q + s) by (unfold s, div_scale; lia).
  pose proof (digits_bounds p) as [Hpl Hph].
  pose proof (digits_bounds q) as [Hql Hqh].
  set (dp := digits p) in *. set (dq := digits q) in *.
  assert (Hdq : 1 <= dq) by (unfold dq; lia).
  assert (H2s : 0 < 2 ^ s) by (apply Z.pow_pos_nonneg; lia).
  assert (Hlow : 2 ^ (dp - dq + s - 1) <= Zpos p * 2 ^ s / Zpos q).
  { apply Z.div_le_lower_bound; [lia|].
    assert (Zpos q * 2 ^ (dp - dq + s - 1) <= 2 ^ dq * 2 ^ (dp - dq + s - 1)).
    { apply Z.mul_le_mono_nonneg_r; [apply Z.pow_nonneg|]; lia. }
    rewrite <- Z.pow_add_r in H by lia.
    replace (dq + (dp - dq + s - 1)) with (dp - 1 + s) in H by lia.
    rewrite Z.pow_add_r in H by lia.
    assert (2 ^ (dp - 1) * 2 ^ s <= Zpos p * 2 ^ s)
      by (apply Z.mul_le_mono_nonneg_r; lia).
    lia. }
  assert (Hup : Zpos p * 2 ^ s / Zpos q < 2 ^ (dp - dq + s + 1)).
  { apply Z.div_lt_upper_bound; [lia|].
    assert (2 ^ (dq - 1) * 2 ^ (dp - dq + s + 1) <= Zpos q * 2 ^ (dp - dq + s + 1)).
    { apply Z.mul_le_mono_nonneg_r; [apply Z.pow_nonneg|]; lia. }
    rewrite <- Z.pow_add_r in H by lia.
    replace (dq - 1 + (dp - dq + s + 1)) with (dp + s) in H by lia.
    rewrite Z.pow_add_r in H by lia.
    assert (Zpos p * 2 ^ s < 2 ^ dp * 2 ^ s) by (apply Z.mul_lt_mono_pos_r; lia).
    lia. }
  assert (Hpos : 0 < Zpos p * 2 ^ s / Zpos q).
  { assert (0 < 2 ^ (dp - dq + s - 1)) by (apply Z.pow_pos_nonneg; lia). lia. }
  assert (Hz : Zpos (Z.to_pos (Zpos p * 2 ^ s / Zpos q)) = Zpos p * 2 ^ s / Zpos q)
    by (apply Z2Pos.id; done).
  split; [done|].
  assert (Hge : dp - dq + s <= digits (Z.to_pos (Zpos p * 2 ^ s / Zpos q))).
  { apply digits_ge. rewrite Hz. done. }
  assert (Hle : digits (Z.to_pos (Zpos p * 2 ^ s / Zpos q)) <= dp - dq + s + 1).
  { apply digits_le; [lia|]. rewrite Hz. done. }
  lia.
Qed.

Lemma fdiv_ints (sx sy : bool) (p q : positive) :
  -1021 <= digits p - digits q ->
  Py.fdiv (S754_finite sx p 0) (S754_finite sy q 0)
  = round_result (xorb sx sy) (Z.to_pos (div_quot p q)) (- div_scale p q) (div_loc p q).
Proof.
  intros Hd.
  destruct (div_quot_digits p q) as (Hpos & H53 & Hlo & Hhi).
  unfold Py.fdiv, SFdiv, SFdiv_core_binary.
  change (Zdigits2 (Zpos p)) with (digits p).
  change (Zdigits2 (Zpos q)) with (digits q).
  assert (He : Z.min (fexp Py.prec Py.emax (digits p + 0 - (digits q + 0))) (0 - 0)
               = - div_scale p q).
  { unfold fexp, emin, Py.prec, Py.emax, div_scale. lia. }
  rewrite He.
  assert (Hm : match 0 - 0 - - div_scale p q with
               | 0 => Zpos p
               | Zpos _ => Z.shiftl (Zpos p) (0 - 0 - - div_scale p q)
               | Zneg _ => 0
               end = Zpos p * 2 ^ div_scale p q).
  { replace (0 - 0 - - div_scale p q) with (div_scale p q) by lia.
    assert (0 <= div_scale p q) by (unfold div_scale; lia).
    destruct (div_scale p q) as [|k|k] eqn:Ek; [simpl; lia| |lia].
    rewrite Z.shiftl_mul_pow2 by lia. done. }
  rewrite Hm.
  pose proof (Z.div_eucl_eq (Zpos p * 2 ^ div_scale p q) (Zpos q) ltac:(lia)) as Heq.
  assert (Hq : fst (Z.div_eucl (Zpos p * 2 ^ div_scale p q) (Zpos q)) = div_quot p q)
    by reflexivity.
  assert (Hr : snd (Z.div_eucl (Zpos p * 2 ^ div_scale p q) (Zpos q))
               = (Zpos p * 2 ^ div_scale p q) mod Zpos q) by reflexivity.
  destruct (Z.div_eucl (Zpos p * 2 ^ div_scale p q) (Zpos q)) as [qq rr].
  simpl in Hq, Hr. subst qq rr.
  fold (div_loc p q).
  destruct (div_quot p q) as [|m|m] eqn:Em; [lia| |lia].
  simpl Z.to_pos in *.
  apply binary_round_aux_normal; lia.
Qed.

Lemma fdiv_ints_finite (sx sy : bool) (p q : positive) :
  -1021 <= digits p - digits q <= 1022 ->
  exists m e, Py.fdiv (S754_finite sx p 0) (S754_finite sy q 0)
              = S754_finite (xorb sx sy) m e.
Proof.
  intros Hd. rewrite fdiv_ints by lia.
  destruct (div_quot_digits p q) as (Hpos & H53 & Hlo & Hhi).
  apply round_result_finite. lia.
Qed.

(** [a / b] on positive ints of comparable size returns a positive double. *)
Lemma int_truediv_pos (a b : Z) :
  0 < a -> 0 < b -> b <= a * 2 ^ 1021 -> a < b * 2 ^ 1022 ->
  exists m e, Py.int_truediv a b = OK (S754_finite false m e).
Proof.
  intros Ha Hb H1 H2.
  destruct a as [|p|p]; [lia| |lia]. destruct b as [|q|q]; [lia| |lia].
  pose proof (digits_bounds p) as [Hpl Hph].
  pose proof (digits_bounds q) as [Hql Hqh].
  assert (Hd : -1021 <= digits p - digits q <= 1022).
  { split.
    - assert (digits q <= digits p + 1021); [|lia].
      apply digits_le; [lia|].
      rewrite Z.pow_add_r by lia.
      assert (Zpos p * 2 ^ 1021 < 2 ^ digits p * 2 ^ 1021)
        by (apply Z.mul_lt_mono_pos_r; [apply Z.pow_pos_nonneg|]; lia).
      lia.
    - assert (digits p <= digits q + 1022); [|lia].
      apply digits_le; [lia|].
      rewrite Z.pow_add_r by lia.
      assert (Zpos q * 2 ^ 1022 < 2 ^ digits q * 2 ^ 1022)
        by (apply Z.mul_lt_mono_pos_r; [apply Z.pow_pos_nonneg|]; lia).
      lia. }
  destruct (fdiv_ints_finite false false p q Hd) as (m & e & Hf).
  exists m, e. unfold Py.int_truediv. rewrite Hf. done.
Qed.

(** ** The index of the 95th percentile *)

Lemma round_up_condition (P k : Z) :
  0 <= P -> 1 <= k -> 2 ^ k < 2 * (P mod 2 ^ k) ->
  Z.testbit P (k - 1) = true /\ (P mod 2 ^ (k - 1) =? 0) = false.
Proof.
  intros HP Hk Hhalf.
  assert (Hp : 0 < 2 ^ (k - 1)) by (apply Z.pow_pos_nonneg; lia).
  assert (E2 : 2 ^ k = 2 ^ (k - 1) * 2).
  { rewrite <- (Z.pow_1_r 2) at 3. rewrite <- Z.pow_add_r by lia. f_equal. lia. }
  rewrite E2 in Hhalf. rewrite Z.rem_mul_r in Hhalf by lia.
  rewrite <- Z.testbit_spec' in Hhalf by lia.
  pose proof (Z.mod_pos_bound P (2 ^ (k - 1)) Hp) as Hb.
  destruct (Z.testbit P (k - 1)); simpl Z.b2z in Hhalf.
  - split; [done|]. apply Z.eqb_neq. lia.
  - lia.
Qed.

Lemma rounded_up (mx : positive) (lx : location) :
  54 <= digits mx ->
  2 ^ (digits mx - 53) < 2 * (Zpos mx mod 2 ^ (digits mx - 53)) ->
  rounded mx lx = kept mx + 1.
Proof.
  intros Hd Hhalf.
  destruct (round_up_condition (Zpos mx) (digits mx - 53) ltac:(lia) ltac:(lia) Hhalf)
    as [Hr Hs].
  unfold rounded, kept.
  destruct (rne_cases (shifted (Zpos mx) (loc_r lx) (loc_s lx) (digits mx - 53)))
    as (_ & _ & Hup & _).
  rewrite shifted_m in Hup by lia. apply Hup.
  - unfold shifted. destruct (Z.eqb_spec (digits mx - 53) 0); [lia|]. exact Hr.
  - unfold shifted. destruct (Z.eqb_spec (digits mx - 53) 0); [lia|].
    cbn [shr_s]. rewrite Hs. done.
Qed.

Lemma int_of_round_result (mx : positive) (ex : Z) (lx : location) :
  53 <= digits mx ->
  ex + (digits mx - 53) + 1 < 0 ->
  Py.int_of_float (round_result false mx ex lx)
  = OK (rounded mx lx / 2 ^ (- (ex + (digits mx - 53)))).
Proof.
  intros Hd He.
  pose proof (kept_bounds mx Hd) as Hk.
  pose proof (rounded_cases mx lx Hd) as Hr.
  unfold round_result.
  set (e := ex + (digits mx - 53)) in *. set (m2 := rounded mx lx) in *.
  change (2 ^ 53) with 9007199254740992 in *.
  change (2 ^ 52) with 4503599627370496 in *.
  destruct (Z.ltb_spec m2 9007199254740992) as [Hlt|Hge].
  - destruct (Z.leb_spec e 971); [|lia].
    destruct e as [|q|q] eqn:Ee; [lia|lia|].
    cbn [Py.int_of_float cond_Zopp Z.opp].
    rewrite Z.shiftr_div_pow2 by lia. rewrite Z2Pos.id by lia. done.
  - assert (Hm : m2 = 9007199254740992) by lia.
    destruct (Z.leb_spec (e + 1) 971); [|lia].
    destruct (e + 1) as [|q|q] eqn:Ee; [lia|lia|].
    cbn [Py.int_of_float cond_Zopp].
    rewrite Z.shiftr_div_pow2 by lia. rewrite Hm. f_equal.
    cbn [Z.to_pos].
    replace (- e) with (1 + Zpos q) by lia.
    rewrite Z.pow_add_r by lia. change (2 ^ 1) with 2.
    change 9007199254740992 with (2 * 4503599627370496).
    rewrite Z.div_mul_cancel_l; [done | | lia].
    apply Z.pow_nonzero; lia.
Qed.

Lemma p95_core (n S K T P kept rounded : Z) :
  1 <= n < 140737488355328 ->
  1 <= S -> 1 <= K -> 64 <= T ->
  K * T = 9007199254740992 * S ->
  P = n * S * 8556839292003942 ->
  P < K * 9007199254740992 ->
  kept = P / K ->
  (rounded = kept \/ rounded = kept + 1) ->
  (K < 2 * (P mod K) -> rounded = kept + 1) ->
  rounded / T = 19 * n / 20.
Proof.
  intros Hn HS HK HT HKT HP HPK Hkept Hr1 Hr2.
  pose proof (Z.div_mod (19 * n) 20 ltac:(lia)) as Hdm.
  pose proof (Z.mod_pos_bound (19 * n) 20 ltac:(lia)) as Hj.
  set (F := 19 * n / 20) in *. set (j := (19 * n) mod 20) in *.
  set (X := n * S) in *.
  assert (HX : S <= X <= 140737488355327 * S) by (unfold X; nia).
  set (G := F * S).
  assert (HG : 19 * X = 20 * G + j * S) by (unfold X, G; nia).
  set (FT := F * T).
  assert (HFTK : FT * K = 9007199254740992 * G) by (unfold FT, G; nia).
  assert (HPX : P = X * 8556839292003942) by (unfold X; lia).
  pose proof (Z.mul_div_le P K ltac:(lia)) as Hk1.
  pose proof (Z.mul_succ_div_gt P K ltac:(lia)) as Hk2.
  rewrite <- Hkept in Hk1, Hk2.
  destruct (Z.eq_dec j 0) as [Hj0|Hj0].
  - (* the product is just below an integer: it rounds up to it *)
    rewrite Hj0 in HG. 
    set (D := 9007199254740992 * G - P).
    assert (HD : 0 < D /\ 2 * D < K) by (unfold D; lia).
    assert (Hq : P / K = FT - 1 /\ P mod K = K - D).
    { assert (E : P = K * (FT - 1) + (K - D)).
      { replace (K * (FT - 1)) with (FT * K - K) by ring. rewrite HFTK. unfold D. lia. }
      split.
      - symmetry. apply Z.div_unique with (K - D); lia.
      - symmetry. apply Z.mod_unique with (FT - 1); lia. }
    destruct Hq as [Hq Hm].
    assert (rounded = FT) by (rewrite Hr2; lia).
    subst rounded. unfold FT. apply Z.div_mul. lia.
  - assert (HjS : S <= j * S) by nia.
    assert (Hlow : FT <= kept).
    { rewrite Hkept. apply Z.div_le_lower_bound; [lia|].
      rewrite Z.mul_comm, HFTK. lia. }
    assert (Hup : kept + 1 < FT + T).
    { apply (Z.mul_lt_mono_pos_l K); [lia|].
      replace (K * (FT + T)) with (FT * K + K * T) by ring.
      rewrite HFTK, HKT. nia. }
    symmetry. apply Z.div_unique with (rounded - FT).
    + lia.
    + unfold FT. lia.
Qed.

Lemma ratio_95_100 : Py.ratio 95 100 = S754_finite false 8556839292003942 (-53).
Proof. vm_compute. done. Qed.

(** [int(n * 0.95)] is the floor of [19 n / 20] for the length of every list
    that fits in memory. *)
Lemma p95_index_floor (n : Z) :
  1 <= n < 2 ^ 47 -> p95_index n = OK (19 * n / 20).
Proof.
  intros [Hlo Hhi]. destruct n as [|p|p]; [lia| |lia].
  assert (Hdn : digits p <= 47) by (apply digits_le; [lia | done]).
  pose proof (digits_bounds p) as [Hpl Hph].
  set (dn := digits p) in *.
  assert (Hdn1 : 1 <= dn) by (unfold dn; lia).
  set (S := 2 ^ (53 - dn)).
  assert (HS : 1 <= S) by (unfold S; assert (0 < 2 ^ (53 - dn)); [apply Z.pow_pos_nonneg|]; lia).
  unfold p95_index, Py.int_mul_float, Py.float_of_int.
  rewrite of_Z_pos_small by (fold dn; lia). fold dn. fold S.
  rewrite ratio_95_100.
  set (mn := Z.to_pos (Zpos p * S)).
  assert (Hmn : Zpos mn = Zpos p * S) by (unfold mn; rewrite Z2Pos.id; lia).
  assert (Hdmn : digits mn = 53).
  { rewrite (digits_shift p (53 - dn) mn) by (fold S; lia). fold dn. lia. }
  pose proof (digits_bounds mn) as [Hml Hmh]. rewrite Hdmn in Hml, Hmh.
  change (2 ^ (53 - 1)) with 4503599627370496 in Hml.
  change (2 ^ 53) with 9007199254740992 in Hmh.
  unfold Py.fmul, SFmul. cbn [xorb].
  set (P := (mn * 8556839292003942)%positive).
  assert (HP : Zpos P = Zpos p * S * 8556839292003942) by (unfold P; lia).
  assert (HdP : 105 <= digits P <= 106).
  { split.
    - apply digits_ge. change (2 ^ (105 - 1)) with (4503599627370496 * 4503599627370496).
      rewrite HP, <- Hmn. nia.
    - apply digits_le; [lia|].
      change (2 ^ 106) with (9007199254740992 * 9007199254740992).
      rewrite HP, <- Hmn. nia. }
  rewrite binary_round_aux_normal by lia.
  rewrite int_of_round_result by lia.
  f_equal.
  set (k := digits P - 53) in *.
  replace (- (dn - 53 + -53 + k)) with (106 - dn - k) by lia.
  pose proof (digits_bounds P) as [_ HPhi].
  assert (Hk0 : 0 < 2 ^ k) by (apply Z.pow_pos_nonneg; lia).
  assert (HT0 : 0 < 2 ^ (106 - dn - k)) by (apply Z.pow_pos_nonneg; lia).
  apply (p95_core (Zpos p) S (2 ^ k) (2 ^ (106 - dn - k)) (Zpos P) (kept P) (rounded P loc_Exact)).
  - change (2 ^ 47) with 140737488355328 in Hhi. lia.
  - done.
  - lia.
  - assert (2 ^ 6 <= 2 ^ (106 - dn - k)) by (apply Z.pow_le_mono_r; lia).
    change (2 ^ 6) with 64 in *. lia.
  - rewrite <- Z.pow_add_r by lia. unfold S.
    change 9007199254740992 with (2 ^ 53). rewrite <- Z.pow_add_r by lia.
    f_equal. lia.
  - exact HP.
  - change 9007199254740992 with (2 ^ 53). rewrite <- Z.pow_add_r by lia.
    replace (k + 53) with (digits P) by lia. exact HPhi.
  - reflexivity.
  - apply rounded_cases. lia.
  - intros Hhalf. apply rounded_up; [lia | exact Hhalf].
Qed.

(** ** Comparison of doubles *)

Lemma SFcompare_antisym (x y : float) (c : comparison) :
  SFcompare x y = Some c -> SFcompare y x = Some (CompOpp c).
Proof.
  destruct x as [sx|sx| |sx mx ex], y as [sy|sy| |sy my ey]; simpl;
    try discriminate;
    try (destruct sx; intros [= <-]; done);
    try (destruct sy; intros [= <-]; done);
    try (intros [= <-]; done).
  - destruct sx, sy; intros [= <-]; done.
  - destruct sx, sy; intros [= <-]; try done.
    + rewrite (Z.compare_antisym ey ex). destruct (ey ?= ex); simpl; try done.
      rewrite ?CompOpp_involutive, ?Pos.compare_cont_antisym. done.
    + rewrite (Z.compare_antisym ey ex). destruct (ey ?= ex); simpl; try done.
      rewrite ?CompOpp_involutive, ?Pos.compare_cont_antisym. done.
Qed.

Lemma flt_false_of_feq (x y : float) : Py.feq x y = true -> Py.flt y x = false.
Proof.
  unfold Py.feq, Py.flt, SFeqb, SFltb.
  destruct (SFcompare x y) as [[]|] eqn:E; try discriminate.
  intros _. rewrite (SFcompare_antisym _ _ _ E). done.
Qed.

Lemma flt_false_of_fle (x y : float) : Py.fle x y = true -> Py.flt y x = false.
Proof.
  unfold Py.fle, Py.flt, SFleb, SFltb.
  destruct (SFcompare x y) as [[]|] eqn:E; try discriminate;
    intros _; rewrite (SFcompare_antisym _ _ _ E); done.
Qed.

Lemma fle_of_not_flt (x y : float) :
  Py.is_nan x = false -> Py.is_nan y = false -> Py.flt y x = false -> Py.fle x y = true.
Proof.
  unfold Py.fle, Py.flt, SFleb, SFltb. intros Hx Hy.
  destruct (SFcompare x y) as [c|] eqn:E.
  - rewrite (SFcompare_antisym _ _ _ E). destruct c; done.
  - destruct x, y; simpl in *; discriminate.
Qed.

(** ** The monad and the Redis commands *)

Lemma set_redis_id (w : World) : set_redis (w_redis w) w = w.
Proof. destruct w; done. Qed.

Lemma redis_call_connected {A} (cmd : Z -> Redis -> Result A * Redis) (w : World) :
  connected w ->
  redis_call cmd w = (fst (cmd (w_now w) (w_redis w)),
                      set_redis (snd (cmd (w_now w) (w_redis w))) w).
Proof.
  unfold connected, redis_call. intros Hc. rewrite Hc.
  assert (Hr : {| r_strings := r_strings (w_redis w); r_lists := r_lists (w_redis w);
                  r_faults := [] |} = w_redis w).
  { destruct (w_redis w); simpl in *; congruence. }
  rewrite Hr. destruct (cmd (w_now w) (w_redis w)). done.
Qed.

Lemma redis_get_connected (key : string) (w : World) :
  connected w -> redis_get key w = (OK (live_string (w_now w) (w_redis w) key), w).
Proof.
  intros Hc. unfold redis_get. rewrite redis_call_connected by done.
  simpl. rewrite set_redis_id. done.
Qed.

Lemma redis_lrange_connected (key : string) (w : World) :
  connected w -> redis_lrange key w = (OK (bucket w key), w).
Proof.
  intros Hc. unfold redis_lrange. rewrite redis_call_connected by done.
  simpl. rewrite set_redis_id. done.
Qed.

(** A Redis command raises nothing but [ConnectionError] or what the
    command itself answers. *)
Lemma redis_call_result {A} (cmd : Z -> Redis -> Result A * Redis) (w : World) :
  fst (redis_call cmd w) = Raise ConnectionError
  \/ exists r, fst (redis_call cmd w) = fst (cmd (w_now w) r).
Proof.
  unfold redis_call. destruct (r_faults (w_redis w)) as [|[] fs]; simpl.
  - right.
    exists {| r_strings := r_strings (w_redis w); r_lists := r_lists (w_redis w);
              r_faults := [] |}.
    destruct (cmd _ _). done.
  - left. done.
  - right.
    exists {| r_strings := r_strings (w_redis w); r_lists := r_lists (w_redis w);
              r_faults := fs |}.
    destruct (cmd _ _). done.
Qed.

(** ** Scans *)

Lemma live_blobs_cons (w : World) (id : string) (ids : list string) :
  live_blobs w (id :: ids)
  = match live_record w id with
    | Some d => d :: live_blobs w ids
    | None => live_blobs w ids
    end.
Proof. done. Qed.

Lemma visit_ids_connected {S} (visit : S -> Blob -> M S) (g : S -> Blob -> Result S)
    (ids : list string) (acc : S) (w : World) :
  (forall a d w', visit a d w' = (g a d, w')) ->
  connected w ->
  visit_ids visit ids acc w = (fold_result g (live_blobs w ids) acc, w).
Proof.
  intros Hv Hc. unfold visit_ids. revert acc.
  induction ids as [|id ids IH]; intros acc; [done|].
  rewrite live_blobs_cons.
  cbn [foldM]. unfold mbind at 1, M_bind at 1. unfold mbind at 1, M_bind at 1.
  rewrite redis_get_connected by done. fold (live_record w id).
  destruct (live_record w id) as [d|]; cbn [fold_result].
  - rewrite Hv. destruct (g acc d) as [acc'|e]; [apply IH | done].
  - apply IH.
Qed.

Lemma scan_days_connected {S} (visit : S -> Blob -> M S) (g : S -> Blob -> Result S)
    (key : Z -> string) (fuel : nat) (current_date end_date : Z) (acc : S) (w : World) :
  (forall a d w', visit a d w' = (g a d, w')) ->
  connected w ->
  scan_days fuel key visit current_date end_date acc w
  = (fold_result g (flat_map (λ d, live_blobs w (bucket w (key d)))
                             (visited_days fuel current_date end_date)) acc, w).
Proof.
  intros Hv Hc. revert current_date acc.
  induction fuel as [|fuel IH]; intros current_date acc; [done|].
  cbn [scan_days visited_days].
  destruct (current_date <=? end_date); [|done].
  cbn [flat_map]. unfold mbind at 1, M_bind at 1.
  rewrite redis_lrange_connected by done.
  unfold mbind at 1, M_bind at 1.
  rewrite (visit_ids_connected visit g) by done.
  assert (Happ : forall l1 l2 a,
    fold_result g (l1 ++ l2)%list a
    = match fold_result g l1 a with
      | OK a' => fold_result g l2 a'
      | Raise e => Raise e
      end).
  { induction l1 as [|b l1 IHl]; intros l2 a; [done|].
    simpl. destruct (g a b); [apply IHl | done]. }
  rewrite Happ.
  destruct (fold_result g (live_blobs w (bucket w (key current_date))) acc); [apply IH | done].
Qed.

(** *** The fuel of a scan is enough *)

Lemma scan_fuel_step (current_date end_date : Z) :
  current_date <= end_date ->
  scan_fuel current_date end_date = S (scan_fuel (current_date + day) end_date).
Proof.
  intros H. unfold scan_fuel.
  assert (Hd : 0 < day) by (unfold day, second; lia).
  replace (end_date - (current_date + day)) with (end_date - current_date + (-1) * day) by lia.
  rewrite Z.div_add by lia.
  assert (0 <= (end_date - current_date) / day) by (apply Z.div_pos; lia).
  rewrite <- Z2Nat.inj_succ by lia. f_equal. lia.
Qed.

Lemma scan_fuel_done (current_date end_date : Z) :
  end_date < current_date -> scan_fuel current_date end_date = O.
Proof.
  intros H. unfold scan_fuel.
  assert (Hd : 0 < day) by (unfold day, second; lia).
  assert ((end_date - current_date) / day < 0) by (apply Z.div_lt_upper_bound; lia).
  lia.
Qed.

Lemma scan_days_fuel {S} (fuel : nat) (key : Z -> string) (visit : S -> Blob -> M S)
    (current_date end_date : Z) (acc : S) (w : World) :
  (scan_fuel current_date end_date <= fuel)%nat ->
  scan_days fuel key visit current_date end_date acc w
  = scan_days (scan_fuel current_date end_date) key visit current_date end_date acc w.
Proof.
  revert current_date acc w.
  induction fuel as [|fuel IH]; intros current_date acc w Hf.
  - replace (scan_fuel current_date end_date) with O by lia. done.
  - destruct (Z.leb_spec current_date end_date) as [Hle|Hgt].
    + rewrite (scan_fuel_step _ _ Hle) in *. cbn [scan_days].
      destruct (Z.leb_spec current_date end_date); [|lia].
      unfold mbind, M_bind.
      destruct (redis_lrange (key current_date) w) as [[ids|e] w1]; [|done].
      destruct (visit_ids visit ids acc w1) as [[acc'|e] w2]; [|done].
      apply IH. lia.
    + rewrite (scan_fuel_done _ _ Hgt). cbn [scan_days].
      destruct (Z.leb_spec current_date end_date); [lia|done].
Qed.

(** The loop stops because its condition fails, not for lack of fuel: it
    visits [start_date + k * day] for exactly the [k >= 0] that keep it at or
    before [end_date]. *)
Lemma visited_days_spec (start_date end_date d : Z) :
  In d (visited_days (scan_fuel start_date end_date) start_date end_date)
  <-> exists k, 0 <= k /\ d = start_date + k * day /\ d <= end_date.
Proof.
  assert (Hd : 0 < day) by (unfold day, second; lia).
  remember (scan_fuel start_date end_date) as n eqn:En.
  revert start_date En. induction n as [|n IH]; intros start_date En.
  - simpl. split; [done|]. intros (k & Hk & -> & Hle).
    destruct (Z.leb_spec start_date end_date) as [H|H].
    + rewrite (scan_fuel_step _ _ H) in En. discriminate.
    + nia.
  - destruct (Z.leb_spec start_date end_date) as [H|H].
    2:{ rewrite (scan_fuel_done _ _ H) in En. discriminate. }
    rewrite (scan_fuel_step _ _ H) in En. injection En as En.
    cbn [visited_days]. destruct (Z.leb_spec start_date end_date); [|lia].
    cbn [In]. rewrite (IH _ En). split.
    + intros [<- | (k & Hk & -> & Hle)].
      * exists 0. lia.
      * exists (k + 1). lia.
    + intros (k & Hk & -> & Hle).
      destruct (Z.eq_dec k 0) as [->|Hk0]; [left; lia|].
      right. exists (k - 1). lia.
Qed.

(** *** Reading leaves the data alone *)

Lemma same_data_refl (w : World) : same_data w w.
Proof. unfold same_data. tauto. Qed.

Lemma same_data_trans (w1 w2 w3 : World) :
  same_data w1 w2 -> same_data w2 w3 -> same_data w1 w3.
Proof. unfold same_data. intros H1 H2. intuition congruence. Qed.

Lemma redis_call_same_data {A} (cmd : Z -> Redis -> Result A * Redis) (w : World) :
  (forall now r, r_strings (snd (cmd now r)) = r_strings r
                 /\ r_lists (snd (cmd now r)) = r_lists r) ->
  same_data w (snd (redis_call cmd w)).
Proof.
  intros Hcmd. unfold redis_call.
  destruct (r_faults (w_redis w)) as [|[] fs].
  - match goal with |- context [cmd ?n ?r] =>
      destruct (Hcmd n r) as [H1 H2]; destruct (cmd n r) end.
    unfold same_data. simpl in *. tauto.
  - unfold same_data. simpl. tauto.
  - match goal with |- context [cmd ?n ?r] =>
      destruct (Hcmd n r) as [H1 H2]; destruct (cmd n r) end.
    unfold same_data. simpl in *. tauto.
Qed.

Lemma redis_get_same_data (key : string) (w : World) :
  same_data w (snd (redis_get key w)).
Proof. apply redis_call_same_data. done. Qed.

Lemma redis_lrange_same_data (key : string) (w : World) :
  same_data w (snd (redis_lrange key w)).
Proof. apply redis_call_same_data. done. Qed.




(** A scan whose step is a function reads only; it raises what the step
    raises, or [ConnectionError]. *)
Section PureStep.

Context {S : Type} (visit : S -> Blob -> M S) (g : S -> Blob -> Result S).
Hypothesis visit_pure : forall a d w, visit a d w = (g a d, w).

Lemma visit_ids_same_data (ids : list string) (acc : S) (w : World) :
  same_data w (snd (visit_ids visit ids acc w)).
Proof.
  unfold visit_ids. revert acc w.
  induction ids as [|id ids IH]; intros acc w; [apply same_data_refl|].
  cbn [foldM]. unfold mbind at 1, M_bind at 1. unfold mbind at 1, M_bind at 1.
  pose proof (redis_get_same_data ("request:" +:+ id) w) as Hg.
  destruct (redis_get ("request:" +:+ id) w) as [[[d|]|e] w1]; simpl in Hg.
  - rewrite visit_pure. destruct (g acc d) as [a|e]; [|done].
    eapply same_data_trans; [exact Hg | apply IH].
  - eapply same_data_trans; [exact Hg | apply IH].
  - done.
Qed.

Lemma scan_days_same_data (fuel : nat) (key : Z -> string)
    (current_date end_date : Z) (acc : S) (w : World) :
  same_data w (snd (scan_days fuel key visit current_date end_date acc w)).
Proof.
  revert current_date acc w.
  induction fuel as [|fuel IH]; intros current_date acc w; [apply same_data_refl|].
  cbn [scan_days]. destruct (current_date <=? end_date); [|apply same_data_refl].
  unfold mbind at 1, M_bind at 1.
  pose proof (redis_lrange_same_data (key current_date) w) as Hl.
  destruct (redis_lrange (key current_date) w) as [[ids|e] w1]; simpl in Hl; [|done].
  unfold mbind at 1, M_bind at 1.
  pose proof (visit_ids_same_data ids acc w1) as Hv.
  destruct (visit_ids visit ids acc w1) as [[acc'|e] w2]; simpl in Hv.
  - eapply same_data_trans; [exact Hl|]. eapply same_data_trans; [exact Hv | apply IH].
  - eapply same_data_trans; [exact Hl | exact Hv].
Qed.

Hypothesis step_total : forall a d, exists a', g a d = OK a'.





Lemma visit_ids_invariant (P : S -> Prop) (ids : list string) (acc : S) (w : World) :
  (forall a d a', P a -> g a d = OK a' -> P a') ->
  P acc ->
  match fst (visit_ids visit ids acc w) with OK a => P a | Raise _ => True end.
Proof.
  intros Hstep. unfold visit_ids. revert acc w.
  induction ids as [|id ids IH]; intros acc w Hacc; [done|].
  cbn [foldM]. unfold mbind at 1, M_bind at 1. unfold mbind at 1, M_bind at 1.
  destruct (redis_get ("request:" +:+ id) w) as [[[d|]|e] w1].
  - rewrite visit_pure. destruct (g acc d) as [a'|e] eqn:Eg; [|done].
    apply IH. eapply Hstep; eauto.
  - apply IH. done.
  - done.
Qed.

Lemma scan_days_invariant (P : S -> Prop) (fuel : nat) (key : Z -> string)
    (current_date end_date : Z) (acc : S) (w : World) :
  (forall a d a', P a -> g a d = OK a' -> P a') ->
  P acc ->
  match fst (scan_days fuel key visit current_date end_date acc w) with
  | OK a => P a
  | Raise _ => True
  end.
Proof.
  intros Hstep. revert current_date acc w.
  induction fuel as [|fuel IH]; intros current_date acc w Hacc; [done|].
  cbn [scan_days]. destruct (current_date <=? end_date); [|done].
  unfold mbind at 1, M_bind at 1.
  destruct (redis_lrange (key current_date) w) as [[ids|e] w1]; [|done].
  unfold mbind at 1, M_bind at 1.
  pose proof (visit_ids_invariant P ids acc w1 Hstep Hacc) as Hv.
  destruct (visit_ids visit ids acc w1) as [[acc'|e] w2]; simpl in Hv; [apply IH | ]; done.
Qed.

End PureStep.

Lemma cost_visit_pure (a : float * Z * Z) (d : Blob) (w : World) :
  cost_visit a d w = (OK (cost_step a d), w).
Proof. done. Qed.

Lemma window_visit_pure (s e : Z) (keep : LLMRequest -> bool)
    (a : list LLMRequest) (d : Blob) (w : World) :
  window_visit s e keep a d w = (window_step s e keep a d, w).
Proof.
  unfold window_visit, window_step, lift, mbind, M_bind.
  destruct (as_request d) as [r|ex]; [|done].
  destruct (_ && _); done.
Qed.

(** ** Cost metrics *)

Lemma get_cost_metrics_unfold (model : option string) (start_date end_date : option Z)
    (w : World) :
  let s := default (w_now w - day) start_date in
  let e := default (w_now w) end_date in
  get_cost_metrics model start_date end_date w
  = match scan_days (scan_fuel s e) (date_key model) cost_visit s e (Py.zero, 0, 0) w with
    | (OK totals, w') => (cost_metrics_of totals s e, w')
    | (Raise ex, w') => (Raise ex, w')
    end.
Proof.
  unfold get_cost_metrics, cost_metrics_of.
  destruct start_date as [s|], end_date as [e|];
    unfold from_option, id, mbind, M_bind, mret, M_ret, datetime_now, lift; cbv beta iota.
  all: match goal with |- context [scan_days ?f ?k ?v ?s ?e ?a ?w] =>
         destruct (scan_days f k v s e a w) as [[[[tc tr] tt]|ex] w'] end.
  all: try reflexivity.
  all: destruct (0 <? tr); destruct (0 <? tt).
  all: repeat match goal with |- context [Py.float_div_int ?x ?n] =>
         destruct (Py.float_div_int x n) end.
  all: reflexivity.
Qed.



Lemma get_cost_metrics_same_data (model : option string) (start_date end_date : option Z)
    (w : World) :
  same_data w (snd (get_cost_metrics model start_date end_date w)).
Proof.
  rewrite get_cost_metrics_unfold. cbv zeta.
  match goal with |- context [scan_days ?f ?k ?v ?s ?e ?a ?w] =>
    pose proof (scan_days_same_data cost_visit _ cost_visit_pure f k s e a w) as H;
    destruct (scan_days f k v s e a w) as [[t|ex] w'] end; exact H.
Qed.

(** ** Windows *)

Lemma window_step_requests (s e : Z) (keep : LLMRequest -> bool)
    (rs : list LLMRequest) (acc : list LLMRequest) :
  fold_result (window_step s e keep) (map BRequest rs) acc
  = OK (acc ++ List.filter (λ r, (s <=? timestamp r) && (timestamp r <=? e) && keep r)
                           rs)%list.
Proof.
  revert acc. induction rs as [|r rs IH]; intros acc.
  - simpl. rewrite app_nil_r. done.
  - cbn [map fold_result List.filter]. unfold window_step at 1. cbn [as_request].
    destruct ((s <=? timestamp r) && (timestamp r <=? e) && keep r).
    + rewrite IH, <- app_assoc. done.
    + apply IH.
Qed.

Lemma window_step_kept (s e : Z) (keep : LLMRequest -> bool)
    (a : list LLMRequest) (d : Blob) (a' : list LLMRequest) :
  Forall (λ r, s <= timestamp r <= e /\ keep r = true) a ->
  window_step s e keep a d = OK a' ->
  Forall (λ r, s <= timestamp r <= e /\ keep r = true) a'.
Proof.
  intros Ha. unfold window_step. destruct (as_request d) as [r|ex]; [|done].
  destruct (Z.leb_spec s (timestamp r)); destruct (Z.leb_spec (timestamp r) e);
    destruct (keep r) eqn:Ek; simpl; intros [= <-]; try done.
  apply Forall_app. split; [done|]. constructor; [|done]. split; [lia|done].
Qed.

Lemma window_errors_connected (hours : Z) (w : World) :
  connected w ->
  window_errors hours w
  = match window_start (w_now w) hours with
    | OK start_time =>
        (fold_result (window_step start_time (w_now w) (λ r, negb (success r)))
                     (scanned w (date_key None) start_time (w_now w)) [], w)
    | Raise e => (Raise e, w)
    end.
Proof.
  intros Hc. unfold window_errors, window_start, mbind, M_bind, datetime_now, lift.
  cbv beta iota.
  destruct (timedelta_hours hours) as [delta|e]; [|done].
  destruct (datetime_sub (w_now w) delta) as [start_time|e]; [|done].
  rewrite (scan_days_connected _ _ _ _ _ _ _ _ (window_visit_pure _ _ _)) by done.
  done.
Qed.

Lemma window_errors_failed (hours : Z) (w : World) :
  match fst (window_errors hours w) with
  | OK errors => Forall (λ r, success r = false) errors
  | Raise _ => True
  end.
Proof.
  unfold window_errors, mbind, M_bind, datetime_now, lift. cbv beta iota.
  destruct (timedelta_hours hours) as [delta|e]; [|done].
  destruct (datetime_sub (w_now w) delta) as [start_time|e]; [|done].
  match goal with |- context [scan_days ?f ?k ?v ?s ?e ?a ?w] =>
    pose proof (scan_days_invariant v _ (window_visit_pure s e _)
                  (Forall (λ r, s <= timestamp r <= e /\ negb (success r) = true))
                  f k s e a w (window_step_kept s e _) ltac:(constructor)) as H;
    destruct (scan_days f k v s e a w) as [[errors|ex] w'] end; simpl in *; [|done].
  eapply Forall_impl; [exact H|]. intros r [_ Hr]. destruct (success r); done.
Qed.

(** ** Writes *)

Lemma same_env_refl (w : World) : same_env w w.
Proof. unfold same_env. tauto. Qed.

Lemma same_env_trans (w1 w2 w3 : World) :
  same_env w1 w2 -> same_env w2 w3 -> same_env w1 w3.
Proof. unfold same_env. intros H1 H2. intuition congruence. Qed.

Lemma redis_setex_effect (key : string) (ttl : Z) (v : Blob) (w : World) :
  connected w -> 0 < ttl ->
  exists w',
    redis_setex key ttl v w = (OK tt, w')
    /\ connected w' /\ same_env w w'
    /\ live w' key = Some v
    /\ (forall k, k <> key -> live w' k = live w k)
    /\ (forall k, k <> key -> bucket w' k = bucket w k).
Proof.
  intros Hc Httl. unfold redis_setex. rewrite redis_call_connected by done.
  destruct (Z.leb_spec ttl 0) as [|_]; [lia|]. cbn [fst snd].
  eexists. split; [reflexivity|].
  destruct w as [st now [strs lsts fs] ps h g o]. unfold connected in *. simpl in *.
  subst fs. repeat split.
  - unfold live, live_string. simpl. rewrite lookup_insert_eq.
    assert (0 < second) by (unfold second; lia).
    destruct (Z.leb_spec now (now + ttl * second)); [done|nia].
  - intros k Hk. unfold live, live_string. simpl. rewrite lookup_insert_ne by done. done.
  - intros k Hk. unfold bucket, live_list. simpl. rewrite lookup_delete_ne by done. done.
Qed.

Lemma redis_lpush_effect (key value : string) (w : World) :
  connected w ->
  exists w',
    redis_lpush key value w = (OK tt, w')
    /\ connected w' /\ same_env w w'
    /\ (forall k, live w' k = live w k)
    /\ bucket w' key = value :: bucket w key
    /\ (forall k, k <> key -> bucket w' k = bucket w k).
Proof.
  intros Hc. unfold redis_lpush. rewrite redis_call_connected by done.
  cbn [fst snd]. eexists. split; [reflexivity|].
  destruct w as [st now [strs lsts fs] ps h g o]. unfold connected in *. simpl in *.
  subst fs. repeat split.
  - unfold bucket. simpl. unfold live_list at 1. simpl. rewrite lookup_insert_eq.
    destruct (live_list now {| r_strings := strs; r_lists := lsts; r_faults := [] |} key)
      as [[l [ex|]]|] eqn:El; try done.
    unfold live_list in El. simpl in El.
    destruct (lsts !! key) as [[l' [ex'|]]|]; try discriminate.
    destruct (now <=? ex') eqn:Elt; [|discriminate].
    injection El as <- <-. rewrite Elt. done.
  - intros k Hk. unfold bucket, live_list. simpl. rewrite lookup_insert_ne by done. done.
Qed.

Lemma redis_expire_effect (key : string) (ttl : Z) (w : World) :
  connected w -> 0 < ttl ->
  exists w',
    redis_expire key ttl w = (OK tt, w')
    /\ connected w' /\ same_env w w'
    /\ (forall k, live w' k = live w k)
    /\ (forall k, bucket w' k = bucket w k).
Proof.
  intros Hc Httl. unfold redis_expire. rewrite redis_call_connected by done.
  destruct w as [st now [strs lsts fs] ps h g o]. unfold connected in *. simpl in *.
  subst fs.
  destruct (live_list now {| r_strings := strs; r_lists := lsts; r_faults := [] |} key)
    as [[l ex]|] eqn:El; cbn [fst snd].
  - eexists. split; [reflexivity|]. repeat split. intros k.
    unfold bucket. simpl. unfold live_list at 1. simpl.
    destruct (decide (key = k)) as [<-|Hk].
    + rewrite lookup_insert_eq, El.
      assert (0 < second) by (unfold second; lia).
      destruct (Z.leb_spec now (now + ttl * second)); [done|nia].
    + rewrite lookup_insert_ne by done. done.
  - eexists. split; [reflexivity|]. repeat split.
Qed.

(** ** Sorting *)

Lemma insert_sorted_perm (x : float) (l : list float) :
  Permutation (insert_sorted x l) (x :: l).
Proof.
  induction l as [|y l IH]; [done|]. simpl.
  destruct (Py.flt y x); [|done].
  rewrite IH. apply perm_swap.
Qed.

Lemma insertion_sort_perm (xs : list float) :
  Permutation (fold_right insert_sorted [] xs) xs.
Proof.
  induction xs as [|x xs IH]; [done|].
  simpl. rewrite insert_sorted_perm. by constructor.
Qed.

Lemma py_sorted_no_nan (sorted_nan : list float -> list float) (xs : list float) :
  Forall (λ y, Py.is_nan y = false) xs ->
  py_sorted sorted_nan xs = fold_right insert_sorted [] xs.
Proof.
  intros Hnan. unfold py_sorted.
  assert (existsb Py.is_nan xs = false) as ->; [|done].
  induction Hnan as [|x xs Hx Hxs IH]; [done|]. simpl. rewrite Hx, IH. done.
Qed.

Lemma py_sorted_perm (sorted_nan : list float -> list float) (xs : list float) :
  Forall (λ y, Py.is_nan y = false) xs -> Permutation (py_sorted sorted_nan xs) xs.
Proof. intros Hnan. rewrite py_sorted_no_nan by done. apply insertion_sort_perm. Qed.

Lemma py_sorted_length (sorted_nan : list float -> list float) (xs : list float) :
  Forall (λ y, Py.is_nan y = false) xs -> length (py_sorted sorted_nan xs) = length xs.
Proof. intros Hnan. apply Permutation_length, py_sorted_perm, Hnan. Qed.

Lemma fle_of_flt (x y : float) : Py.flt x y = true -> Py.fle x y = true.
Proof.
  unfold Py.flt, Py.fle, SFltb, SFleb. destruct (SFcompare x y) as [[]|]; done.
Qed.

Lemma insert_sorted_hd (y x : float) (l : list float) :
  HdRel fle_prop y l -> fle_prop y x -> HdRel fle_prop y (insert_sorted x l).
Proof.
  intros Hl Hx. destruct l as [|z l]; simpl; [by constructor|].
  destruct (Py.flt z x); constructor; [|done]. by inversion Hl.
Qed.

Lemma insert_sorted_sorted (x : float) (l : list float) :
  Py.is_nan x = false ->
  Forall (λ y, Py.is_nan y = false) l ->
  Sorted fle_prop l -> Sorted fle_prop (insert_sorted x l).
Proof.
  intros Hx Hnan Hs. induction Hs as [|y l Hs IH Hhd]; simpl.
  - by repeat constructor.
  - inversion Hnan as [|? ? Hy Hl]; subst.
    destruct (Py.flt y x) eqn:E.
    + constructor; [by apply IH|].
      apply insert_sorted_hd; [done|]. by apply fle_of_flt.
    + constructor; [by constructor|]. constructor.
      by apply fle_of_not_flt.
Qed.

Lemma insertion_sort_sorted (xs : list float) :
  Forall (λ y, Py.is_nan y = false) xs -> Sorted fle_prop (fold_right insert_sorted [] xs).
Proof.
  induction 1 as [|x xs Hx Hxs IH]; [constructor|].
  simpl. apply insert_sorted_sorted; [done| |done].
  eapply Permutation_Forall; [|exact Hxs]. symmetry. apply insertion_sort_perm.
Qed.

Lemma py_sorted_sorted (sorted_nan : list float -> list float) (xs : list float) :
  Forall (λ y, Py.is_nan y = false) xs -> Sorted fle_prop (py_sorted sorted_nan xs).
Proof. intros Hnan. rewrite py_sorted_no_nan by done. apply insertion_sort_sorted, Hnan. Qed.

(** * The properties of the specification *)

(** ** Cost of a request *)

Lemma model_rate (name : string) :
  exists cfg, get_model_config name = OK cfg
              /\ default Py.zero (cost_per_1k_tokens cfg) = rate_of name.
Proof.
  unfold get_model_config.
  assert (Hd : MODEL_CONFIGS !! "gpt-4"
               = Some (model_entry OPENAI 8192 (Py.ratio 3 100))) by reflexivity.
  rewrite Hd. eexists. split; [reflexivity|].
  unfold MODEL_CONFIGS, rate_of, rate_table. cbn [dict_get].
  rewrite !lookup_insert, lookup_empty.
  repeat case_decide; subst; try done.
Qed.

Lemma one_times_rate (name : string) :
  Py.fmul (S754_finite false 4503599627370496 (-52)) (rate_of name) = rate_of name.
Proof.
  unfold rate_of, rate_table. cbn [dict_get].
  repeat case_decide; subst; vm_compute; done.
Qed.

Lemma thousand_tokens : Py.int_truediv 1000 1000 = OK (S754_finite false 4503599627370496 (-52)).
Proof. vm_compute. done. Qed.

Lemma int_truediv_1000 (n : Z) :
  0 <= n < 2 ^ 1024 -> exists q, Py.int_truediv n 1000 = OK q.
Proof.
  intros [Hlo Hhi].
  destruct (Z.eq_dec n 0) as [->|Hn]; [eexists; reflexivity|].
  assert (H10 : 2 ^ 10 <= 2 ^ 1021) by (apply Z.pow_le_mono_r; lia).
  change (2 ^ 10) with 1024 in H10.
  assert (H24 : 2 ^ 1024 = 4 * 2 ^ 1022).
  { replace 1024 with (2 + 1022) by lia. rewrite Z.pow_add_r by lia. done. }
  assert (0 < 2 ^ 1022) by (apply Z.pow_pos_nonneg; lia).
  destruct (int_truediv_pos n 1000) as (m & e & Hm); [lia|lia|nia|lia|].
  eauto.
Qed.

(** C9, as stated, fails: a sum of token counts whose thousandth is beyond
    the range of a double makes [total_tokens / 1000] raise. *)
Lemma calculate_cost_overflow :
  0 <= 10 ^ 400 /\ 0 <= 0 /\ calculate_cost "gpt-4" (10 ^ 400) 0 = Raise OverflowError.
Proof. split; [lia|]. split; [lia|]. vm_compute. done. Qed.

(** C9 (amended).  For every model name and non-negative token counts whose
    sum is below [2 ^ 1024], [calculate_cost] returns
    [(input_tokens + output_tokens) / 1000] times the rate of the model, the
    rate of the default entry when the name is unknown; and
    [calculate_cost model 1000 0] is that rate exactly, for every name. *)
Theorem calculate_cost_spec (name : string) (input output : Z) :
  0 <= input -> 0 <= output -> input + output < 2 ^ 1024 ->
  (exists q, Py.int_truediv (input + output) 1000 = OK q
             /\ calculate_cost name input output = OK (Py.fmul q (rate_of name)))
  /\ calculate_cost name 1000 0 = OK (rate_of name).
Proof.
  intros Hi Ho Hs.
  destruct (model_rate name) as (cfg & Hcfg & Hrate).
  unfold calculate_cost. rewrite Hcfg, Hrate. split.
  - destruct (int_truediv_1000 (input + output)) as (q & Hq); [lia|].
    exists q. rewrite Hq. done.
  - change (1000 + 0) with 1000. rewrite thousand_tokens, one_times_rate. done.
Qed.

Lemma calculate_cost_spec_witness :
  (exists q, Py.int_truediv (100 + 50) 1000 = OK q
             /\ calculate_cost "gpt-3.5-turbo" 100 50
                = OK (Py.fmul q (rate_of "gpt-3.5-turbo")))
  /\ calculate_cost "gpt-3.5-turbo" 1000 0 = OK (rate_of "gpt-3.5-turbo").
Proof.
  apply (calculate_cost_spec "gpt-3.5-turbo" 100 50); [lia | lia |].
  apply Z.lt_trans with (2 ^ 8); [reflexivity | apply Z.pow_lt_mono_r; lia].
Defined.

(** ** Alerts *)

Lemma check_cost_alerts_unfold (w : World) :
  let thr := cost_alert_threshold (w_settings w) in
  check_cost_alerts w
  = match get_cost_metrics None (Some (w_now w - day)) (Some (w_now w)) w with
    | (OK m, w') =>
        (OK (if Py.flt thr (total_cost_usd m)
             then [cost_alert (total_cost_usd m) thr (w_now w)]
             else []), w')
    | (Raise e, w') => (Raise e, w')
    end.
Proof.
  cbv zeta. unfold check_cost_alerts, mbind, M_bind, datetime_now, mret, M_ret, settings.
  cbv beta iota.
  pose proof (get_cost_metrics_same_data None (Some (w_now w - day)) (Some (w_now w)) w)
    as Hsame.
  destruct (get_cost_metrics None (Some (w_now w - day)) (Some (w_now w)) w)
    as [[m|e] w']; [|done].
  destruct Hsame as (Hs & Hn & _). simpl in Hs, Hn. rewrite Hs.
  destruct (Py.flt _ _); [|done]. rewrite Hn. done.
Qed.

(** C8.  [check_cost_alerts] returns exactly one alert, of type
    ["cost_alert"] and severity ["high"], when the total cost that
    [get_cost_metrics] finds for the trailing 24 hours is strictly greater
    than the threshold, and no alert otherwise; in particular none when the
    total equals the threshold.  A failure of the scan is passed on. *)
Theorem check_cost_alerts_spec :
  (forall (w w' : World) (m : CostMetrics),
     get_cost_metrics None (Some (w_now w - day)) (Some (w_now w)) w = (OK m, w') ->
     let threshold := cost_alert_threshold (w_settings w) in
     let total := total_cost_usd m in
     (Py.flt threshold total = true ->
      check_cost_alerts w = (OK [cost_alert total threshold (w_now w)], w'))
     /\ (Py.flt threshold total = false -> check_cost_alerts w = (OK [], w'))
     /\ (Py.feq total threshold = true -> check_cost_alerts w = (OK [], w')))
  /\ (forall (w w' : World) (e : exn),
        get_cost_metrics None (Some (w_now w - day)) (Some (w_now w)) w = (Raise e, w') ->
        check_cost_alerts w = (Raise e, w')).
Proof.
  split.
  - intros w w' m Hm threshold total.
    rewrite check_cost_alerts_unfold, Hm. cbv zeta. fold threshold total.
    repeat split.
    + intros ->. done.
    + intros ->. done.
    + intros Heq. rewrite (flt_false_of_feq _ _ Heq). done.
  - intros w w' e Hm. rewrite check_cost_alerts_unfold, Hm. done.
Qed.

(** The two sample worlds hold 100.00 USD, the threshold, and 100.01 USD. *)
Lemma check_cost_alerts_spec_witness :
  check_cost_alerts world_at_threshold = (OK [], world_at_threshold)
  /\ check_cost_alerts world_over_threshold
     = (OK [cost_alert (Py.fadd (Py.fadd (Py.fadd Py.zero (Py.ratio 1 100)) (Py.ratio 40 1))
                                (Py.ratio 60 1))
                       (Py.ratio 100 1) noon],
        world_over_threshold).
Proof.
  split.
  - refine (proj2 (proj2 (proj1 check_cost_alerts_spec world_at_threshold world_at_threshold
             {| total_cost_usd := Py.ratio 100 1;
                cost_per_request := Py.ratio 50 1;
                cost_per_token := Py.ratio 1 3;
                requests_count := 2; tokens_count := 300;
                period_start := noon - day; period_end := noon |} _)) _);
      vm_compute; reflexivity.
  - refine (proj1 (proj1 check_cost_alerts_spec world_over_threshold world_over_threshold
             {| total_cost_usd :=
                  Py.fadd (Py.fadd (Py.fadd Py.zero (Py.ratio 1 100)) (Py.ratio 40 1))
                          (Py.ratio 60 1);
                cost_per_request :=
                  Py.fdiv (Py.fadd (Py.fadd (Py.fadd Py.zero (Py.ratio 1 100)) (Py.ratio 40 1))
                                   (Py.ratio 60 1)) (Py.of_Z 3);
                cost_per_token :=
                  Py.fdiv (Py.fadd (Py.fadd (Py.fadd Py.zero (Py.ratio 1 100)) (Py.ratio 40 1))
                                   (Py.ratio 60 1)) (Py.of_Z 450);
                requests_count := 3; tokens_count := 450;
                period_start := noon - day; period_end := noon |} _) _);
      vm_compute; reflexivity.
Defined.

(** ** Aggregation over an empty window *)

Lemma get_cost_metrics_connected (model : option string) (start_date end_date : option Z)
    (w : World) :
  connected w ->
  let s := default (w_now w - day) start_date in
  let e := default (w_now w) end_date in
  get_cost_metrics model start_date end_date w
  = (cost_metrics_of (fold_left cost_step (scanned w (date_key model) s e) (Py.zero, 0, 0))
                     s e, w).
Proof.
  intros Hc s e. rewrite get_cost_metrics_unfold. fold s e.
  rewrite (scan_days_connected cost_visit (λ a d, OK (cost_step a d))) by done.
  fold (scanned w (date_key model) s e).
  assert (Hf : forall l a, fold_result (λ a d, OK (cost_step a d)) l a
                           = OK (fold_left cost_step l a)).
  { induction l as [|d l IH]; intros a; [done | apply IH]. }
  rewrite Hf. done.
Qed.


Lemma window_requests_connected (model : option string) (hours : Z) (w : World) :
  connected w ->
  window_requests model hours w
  = match window_start (w_now w) hours with
    | OK start_time =>
        (fold_result (window_step start_time (w_now w) (λ _, true))
                     (scanned w (date_key model) start_time (w_now w)) [], w)
    | Raise e => (Raise e, w)
    end.
Proof.
  intros Hc. unfold window_requests, window_start, mbind, M_bind, datetime_now, lift.
  cbv beta iota.
  destruct (timedelta_hours hours) as [delta|e]; [|done].
  destruct (datetime_sub (w_now w) delta) as [start_time|e]; [|done].
  rewrite (scan_days_connected _ _ _ _ _ _ _ _ (window_visit_pure _ _ _)) by done.
  done.
Qed.










(** ** Error summary *)

Lemma error_rate_ok (n : Z) :
  0 <= n -> exists rate, Py.int_truediv n (n + 100) = OK rate.
Proof.
  intros Hn. destruct (Z.eq_dec n 0) as [->|Hn0]; [eexists; reflexivity|].
  assert (H7 : 2 ^ 7 <= 2 ^ 1021) by (apply Z.pow_le_mono_r; lia).
  change (2 ^ 7) with 128 in H7.
  assert (0 < 2 ^ 1022) by (apply Z.pow_pos_nonneg; lia).
  destruct (int_truediv_pos n (n + 100)) as (m & e & Hm); [lia|lia|nia|nia|].
  eauto.
Qed.

Lemma error_dict_spec (errors : list LLMRequest) :
  exists rate,
    error_dict errors = OK {| total_errors := len errors;
                              error_types := error_types_of errors;
                              error_rate := rate |}
    /\ Py.int_truediv (len errors) (len errors + 100) = OK rate.
Proof.
  assert (Hn : 0 <= len errors) by (unfold len; lia).
  destruct (error_rate_ok _ Hn) as (rate & Hrate).
  exists rate. split; [|done].
  unfold error_dict. replace (Z.max 1 (len errors + 100)) with (len errors + 100) by lia.
  rewrite Hrate. done.
Qed.

(** X23.  The formula of the error rate.  [get_error_summary] returns
    [error_rate] equal to [total_errors / (total_errors + 100)], where
    [total_errors] is the number of requests that its scan kept; every one
    of them has [success = false].  With the store connected, they are the
    failed requests stamped within the window among the records that the
    scan reads, which are the live records listed under the days that the
    loop visits. *)
Theorem error_rate_formula :
  (forall (hours : Z) (w : World),
     match window_errors hours w with
     | (OK errors, w') =>
         Forall (λ r, success r = false) errors
         /\ exists rate,
              get_error_summary hours w
              = (OK {| total_errors := len errors;
                       error_types := error_types_of errors;
                       error_rate := rate |}, w')
              /\ Py.int_truediv (len errors) (len errors + 100) = OK rate
     | (Raise e, w') => get_error_summary hours w = (Raise e, w')
     end)
  /\ (forall (hours start_time : Z) (w : World) (stored : list LLMRequest),
        connected w ->
        window_start (w_now w) hours = OK start_time ->
        scanned w (date_key None) start_time (w_now w) = map BRequest stored ->
        exists s,
          get_error_summary hours w = (OK s, w)
          /\ total_errors s
             = len (List.filter (λ r, (start_time <=? timestamp r)
                                      && (timestamp r <=? w_now w)
                                      && negb (success r)) stored)
          /\ Py.int_truediv (total_errors s) (total_errors s + 100) = OK (error_rate s)).
Proof.
  split.
  - intros hours w.
    pose proof (window_errors_failed hours w) as Hf.
    unfold get_error_summary, mbind, M_bind, lift.
    destruct (window_errors hours w) as [[errors|e] w']; simpl in Hf; [|done].
    split; [done|].
    destruct (error_dict_spec errors) as (rate & Hd & Hr).
    exists rate. rewrite Hd. done.
  - intros hours start_time w stored Hc Hstart Hscan.
    unfold get_error_summary, mbind, M_bind, lift.
    rewrite window_errors_connected by done.
    rewrite Hstart, Hscan, window_step_requests. cbn [app].
    match goal with |- context [error_dict ?l] =>
      destruct (error_dict_spec l) as (rate & Hd & Hr); rewrite Hd end.
    eexists. split; [reflexivity|]. split; [reflexivity | exact Hr].
Qed.

Lemma error_rate_formula_witness :
  exists s,
    get_error_summary 24 world_at_threshold = (OK s, world_at_threshold)
    /\ total_errors s = 1
    /\ Py.int_truediv (total_errors s) (total_errors s + 100) = OK (error_rate s).
Proof.
  apply (proj2 error_rate_formula 24 (noon - day) world_at_threshold
           [sample_request "r2" (at_time 19723 11 30 0) (Py.ratio 250 1) (Py.ratio 40 1) false;
            sample_request "r1" (at_time 19723 11 0 0) (Py.ratio 150 1) (Py.ratio 60 1) true]);
    reflexivity.
Defined.

(** C6 at the failing input.  At 00:45 on 2024-01-02 the window of the last
    two hours starts on 2024-01-01 at 22:45.  The store holds the record of a
    request that failed at 00:30, inside the window, listed under its day,
    2024-01-02.  The loop visits 22:45 only, since 22:45 plus one day is
    after the end, and reads the list of 2024-01-01: [get_error_summary]
    returns [total_errors = 0] and the rate 0.0, where the window holds one
    failed record and the rate of the claim is 1 / 101. *)
Theorem error_summary_skips_end_day :
  let w := world_failed_after_midnight in
  let end_time := at_time 19724 0 45 0 in
  let start_time := at_time 19723 22 45 0 in
  w_now w = end_time
  /\ window_start end_time 2 = OK start_time
  /\ live_record w "r1" = Some (BRequest failed_midnight_request)
  /\ bucket w "requests:2024-01-02" = ["r1"]
  /\ success failed_midnight_request = false
  /\ start_time <= timestamp failed_midnight_request <= end_time
  /\ visited_days (scan_fuel start_time end_time) start_time end_time = [start_time]
  /\ strftime_Ymd start_time = "2024-01-01"
  /\ get_error_summary 2 w
     = (OK {| total_errors := 0; error_types := []; error_rate := Py.zero |}, w)
  /\ Py.int_truediv 1 (1 + 100) = OK (Py.ratio 1 101)
  /\ Py.feq (Py.ratio 1 101) Py.zero = false.
Proof. vm_compute. repeat split; try reflexivity; intros H; discriminate H. Qed.

(** ** Ingestion *)

Lemma _save_request_never_raises (request : LLMRequest) (w : World) :
  eval (_save_request request) w = OK tt.
Proof.
  unfold eval, _save_request, try_except.
  match goal with |- context [match ?b w with _ => _ end] => destruct (b w) as [[[]|e] w'] end;
    done.
Qed.

Lemma _save_request_connected (request : LLMRequest) (w : World) :
  connected w ->
  let date_key := "requests:" +:+ strftime_Ymd (timestamp request) in
  let model_key := "model_requests:" +:+ model_name request +:+ ":"
                   +:+ strftime_Ymd (timestamp request) in
  exists w',
    _save_request request w = (OK tt, w')
    /\ connected w' /\ same_env w w'
    /\ live_record w' (request_id request) = Some (BRequest request)
    /\ bucket w' date_key = request_id request :: bucket w date_key
    /\ bucket w' model_key = request_id request :: bucket w model_key.
Proof.
  intros Hc dk mk.
  set (rk := "request:" +:+ request_id request).
  assert (Hrd : dk <> rk) by (unfold dk, rk; simpl; intros [=]).
  assert (Hrm : mk <> rk) by (unfold mk, rk; simpl; intros [=]).
  assert (Hdm : dk <> mk) by (unfold dk, mk; simpl; intros [=]).
  destruct (redis_setex_effect rk 86400 (BRequest request) w Hc ltac:(lia))
    as (w1 & E1 & C1 & S1 & L1 & L1' & B1).
  destruct (redis_lpush_effect dk (request_id request) w1 C1)
    as (w2 & E2 & C2 & S2 & L2 & B2 & B2').
  destruct (redis_expire_effect dk 2592000 w2 C2 ltac:(lia))
    as (w3 & E3 & C3 & S3 & L3 & B3).
  destruct (redis_lpush_effect mk (request_id request) w3 C3)
    as (w4 & E4 & C4 & S4 & L4 & B4 & B4').
  destruct (redis_expire_effect mk 2592000 w4 C4 ltac:(lia))
    as (w5 & E5 & C5 & S5 & L5 & B5).
  exists w5. split.
  - unfold _save_request, try_except, mbind, M_bind. fold rk dk mk.
    rewrite E1, E2, E3, E4, E5. done.
  - split; [done|]. split.
    { repeat (eapply same_env_trans; [eassumption|]). apply same_env_refl. }
    split; [|split].
    + unfold live_record. fold rk. change (live w5 rk = Some (BRequest request)).
      rewrite L5, L4, L3, L2. done.
    + rewrite B5, B4' by done. rewrite B3, B2, B1 by done. done.
    + rewrite B5, B4. rewrite B3, B2', B1 by done. done.
Qed.

(** *** Connection faults during the call *)

Lemma with_faults_connected (b : World) : connected b -> with_faults [] b = b.
Proof.
  destruct b as [st now [strs lsts fs] ps h g o]. unfold connected, with_faults. simpl.
  intros ->. done.
Qed.

Lemma with_faults_reachable (w : World) :
  with_faults (r_faults (w_redis w)) (reachable w) = w.
Proof. destruct w as [st now [strs lsts fs] ps h g o]. done. Qed.

Lemma redis_call_store_command (cmd : Z -> Redis -> Result unit * Redis) :
  (forall now strs lsts, exists strs' lsts',
     forall fs, cmd now {| r_strings := strs; r_lists := lsts; r_faults := fs |}
                = (OK tt, {| r_strings := strs'; r_lists := lsts'; r_faults := fs |})) ->
  store_command (redis_call cmd).
Proof.
  intros H fs b Hc.
  destruct b as [st now [strs lsts fs0] ps h g o]. unfold connected in Hc. simpl in Hc.
  subst fs0. destruct (H now strs lsts) as (strs' & lsts' & E).
  exists {| w_settings := st; w_now := now;
            w_redis := {| r_strings := strs'; r_lists := lsts'; r_faults := [] |};
            w_prompts := ps; w_hash := h; w_rng := g; w_out := o |}.
  unfold redis_call, with_faults, connected, same_env. simpl. rewrite !E. simpl.
  repeat split.
Qed.

Lemma redis_setex_command (key : string) (ttl : Z) (v : Blob) :
  0 < ttl -> store_command (redis_setex key ttl v).
Proof.
  intros Httl. apply redis_call_store_command. intros now strs lsts.
  destruct (Z.leb_spec ttl 0) as [|_]; [lia|].
  exists (<[key := (v, now + ttl * second)]> strs), (delete key lsts). intros fs. reflexivity.
Qed.

Lemma redis_lpush_command (key value : string) : store_command (redis_lpush key value).
Proof.
  apply redis_call_store_command. intros now strs lsts.
  exists strs,
    (<[key := match live_list now {| r_strings := strs; r_lists := lsts; r_faults := [] |} key
              with
              | Some (l, expiry) => (value :: l, expiry)
              | None => ([value], None)
              end]> lsts).
  intros fs. reflexivity.
Qed.

Lemma redis_expire_command (key : string) (ttl : Z) : store_command (redis_expire key ttl).
Proof.
  apply redis_call_store_command. intros now strs lsts.
  unfold live_list. simpl.
  destruct (lsts !! key) as [[l [ex|]]|]; [destruct (now <=? ex)| |].
  - exists strs, (<[key := (l, Some (now + ttl * second))]> lsts). intros fs. reflexivity.
  - exists strs, lsts. intros fs. reflexivity.
  - exists strs, (<[key := (l, Some (now + ttl * second))]> lsts). intros fs. reflexivity.
  - exists strs, lsts. intros fs. reflexivity.
Qed.

Lemma save_commands_are_store_commands (request : LLMRequest) :
  Forall store_command (save_commands request).
Proof.
  unfold save_commands. repeat constructor.
  - apply redis_setex_command. lia.
  - apply redis_lpush_command.
  - apply redis_expire_command.
  - apply redis_lpush_command.
  - apply redis_expire_command.
Qed.

Lemma commands_done_nil (n : nat) : commands_done n [] = n.
Proof. destruct n; done. Qed.

Lemma run_commands_faults (cs : list (M unit)) :
  Forall store_command cs ->
  forall (fs : list bool) (b : World),
    connected b ->
    let n := commands_done (length cs) fs in
    exists b' fs',
      run_commands (take n cs) b = (OK tt, b')
      /\ connected b' /\ same_env b b'
      /\ run_commands cs (with_faults fs b)
         = (if (n <? length cs)%nat then Raise ConnectionError else OK tt,
            with_faults fs' b').
Proof.
  induction 1 as [|c cs Hc Hcs IH]; intros fs b Hb; cbv zeta.
  - exists b, fs. simpl. split; [done|]. split; [done|]. split; [apply same_env_refl|done].
  - destruct (Hc [] b Hb) as (b0 & E0 & _).
    destruct fs as [|[] fs].
    + rewrite commands_done_nil. rewrite firstn_all.
      destruct (IH [] b0) as (b' & fs' & E1 & C1 & S1 & E2).
      { destruct (Hc [] b Hb) as (b0' & E0' & C0 & _). congruence. }
      rewrite commands_done_nil, firstn_all in E1.
      rewrite commands_done_nil, Nat.ltb_irrefl in E2.
      destruct (Hc [] b Hb) as (b0' & E0' & C0 & S0 & _).
      assert (b0' = b0) as -> by congruence.
      rewrite with_faults_connected in E2 by done.
      exists b', fs'. rewrite Nat.ltb_irrefl, with_faults_connected by done.
      cbn [run_commands]. unfold mbind, M_bind. rewrite E0.
      split; [exact E1|]. split; [done|]. split; [|exact E2].
      eapply same_env_trans; eassumption.
    + destruct (Hc fs b Hb) as (b1 & _ & _ & _ & Et & _).
      exists b, fs. simpl. unfold mbind, M_bind. rewrite Et.
      split; [done|]. split; [done|]. split; [apply same_env_refl|done].
    + destruct (Hc fs b Hb) as (b1 & E1 & C1 & S1 & _ & Ef).
      destruct (IH fs b1 C1) as (b' & fs' & E2 & C2 & S2 & E3).
      exists b', fs'. cbn [commands_done length take run_commands].
      unfold mbind, M_bind. rewrite E1, Ef.
      split; [exact E2|]. split; [done|]. split; [eapply same_env_trans; eassumption|].
      exact E3.
Qed.

Lemma run_five_commands (c1 c2 c3 c4 c5 : M unit) (w : World) :
  run_commands [c1; c2; c3; c4; c5] w = (c1;; c2;; c3;; c4;; c5) w.
Proof.
  cbn [run_commands]. unfold mbind, M_bind, mret, M_ret.
  destruct (c1 w) as [[[]|e1] w1]; [|done].
  destruct (c2 w1) as [[[]|e2] w2]; [|done].
  destruct (c3 w2) as [[[]|e3] w3]; [|done].
  destruct (c4 w3) as [[[]|e4] w4]; [|done].
  destruct (c5 w4) as [[[]|e5] w5]; done.
Qed.

Lemma _save_request_commands (request : LLMRequest) (w : World) :
  _save_request request w
  = try_except (run_commands (save_commands request))
      (λ e, logger_error (with_exception "Fehler beim Speichern der Request: " e)) w.
Proof.
  unfold _save_request, try_except, save_commands. rewrite run_five_commands. done.
Qed.

(** C4, as stated, fails: with the store unavailable, [_save_request]
    returns normally; the failure is logged, in a line that begins with
    "Fehler beim Speichern der Request: ", and the record is lost. *)
Lemma save_request_swallows_failure :
  let request := sample_request "r1" noon (Py.ratio 150 1) (Py.ratio 60 1) true in
  let w := unavailable (sample_world noon) in
  redis_setex "request:r1" 86400 (BRequest request) w
  = (Raise ConnectionError, exec (redis_setex "request:r1" 86400 (BRequest request)) w)
  /\ eval (_save_request request) w = OK tt
  /\ live_record (exec (_save_request request) w) "r1" = None
  /\ w_out (exec (_save_request request) w) = ["Fehler beim Speichern der Request: "].
Proof. vm_compute. done. Qed.

(** C4 (amended).  Ingestion never fails, whether or not the store is
    available: a failure of the store is caught and logged, not propagated.
    [_save_request] sends five commands; those before the first connection
    fault take effect, the later ones are not sent, and one line, which
    begins with "Fehler beim Speichern der Request: ", is logged exactly when
    one of the five fails.  With no fault the record is stored
    under its id, and the id is put at the head of the list of its day and of
    the list of its model and day, and nothing is logged.  With a fault at
    the first command nothing is stored; with a fault at the second the
    record is stored and its id is put in neither list. *)
Theorem ingestion_never_fails :
  (forall (request : LLMRequest) (w : World), eval (_save_request request) w = OK tt)
  /\ (forall (request : LLMRequest) (w : World),
        let n := commands_done 5 (r_faults (w_redis w)) in
        let w' := exec (_save_request request) w in
        same_store (exec (run_commands (take n (save_commands request))) (reachable w)) w'
        /\ same_clock w w' /\ w_prompts w' = w_prompts w
        /\ w_out w' = (if (n <? 5)%nat
                       then "Fehler beim Speichern der Request: " :: w_out w
                       else w_out w))
  /\ (forall (request : LLMRequest) (w : World),
        connected w ->
        let w' := exec (_save_request request) w in
        let date_key := "requests:" +:+ strftime_Ymd (timestamp request) in
        let model_key := "model_requests:" +:+ model_name request +:+ ":"
                         +:+ strftime_Ymd (timestamp request) in
        live_record w' (request_id request) = Some (BRequest request)
        /\ bucket w' date_key = request_id request :: bucket w date_key
        /\ bucket w' model_key = request_id request :: bucket w model_key
        /\ w_out w' = w_out w)
  /\ (forall (request : LLMRequest) (w : World) (fs : list bool),
        r_faults (w_redis w) = true :: fs ->
        let w' := exec (_save_request request) w in
        w_out w' = "Fehler beim Speichern der Request: " :: w_out w
        /\ r_strings (w_redis w') = r_strings (w_redis w)
        /\ r_lists (w_redis w') = r_lists (w_redis w))
  /\ (forall (request : LLMRequest) (w : World) (fs : list bool),
        r_faults (w_redis w) = false :: true :: fs ->
        let w' := exec (_save_request request) w in
        let date_key := "requests:" +:+ strftime_Ymd (timestamp request) in
        let model_key := "model_requests:" +:+ model_name request +:+ ":"
                         +:+ strftime_Ymd (timestamp request) in
        w_out w' = "Fehler beim Speichern der Request: " :: w_out w
        /\ live_record w' (request_id request) = Some (BRequest request)
        /\ bucket w' date_key = bucket w date_key
        /\ bucket w' model_key = bucket w model_key).
Proof.
  split; [exact _save_request_never_raises|]. split; [|split; [|split]].
  - intros request w. cbv zeta.
    assert (Hb : connected (reachable w)) by done.
    destruct (run_commands_faults (save_commands request)
                (save_commands_are_store_commands request)
                (r_faults (w_redis w)) (reachable w) Hb)
      as (b' & fs' & E1 & C1 & S1 & E2).
    rewrite with_faults_reachable in E2.
    change (length (save_commands request)) with 5%nat in E1, E2.
    unfold exec at 1. rewrite E1. cbn [snd].
    unfold exec. rewrite _save_request_commands. unfold try_except. rewrite E2.
    destruct S1 as (Hs & Hn & Hp & Hh & Hr & Ho). simpl in Hs, Hn, Hp, Hh, Hr, Ho.
    destruct (commands_done 5 (r_faults (w_redis w)) <? 5)%nat;
      unfold same_store, same_clock; simpl; rewrite ?Ho; repeat split; done.
  - intros request w Hc. cbv zeta.
    destruct (_save_request_connected request w Hc) as (w' & E & _ & S & L & B1 & B2).
    unfold exec. rewrite E. cbn [snd]. repeat split; try done.
    destruct S as (_ & _ & _ & _ & _ & Ho). done.
  - intros request w fs Hf. cbv zeta.
    assert (Hset : redis_setex ("request:" +:+ request_id request) 86400 (BRequest request) w
                   = (Raise ConnectionError,
                      set_redis {| r_strings := r_strings (w_redis w);
                                   r_lists := r_lists (w_redis w);
                                   r_faults := fs |} w)).
    { unfold redis_setex, redis_call. rewrite Hf. done. }
    unfold exec, _save_request, try_except, mbind, M_bind.
    rewrite Hset. done.
  - intros request w fs Hf. cbv zeta.
    set (rk := "request:" +:+ request_id request).
    set (dk := "requests:" +:+ strftime_Ymd (timestamp request)).
    set (mk := "model_requests:" +:+ model_name request +:+ ":"
               +:+ strftime_Ymd (timestamp request)).
    assert (Hrd : dk <> rk) by (unfold dk, rk; simpl; intros [=]).
    assert (Hrm : mk <> rk) by (unfold mk, rk; simpl; intros [=]).
    assert (Hb : connected (reachable w)) by done.
    destruct (redis_setex_effect rk 86400 (BRequest request) (reachable w) Hb ltac:(lia))
      as (b1 & E1 & C1 & S1 & L1 & _ & B1).
    destruct (redis_setex_command rk 86400 (BRequest request) ltac:(lia)
                (true :: fs) (reachable w) Hb) as (b1' & E1' & _ & _ & _ & Ef).
    assert (b1' = b1) as -> by congruence.
    destruct (redis_lpush_command dk (request_id request) fs b1 C1)
      as (b2 & _ & _ & _ & Et & _).
    pose proof (with_faults_reachable w) as Hw. rewrite Hf in Hw. rewrite Hw in Ef.
    unfold exec, _save_request, try_except, mbind, M_bind. fold rk dk mk.
    rewrite Ef, Et. cbn [snd].
    destruct S1 as (Hs & Hn & Hp & Hh & Hr & Ho).
    split; [simpl; rewrite Ho; done|]. split; [|split].
    + change (live b1 rk = Some (BRequest request)). exact L1.
    + change (bucket b1 dk = bucket w dk). rewrite B1 by done.
      unfold bucket, reachable, with_faults, live_list. done.
    + change (bucket b1 mk = bucket w mk). rewrite B1 by done.
      unfold bucket, reachable, with_faults, live_list. done.
Qed.

Lemma ingestion_never_fails_witness :
  let request := sample_request "r1" noon (Py.ratio 150 1) (Py.ratio 60 1) true in
  (let w' := exec (_save_request request) (sample_world noon) in
   live_record w' "r1" = Some (BRequest request)
   /\ bucket w' "requests:2024-01-01" = ["r1"]
   /\ bucket w' "model_requests:gpt-4:2024-01-01" = ["r1"]
   /\ w_out w' = [])
  /\ (let w' := exec (_save_request request)
                     (with_faults [false; true] (sample_world noon)) in
      w_out w' = ["Fehler beim Speichern der Request: "]
      /\ live_record w' "r1" = Some (BRequest request)
      /\ bucket w' "requests:2024-01-01" = []
      /\ bucket w' "model_requests:gpt-4:2024-01-01" = []).
Proof.
  split.
  - apply (proj1 (proj2 (proj2 ingestion_never_fails))
             (sample_request "r1" noon (Py.ratio 150 1) (Py.ratio 60 1) true)
             (sample_world noon)).
    reflexivity.
  - apply (proj2 (proj2 (proj2 (proj2 ingestion_never_fails)))
             (sample_request "r1" noon (Py.ratio 150 1) (Py.ratio 60 1) true)
             (with_faults [false; true] (sample_world noon)) []).
    reflexivity.
Defined.

(** ** Starting an experiment *)

Lemma _save_prompt_steady (prompt : PromptVersion) (w : World) :
  connected w ->
  exists w',
    _save_prompt prompt w = (OK tt, w')
    /\ connected w' /\ w_now w' = w_now w /\ w_settings w' = w_settings w
    /\ w_prompts w' = w_prompts w.
Proof.
  intros Hc. unfold _save_prompt, try_except, mbind, M_bind, settings, redis_setex.
  rewrite redis_call_connected by done.
  destruct (prompt_cache_ttl (w_settings w) <=? 0); cbn [fst snd];
    (eexists; split; [reflexivity|]);
    destruct w as [st now [strs lsts fs] ps h g o]; unfold connected in *; simpl in *;
    subst fs; done.
Qed.

Lemma save_registered_steady (key : string) (w : World) :
  connected w ->
  exists w',
    save_registered key w = (OK tt, w')
    /\ connected w' /\ w_now w' = w_now w /\ w_settings w' = w_settings w
    /\ w_prompts w' = w_prompts w.
Proof.
  intros Hc. unfold save_registered, mbind, M_bind, get_prompt.
  destruct (dict_get key (w_prompts w)) as [p|].
  - apply _save_prompt_steady. done.
  - exists w. done.
Qed.

Lemma start_ab_test_stores (name id_a id_b : string) (split : float) (w : World)
    (pa pb : PromptVersion) :
  connected w ->
  ab_test_enabled (w_settings w) = true ->
  dict_get id_a (w_prompts w) = Some pa ->
  dict_get id_b (w_prompts w) = Some pb ->
  exists w',
    start_ab_test name id_a id_b split w = (OK true, w')
    /\ live w' ("ab_test:" +:+ name)
       = Some (BAbTest {| ab_template_name := name; prompt_a := id_a; prompt_b := id_b;
                          traffic_split := split; started_at := w_now w;
                          active := true |}).
Proof.
  intros Hc Hen Ha Hb.
  unfold start_ab_test. unfold mbind at 1, M_bind at 1, settings at 1.
  rewrite Hen. cbn [negb].
  unfold mbind at 1, M_bind at 1, get_prompt at 1. rewrite Ha.
  unfold mbind at 1, M_bind at 1, get_prompt at 1. rewrite Hb.
  unfold mbind, M_bind, mutate_prompt, datetime_now, print, mret, M_ret.
  cbv beta iota. cbn [w_now set_prompts].
  match goal with |- context [save_registered id_a ?W] => set (w0 := W) end.
  assert (C0 : connected w0) by exact Hc.
  destruct (save_registered_steady id_a w0 C0) as (w1 & E1 & C1 & N1 & _).
  rewrite E1.
  destruct (save_registered_steady id_b w1 C1) as (w2 & E2 & C2 & N2 & _).
  rewrite E2.
  match goal with |- context [redis_setex ?k ?t ?v w2] =>
    destruct (redis_setex_effect k t v w2 C2 ltac:(lia)) as (w3 & E3 & C3 & S3 & L3 & _)
  end.
  rewrite E3. eexists. split; [reflexivity|].
  rewrite N2, N1 in L3. exact L3.
Qed.

Lemma start_ab_test_declines (name id_a id_b : string) (split : float) (w : World) :
  ab_test_enabled (w_settings w) = false
  \/ dict_get id_a (w_prompts w) = None
  \/ dict_get id_b (w_prompts w) = None ->
  exists w',
    start_ab_test name id_a id_b split w = (OK false, w')
    /\ w_redis w' = w_redis w /\ w_prompts w' = w_prompts w.
Proof.
  intros H. unfold start_ab_test, mbind, M_bind, settings, get_prompt, print, mret, M_ret.
  destruct (ab_test_enabled (w_settings w)); cbn [negb].
  - destruct (dict_get id_a (w_prompts w)) as [pa|], (dict_get id_b (w_prompts w)) as [pb|];
      try (eexists; split; [reflexivity|]; destruct w; done).
    destruct H as [H|[H|H]]; discriminate.
  - eexists; split; [reflexivity|]; destruct w; done.
Qed.

(** C3, as stated, fails: a traffic split of 1.5 is accepted, the
    assignment is stored and [True] is returned; an empty prompt id that is not
    registered gives [False], not an error. *)
Lemma start_ab_test_accepts_any_split :
  let w := sample_world noon in
  Py.flt Py.one (Py.ratio 3 2) = true
  /\ eval (start_ab_test "chat" "pa" "pb" (Py.ratio 3 2)) w = OK true
  /\ live (exec (start_ab_test "chat" "pa" "pb" (Py.ratio 3 2)) w) "ab_test:chat"
     = Some (BAbTest {| ab_template_name := "chat"; prompt_a := "pa"; prompt_b := "pb";
                        traffic_split := Py.ratio 3 2; started_at := noon;
                        active := true |})
  /\ eval (start_ab_test "chat" EmptyString "pb" (Py.ratio 1 2)) w = OK false.
Proof. vm_compute. done. Qed.

(** C3 (amended).  [start_ab_test] does not validate its arguments and has no
    invalid-argument error.  It returns [False], and stores no assignment,
    when A/B testing is disabled or when either prompt id, an empty one for
    instance, is not registered.  Otherwise, when no connection fault occurs,
    it stores the assignment with the traffic split as given, whatever its
    value, and returns [True]. *)
Theorem start_ab_test_spec :
  (forall (name id_a id_b : string) (split : float) (w : World),
     ab_test_enabled (w_settings w) = false
     \/ dict_get id_a (w_prompts w) = None
     \/ dict_get id_b (w_prompts w) = None ->
     exists w',
       start_ab_test name id_a id_b split w = (OK false, w')
       /\ w_redis w' = w_redis w /\ w_prompts w' = w_prompts w)
  /\ (forall (name id_a id_b : string) (split : float) (w : World) (pa pb : PromptVersion),
        connected w ->
        ab_test_enabled (w_settings w) = true ->
        dict_get id_a (w_prompts w) = Some pa ->
        dict_get id_b (w_prompts w) = Some pb ->
        exists w',
          start_ab_test name id_a id_b split w = (OK true, w')
          /\ live w' ("ab_test:" +:+ name)
             = Some (BAbTest {| ab_template_name := name; prompt_a := id_a;
                                prompt_b := id_b; traffic_split := split;
                                started_at := w_now w; active := true |})).
Proof.
  split.
  - exact start_ab_test_declines.
  - exact start_ab_test_stores.
Qed.

Lemma start_ab_test_spec_witness :
  (exists w',
     start_ab_test "chat" EmptyString "pb" (Py.ratio 1 2) (sample_world noon) = (OK false, w')
     /\ w_redis w' = w_redis (sample_world noon)
     /\ w_prompts w' = w_prompts (sample_world noon))
  /\ (exists w',
        start_ab_test "chat" "pa" "pb" (Py.ratio 3 2) (sample_world noon) = (OK true, w')
        /\ live w' "ab_test:chat"
           = Some (BAbTest {| ab_template_name := "chat"; prompt_a := "pa";
                              prompt_b := "pb"; traffic_split := Py.ratio 3 2;
                              started_at := noon; active := true |})).
Proof.
  split.
  - apply (proj1 start_ab_test_spec "chat" EmptyString "pb" (Py.ratio 1 2) (sample_world noon)).
    right. left. reflexivity.
  - apply (proj2 start_ab_test_spec "chat" "pa" "pb" (Py.ratio 3 2) (sample_world noon)
             (sample_prompt "pa") (sample_prompt "pb")); reflexivity.
Defined.

(** ** Experiment assignment *)

Lemma get_ab_test_prompt_active (name : string) (user : option string)
    (c : AbTestConfig) (w : World) :
  connected w ->
  live w ("ab_test:" +:+ name) = Some (BAbTest c) ->
  active c = true ->
  get_ab_test_prompt name user w
  = match choose_variant c user w with
    | (OK id, w') => (OK (dict_get id (w_prompts w')), w')
    | (Raise e, w') => (Raise e, w')
    end.
Proof.
  intros Hc Hl Ha. unfold get_ab_test_prompt.
  unfold mbind at 1, M_bind at 1. rewrite redis_get_connected by done.
  unfold live in Hl. rewrite Hl. cbn [get_active]. rewrite Ha. cbn [negb].
  unfold mbind, M_bind, get_prompt.
  destruct (choose_variant c user w) as [[id|e] w']; done.
Qed.

Lemma choose_variant_user (c : AbTestConfig) (u : string) (w : World) :
  truthy u = true ->
  choose_variant c (Some u) w = (OK (sticky_variant c (w_hash w u)), w).
Proof.
  intros Hu. unfold choose_variant, sticky_variant. rewrite Hu.
  unfold mbind, M_bind, py_hash, mret, M_ret.
  destruct (Py.int_lt_float _ _); done.
Qed.

Lemma choose_variant_random (c : AbTestConfig) (user : option string) (w : World) :
  match user with Some u => truthy u = false | None => True end ->
  choose_variant c user w
  = (OK (if Py.flt (w_rng w 0%nat) (traffic_split c) then prompt_b c else prompt_a c),
     set_rng (λ n, w_rng w (S n)) w).
Proof.
  intros Hu. unfold choose_variant.
  destruct user as [u|]; [rewrite Hu|];
    unfold mbind, M_bind, random_random, mret, M_ret;
    destruct (Py.flt _ _); done.
Qed.

(** X24.  Within one process the assignment is sticky.  For every
    non-empty user id and every active A/B test configuration of an
    experiment name, a call of [get_ab_test_prompt] with that name and user
    id changes nothing, and returns the variant on whose side the hash of
    the user id falls; so it returns the same variant in any two worlds that
    hold that configuration, the same prompt registry and the same hash of
    the user id, as two calls of one process do, whatever the clock, the
    generator and the rest of the store are. *)
Theorem sticky_assignment (name u : string) (c : AbTestConfig) (w1 w2 : World) :
  truthy u = true ->
  active c = true ->
  connected w1 -> connected w2 ->
  live w1 ("ab_test:" +:+ name) = Some (BAbTest c) ->
  live w2 ("ab_test:" +:+ name) = Some (BAbTest c) ->
  w_hash w1 u = w_hash w2 u ->
  w_prompts w1 = w_prompts w2 ->
  let p := dict_get (sticky_variant c (w_hash w1 u)) (w_prompts w1) in
  get_ab_test_prompt name (Some u) w1 = (OK p, w1)
  /\ get_ab_test_prompt name (Some u) w2 = (OK p, w2).
Proof.
  intros Hu Ha Hc1 Hc2 Hl1 Hl2 Hh Hp p. subst p. split.
  - rewrite (get_ab_test_prompt_active name (Some u) c w1) by done.
    rewrite choose_variant_user by done. done.
  - rewrite (get_ab_test_prompt_active name (Some u) c w2) by done.
    rewrite choose_variant_user by done. rewrite Hh, Hp. done.
Qed.

Lemma sticky_assignment_witness :
  let w1 := world_with_experiment in
  let w2 := set_rng (λ _, Py.ratio 9 10) (set_now (noon + hour) world_with_experiment) in
  get_ab_test_prompt "chat" (Some "user123") w1 = (OK (Some (sample_prompt_testing "pa")), w1)
  /\ get_ab_test_prompt "chat" (Some "user123") w2
     = (OK (Some (sample_prompt_testing "pa")), w2).
Proof.
  apply (sticky_assignment "chat" "user123"
           {| ab_template_name := "chat"; prompt_a := "pa"; prompt_b := "pb";
              traffic_split := Py.ratio 1 2; started_at := noon; active := true |}
           world_with_experiment
           (set_rng (λ _, Py.ratio 9 10) (set_now (noon + hour) world_with_experiment)));
    reflexivity.
Defined.

(** C1 at the failing input.  An experiment on the template "chat" was
    started at noon, half of the traffic to B; its configuration stays in the
    store for 24 hours.  A second process on the same store, whose
    [PromptManager] loaded the two prompts from the store, holds the same
    active configuration and the same prompts, and its [hash] has another
    salt: the id "user123", which hashes to 59 modulo 100 in the first
    process and to 19 in the second, is given variant A by the first and
    variant B by the second.  And within the first process the empty user
    id, which [if user_id:] sends to the random branch, is given variant B
    by one call and variant A by the next, the configuration and the prompts
    being unchanged. *)
Theorem assignment_differs_between_processes :
  let config := {| ab_template_name := "chat"; prompt_a := "pa"; prompt_b := "pb";
                   traffic_split := Py.ratio 1 2; started_at := noon; active := true |} in
  let w1 := world_with_experiment in
  let w2 := second_process other_hash world_with_experiment in
  (live w1 "ab_test:chat" = Some (BAbTest config)
   /\ live w2 "ab_test:chat" = Some (BAbTest config)
   /\ w_redis w2 = w_redis w1
   /\ w_now w2 = w_now w1
   /\ dict_get "pa" (w_prompts w2) = dict_get "pa" (w_prompts w1)
   /\ dict_get "pb" (w_prompts w2) = dict_get "pb" (w_prompts w1)
   /\ w_hash w1 "user123" `mod` 100 = 59
   /\ w_hash w2 "user123" `mod` 100 = 19
   /\ get_ab_test_prompt "chat" (Some "user123") w1
      = (OK (Some (sample_prompt_testing "pa")), w1)
   /\ get_ab_test_prompt "chat" (Some "user123") w2
      = (OK (Some (sample_prompt_testing "pb")), w2))
  /\ (let w' := exec (get_ab_test_prompt "chat" (Some EmptyString)) w1 in
      live w' "ab_test:chat" = Some (BAbTest config)
      /\ w_prompts w' = w_prompts w1
      /\ assigned_id (eval (get_ab_test_prompt "chat" (Some EmptyString)) w1) = Some "pb"
      /\ assigned_id (eval (get_ab_test_prompt "chat" (Some EmptyString)) w') = Some "pa").
Proof. vm_compute. repeat split. Qed.

Lemma below_hundred (P : Z -> bool) :
  List.forallb (λ n, P (Z.of_nat n)) (List.seq 0 100) = true ->
  forall r, 0 <= r < 100 -> P r = true.
Proof.
  intros H r Hr. rewrite List.forallb_forall in H.
  specialize (H (Z.to_nat r)). rewrite Z2Nat.id in H by lia.
  apply H. apply List.in_seq. lia.
Qed.

Lemma hash_below_full_split (h : Z) :
  Py.int_lt_float (h `mod` 100) (Py.fmul Py.one Py.hundred) = true.
Proof.
  apply (below_hundred (λ r, Py.int_lt_float r (Py.fmul Py.one Py.hundred))).
  - vm_compute. done.
  - apply Z.mod_pos_bound. lia.
Qed.

Lemma hash_not_below_zero_split (h : Z) :
  Py.int_lt_float (h `mod` 100) (Py.fmul Py.zero Py.hundred) = false.
Proof.
  apply negb_true_iff.
  apply (below_hundred (λ r, negb (Py.int_lt_float r (Py.fmul Py.zero Py.hundred)))).
  - vm_compute. done.
  - apply Z.mod_pos_bound. lia.
Qed.

(** C2.  With an active assignment of traffic split 0, [get_ab_test_prompt]
    returns variant A for every user id, given or absent; with traffic split
    1 it returns variant B.  A draw of the generator is taken in [0, 1). *)
Theorem boundary_splits (name : string) (user : option string)
    (c : AbTestConfig) (w : World) :
  connected w ->
  live w ("ab_test:" +:+ name) = Some (BAbTest c) ->
  active c = true ->
  unit_draw (w_rng w 0%nat) ->
  (traffic_split c = Py.zero ->
   eval (get_ab_test_prompt name user) w = OK (dict_get (prompt_a c) (w_prompts w)))
  /\ (traffic_split c = Py.one ->
      eval (get_ab_test_prompt name user) w = OK (dict_get (prompt_b c) (w_prompts w))).
Proof.
  intros Hc Hl Ha [Hlo Hhi]. unfold eval.
  rewrite (get_ab_test_prompt_active name user c w) by done.
  assert (Hcase : (exists u, user = Some u /\ truthy u = true)
                  \/ match user with Some u => truthy u = false | None => True end).
  { destruct user as [u|]; [|right; done].
    destruct (truthy u) eqn:E; [left; eauto | right; done]. }
  destruct Hcase as [(u & -> & Hu) | Hrand].
  - rewrite choose_variant_user by done. unfold sticky_variant.
    split; intros ->.
    + rewrite hash_not_below_zero_split. done.
    + rewrite hash_below_full_split. done.
  - rewrite choose_variant_random by done.
    split; intros ->.
    + rewrite (flt_false_of_fle _ _ Hlo). done.
    + rewrite Hhi. done.
Qed.

Lemma boundary_splits_witness :
  let at_split split :=
    exec (start_ab_test "chat" "pa" "pb" split) (sample_world noon) in
  eval (get_ab_test_prompt "chat" (Some "user123")) (at_split Py.zero)
  = OK (Some (sample_prompt_testing "pa"))
  /\ eval (get_ab_test_prompt "chat" None) (at_split Py.one)
     = OK (Some (sample_prompt_testing "pb")).
Proof.
  split.
  - refine (proj1 (boundary_splits "chat" (Some "user123")
             {| ab_template_name := "chat"; prompt_a := "pa"; prompt_b := "pb";
                traffic_split := Py.zero; started_at := noon; active := true |}
             (exec (start_ab_test "chat" "pa" "pb" Py.zero) (sample_world noon))
             _ _ _ _) _); try reflexivity.
    split; reflexivity.
  - refine (proj2 (boundary_splits "chat" None
             {| ab_template_name := "chat"; prompt_a := "pa"; prompt_b := "pb";
                traffic_split := Py.one; started_at := noon; active := true |}
             (exec (start_ab_test "chat" "pa" "pb" Py.one) (sample_world noon))
             _ _ _ _) _); try reflexivity.
    split; reflexivity.
Defined.

(** ** The 95th percentile *)

Lemma float_div_int_ok (x : float) (n : Z) :
  0 < n < 2 ^ 47 -> exists y, Py.float_div_int x n = OK y.
Proof.
  intros [Hlo Hhi]. destruct n as [|p|p]; [lia| |lia].
  assert (Hd : digits p <= 1023) by (assert (digits p <= 47); [apply digits_le|]; lia).
  destruct (of_Z_pos_finite p Hd) as (m & e & Hf).
  unfold Py.float_div_int, Py.float_of_int, Py.float_truediv. rewrite Hf. simpl. eauto.
Qed.

Lemma int_truediv_ok (a b : Z) :
  0 <= a < 2 ^ 47 -> 0 < b < 2 ^ 47 -> exists y, Py.int_truediv a b = OK y.
Proof.
  intros [Ha Ha'] [Hb Hb'].
  destruct (Z.eq_dec a 0) as [->|Hne].
  - destruct b; [lia| |lia]. eexists. reflexivity.
  - assert (H47 : 2 ^ 47 <= 2 ^ 1021) by (apply Z.pow_le_mono_r; lia).
    assert (H47' : 2 ^ 47 <= 2 ^ 1022) by (apply Z.pow_le_mono_r; lia).
    destruct (int_truediv_pos a b) as (m & e & Hm); [lia|lia|nia|nia|]. eauto.
Qed.

Lemma performance_dict_ok (sorted_nan : list float -> list float)
    (requests : list LLMRequest) (hours : Z) :
  requests <> [] -> 0 < hours < 2 ^ 47 -> len requests < 2 ^ 47 ->
  Forall (λ x, Py.is_nan x = false) (map latency_ms requests) ->
  exists d x,
    performance_dict sorted_nan requests hours = OK d
    /\ dict_get "p95_latency_ms" d = Some (NFloat x)
    /\ py_sorted sorted_nan (map latency_ms requests) !! Z.to_nat (19 * len requests / 20)
       = Some x.
Proof.
  intros Hne Hh Hn Hnan. destruct requests as [|r0 rest]; [done|].
  set (requests := r0 :: rest) in *.
  assert (Hpos : 0 < len requests) by (unfold len, requests; simpl; lia).
  assert (Hlat : len (map latency_ms requests) = len requests)
    by (unfold len; rewrite length_map; done).
  assert (Hsuc : len (map success requests) = len requests)
    by (unfold len; rewrite length_map; done).
  unfold performance_dict. fold requests. rewrite Hlat, Hsuc.
  destruct (float_div_int_ok (py_sum (map latency_ms requests)) (len requests))
    as (avg & ->); [lia|].
  destruct (int_truediv_ok (len (filter (λ b, b = true) (map success requests)))
              (len requests)) as (rate & ->); [|lia|].
  { pose proof (length_filter (λ b, b = true) (map success requests)) as Hf.
    rewrite length_map in Hf. unfold len in *. lia. }
  destruct (int_truediv_ok (len requests) hours) as (per_hour & ->); [lia|lia|].
  rewrite p95_index_floor by lia.
  assert (Hidx : 0 <= 19 * len requests / 20 < len requests).
  { split; [apply Z.div_pos; lia|]. apply Z.div_lt_upper_bound; lia. }
  unfold py_index. destruct (Z.ltb_spec (19 * len requests / 20) 0); [lia|].
  destruct (lookup_lt_is_Some_2 (py_sorted sorted_nan (map latency_ms requests))
              (Z.to_nat (19 * len requests / 20))) as [x Hx].
  { rewrite py_sorted_length, length_map by done. unfold len in *. lia. }
  rewrite Hx. eexists _, x. split; [reflexivity|]. split; reflexivity.
Qed.

Lemma window_start_hours (end_time hours start_time : Z) :
  window_start end_time hours = OK start_time ->
  start_time = end_time - hours * hour /\ hours < 2 ^ 47.
Proof.
  unfold window_start, timedelta_hours, datetime_sub.
  assert (Hhour : hour = 3600000000) by reflexivity.
  assert (Hday : day = 86400000000) by reflexivity.
  destruct (Z.leb_spec (-999999999) (hours * hour / day)) as [Hlo|];
    destruct (Z.leb_spec (hours * hour / day) 999999999) as [Hhi|]; cbn [andb];
    try discriminate.
  destruct (_ && _); [|discriminate]. intros [= <-]. split; [done|].
  change (2 ^ 47) with 140737488355328.
  assert (hours * hour < (999999999 + 1) * day).
  { destruct (Z.lt_ge_cases (hours * hour) ((999999999 + 1) * day)) as [|Hge]; [done|].
    assert ((999999999 + 1) * day / day <= hours * hour / day)
      by (apply Z.div_le_mono; lia).
    rewrite Z.div_mul in H by lia. lia. }
  lia.
Qed.

Lemma window_requests_hours (model : option string) (hours : Z) (w w' : World)
    (requests : list LLMRequest) :
  window_requests model hours w = (OK requests, w') ->
  requests <> [] -> 0 <= hours < 2 ^ 47.
Proof.
  unfold window_requests, mbind, M_bind, datetime_now, lift. cbv beta iota.
  pose proof (window_start_hours (w_now w) hours) as Hstart. unfold window_start in Hstart.
  destruct (timedelta_hours hours) as [delta|]; [|discriminate].
  destruct (datetime_sub (w_now w) delta) as [start_time|]; [|discriminate].
  destruct (Hstart start_time eq_refl) as [-> Hlt].
  intros Hscan Hne. split; [|done].
  destruct (Z.le_gt_cases 0 hours) as [|Hneg]; [done|]. exfalso.
  rewrite scan_fuel_done in Hscan by (unfold hour, second; lia).
  injection Hscan as <- _. done.
Qed.

Lemma twenty_requests_p95 (sorted_nan : list float -> list float) :
  exists d, performance_dict sorted_nan twenty_requests 24 = OK d
            /\ dict_get "p95_latency_ms" d = Some (NFloat (Py.of_Z 2000))
            /\ p95_index 20 = OK 19
            /\ py_sorted sorted_nan (map latency_ms twenty_requests)
               = map Py.of_Z [100; 200; 300; 400; 500; 600; 700; 800; 900; 1000;
                              1100; 1200; 1300; 1400; 1500; 1600; 1700; 1800; 1900; 2000].
Proof. eexists. vm_compute. done. Qed.

Lemma world_twenty_p95 (sorted_nan : list float -> list float) :
  exists d, eval (get_performance_metrics sorted_nan None 24) world_twenty = OK d
            /\ dict_get "total_requests" d = Some (NInt 20)
            /\ p95_index 20 = OK 19
            /\ dict_get "p95_latency_ms" d = Some (NFloat (Py.of_Z 2000)).
Proof. eexists. vm_compute. done. Qed.

(** X25.  The nearest-rank rule of the 95th percentile.  For every
    non-empty list of requests that the scan of [get_performance_metrics]
    collects (of fewer than [2 ^ 47] elements, as every list in memory is),
    none of whose latencies is a NaN, and a number of hours other than 0,
    [p95_latency_ms] is the element at index [floor (0.95 n)] of the
    latencies sorted in ascending order: on floats without a NaN,
    [py_sorted] is a permutation of its argument in ascending order.  For
    the 20 latencies 100, 200, ..., 2000 the index is 19 and the result
    2000. *)
Theorem p95_nearest_rank :
  (forall (sorted_nan : list float -> list float) (model : option string) (hours : Z)
          (w w' : World) (requests : list LLMRequest),
     window_requests model hours w = (OK requests, w') ->
     requests <> [] -> hours <> 0 -> len requests < 2 ^ 47 ->
     Forall (λ x, Py.is_nan x = false) (map latency_ms requests) ->
     exists d x,
       get_performance_metrics sorted_nan model hours w = (OK d, w')
       /\ dict_get "p95_latency_ms" d = Some (NFloat x)
       /\ py_sorted sorted_nan (map latency_ms requests)
            !! Z.to_nat (19 * len requests / 20)
          = Some x)
  /\ (forall (sorted_nan : list float -> list float) (xs : list float),
        Forall (λ x, Py.is_nan x = false) xs ->
        Permutation (py_sorted sorted_nan xs) xs
        /\ Sorted fle_prop (py_sorted sorted_nan xs))
  /\ (forall sorted_nan : list float -> list float,
        exists d, eval (get_performance_metrics sorted_nan None 24) world_twenty = OK d
                  /\ dict_get "total_requests" d = Some (NInt 20)
                  /\ p95_index 20 = OK 19
                  /\ dict_get "p95_latency_ms" d = Some (NFloat (Py.of_Z 2000))).
Proof.
  split; [|split].
  - intros sorted_nan model hours w w' requests Hw Hne Hh Hn Hnan.
    pose proof (window_requests_hours model hours w w' requests Hw Hne) as Hhours.
    destruct (performance_dict_ok sorted_nan requests hours Hne ltac:(lia) Hn Hnan)
      as (d & x & Hd & Hp & Hx).
    exists d, x. split; [|done].
    unfold get_performance_metrics, mbind, M_bind, lift. rewrite Hw, Hd. done.
  - intros sorted_nan xs Hnan. split; [apply py_sorted_perm | apply py_sorted_sorted]; done.
  - exact world_twenty_p95.
Qed.

Lemma p95_nearest_rank_witness :
  exists d x,
    get_performance_metrics (λ xs, xs) None 24 world_twenty = (OK d, world_twenty)
    /\ dict_get "p95_latency_ms" d = Some (NFloat x)
    /\ py_sorted (λ xs, xs) (map latency_ms (rev twenty_requests)) !! 19%nat = Some x.
Proof.
  apply (proj1 p95_nearest_rank (λ xs, xs) None 24 world_twenty world_twenty
           (rev twenty_requests)).
  - vm_compute. reflexivity.
  - vm_compute. intros H. discriminate H.
  - lia.
  - vm_compute. reflexivity.
  - vm_compute. repeat constructor.
Defined.

(** C5 at the failing input.  At 00:45 on 2024-01-02 the window of the last
    two hours starts on 2024-01-01 at 22:45.  The store holds the record of a
    request logged at 00:30, inside the window, listed under its day,
    2024-01-02.  The loop visits 22:45 only, since 22:45 plus one day is
    after the end, and reads the list of 2024-01-01:
    [get_performance_metrics] returns the dict of no request, which has no
    [p95_latency_ms], where the rule gives 150.0, the latency of the one
    record of the window.  And with [hours = 0] and a request stamped with
    the present instant, the window holds that record and the call raises
    [ZeroDivisionError]. *)
Theorem performance_scan_skips_end_day (sorted_nan : list float -> list float) :
  let w := world_after_midnight in
  let end_time := at_time 19724 0 45 0 in
  let start_time := at_time 19723 22 45 0 in
  (w_now w = end_time
   /\ window_start end_time 2 = OK start_time
   /\ live_record w "r1" = Some (BRequest midnight_request)
   /\ bucket w "requests:2024-01-02" = ["r1"]
   /\ start_time <= timestamp midnight_request <= end_time
   /\ visited_days (scan_fuel start_time end_time) start_time end_time = [start_time]
   /\ strftime_Ymd start_time = "2024-01-01"
   /\ get_performance_metrics sorted_nan None 2 w = (OK zero_performance, w)
   /\ dict_get "p95_latency_ms" zero_performance = None
   /\ (dict_get "p95_latency_ms"
         <$> match performance_dict sorted_nan [midnight_request] 2 with
             | OK d => Some d
             | Raise _ => None
             end)
      = Some (Some (NFloat (Py.ratio 150 1))))
  /\ (w_now world_stamped_now = noon
      /\ stored_timestamps world_stamped_now = [noon]
      /\ get_performance_metrics sorted_nan None 0 world_stamped_now
         = (Raise ZeroDivisionError, world_stamped_now)).
Proof. vm_compute. repeat split; try reflexivity; intros H; discriminate H. Qed.

(** ** The days that a scan covers *)

(** The cost scan reads the per-day lists and never a timestamp: over the
    hour from 12:00 to 13:00 it counts the two requests of 11:00 and 11:30,
    which [get_performance_metrics] over the same hour leaves out. *)
Lemma cost_scan_counts_whole_days :
  (forall (model : option string) (s e : Z) (w : World),
     connected w ->
     get_cost_metrics model (Some s) (Some e) w
     = (cost_metrics_of (fold_left cost_step (scanned w (date_key model) s e)
                                   (Py.zero, 0, 0)) s e, w))
  /\ (forall (acc : float * Z * Z) (r : LLMRequest) (t : Z),
        cost_step acc (BRequest r)
        = cost_step acc (BRequest
            {| request_id := request_id r; model_name := model_name r;
               model_version := model_version r; prompt_id := prompt_id r;
               user_id := user_id r; timestamp := t;
               input_tokens := input_tokens r; output_tokens := output_tokens r;
               latency_ms := latency_ms r; cost_usd := cost_usd r;
               success := success r; error_message := error_message r;
               metadata := metadata r |}))
  /\ requests_count <$> (match eval (get_cost_metrics None (Some noon) (Some (noon + hour)))
                                    world_at_one with
                         | OK m => Some m | Raise _ => None end) = Some 2
  /\ (forall sorted_nan : list float -> list float,
        eval (get_performance_metrics sorted_nan None 1) world_at_one = OK zero_performance).
Proof.
  split; [|split; [|split]].
  - intros model s e w Hc. apply (get_cost_metrics_connected model (Some s) (Some e) w Hc).
  - intros [[tc tr] tt] r t. reflexivity.
  - vm_compute. reflexivity.
  - intros sorted_nan. vm_compute. reflexivity.
Qed.

(** C10 at the failing input.  The window from 2024-01-01 23:00 to
    2024-01-02 01:00 ends on 2024-01-02, and the list of that day holds a live
    request logged at 00:30, inside the window; the loop visits 23:00 only,
    since 23:00 plus one day is after the end, and [get_cost_metrics] returns
    a count of 0. *)
Theorem cost_scan_skips_end_day :
  strftime_Ymd late_start = "2024-01-01"
  /\ strftime_Ymd early_end = "2024-01-02"
  /\ bucket world_after_midnight "requests:2024-01-02" = ["r1"]
  /\ live_record world_after_midnight "r1" = Some (BRequest midnight_request)
  /\ late_start <= timestamp midnight_request <= early_end
  /\ visited_days (scan_fuel late_start early_end) late_start early_end = [late_start]
  /\ eval (get_cost_metrics None (Some late_start) (Some early_end)) world_after_midnight
     = OK (zero_cost_metrics late_start early_end).
Proof. vm_compute. repeat split; try reflexivity; intros H; discriminate H. Qed.

(** * Further properties of the code *)

(** ** What the store holds after a write *)

Lemma redis_setex_store (key : string) (ttl : Z) (v : Blob) (w : World) :
  connected w -> 0 < ttl ->
  exists w',
    redis_setex key ttl v w = (OK tt, w')
    /\ connected w' /\ same_env w w'
    /\ r_strings (w_redis w') = <[key := (v, w_now w + ttl * second)]> (r_strings (w_redis w))
    /\ r_lists (w_redis w') = delete key (r_lists (w_redis w)).
Proof.
  intros Hc Httl. unfold redis_setex. rewrite redis_call_connected by done.
  destruct (Z.leb_spec ttl 0) as [|_]; [lia|]. cbn [fst snd].
  eexists. split; [reflexivity|].
  destruct w as [st now [strs lsts fs] ps h g o]. unfold connected in *. simpl in *.
  subst fs. repeat split.
Qed.

Lemma redis_lpush_store (key value : string) (w : World) :
  connected w ->
  exists w' e,
    redis_lpush key value w = (OK tt, w')
    /\ connected w' /\ same_env w w'
    /\ r_strings (w_redis w') = r_strings (w_redis w)
    /\ r_lists (w_redis w') = <[key := (value :: bucket w key, e)]> (r_lists (w_redis w))
    /\ live_list (w_now w') (w_redis w') key = Some (value :: bucket w key, e).
Proof.
  intros Hc. unfold redis_lpush. rewrite redis_call_connected by done.
  cbn [fst snd].
  destruct w as [st now [strs lsts fs] ps h g o]. unfold connected in *. simpl in *.
  subst fs. unfold bucket. simpl.
  destruct (live_list now {| r_strings := strs; r_lists := lsts; r_faults := [] |} key)
    as [[l ex]|] eqn:El.
  - eexists _, ex. split; [reflexivity|]. repeat split. simpl.
    unfold live_list. simpl. rewrite lookup_insert_eq.
    destruct ex as [ex|]; [|done].
    unfold live_list in El. simpl in El.
    destruct (lsts !! key) as [[l' [ex'|]]|]; try discriminate.
    destruct (now <=? ex') eqn:Elt; [|discriminate].
    injection El as <- <-. rewrite Elt. done.
  - eexists _, None. split; [reflexivity|]. repeat split. simpl.
    unfold live_list. simpl. rewrite lookup_insert_eq. done.
Qed.

Lemma redis_expire_store (key : string) (ttl : Z) (l : list string) (e : option Z)
    (w : World) :
  connected w ->
  live_list (w_now w) (w_redis w) key = Some (l, e) ->
  exists w',
    redis_expire key ttl w = (OK tt, w')
    /\ connected w' /\ same_env w w'
    /\ r_strings (w_redis w') = r_strings (w_redis w)
    /\ r_lists (w_redis w') = <[key := (l, Some (w_now w + ttl * second))]> (r_lists (w_redis w)).
Proof.
  intros Hc Hl. unfold redis_expire. rewrite redis_call_connected by done.
  destruct w as [st now [strs lsts fs] ps h g o]. unfold connected in *. simpl in *.
  subst fs. rewrite Hl. cbn [fst snd].
  eexists. split; [reflexivity|]. repeat split.
Qed.

Lemma _save_request_store (request : LLMRequest) (w : World) :
  connected w ->
  let request_key := "request:" +:+ request_id request in
  let date_key := "requests:" +:+ strftime_Ymd (timestamp request) in
  let model_key := "model_requests:" +:+ model_name request +:+ ":"
                   +:+ strftime_Ymd (timestamp request) in
  exists w',
    _save_request request w = (OK tt, w')
    /\ connected w' /\ same_env w w'
    /\ r_strings (w_redis w')
       = <[request_key := (BRequest request, w_now w + 86400 * second)]>
           (r_strings (w_redis w))
    /\ r_lists (w_redis w') !! date_key
       = Some (request_id request :: bucket w date_key, Some (w_now w + 2592000 * second))
    /\ r_lists (w_redis w') !! model_key
       = Some (request_id request :: bucket w model_key, Some (w_now w + 2592000 * second))
    /\ (forall k, k <> request_key -> k <> date_key -> k <> model_key ->
        r_lists (w_redis w') !! k = r_lists (w_redis w) !! k).
Proof.
  intros Hc rk dk mk.
  assert (Hrd : dk <> rk) by (unfold dk, rk; simpl; intros [=]).
  assert (Hrm : mk <> rk) by (unfold mk, rk; simpl; intros [=]).
  assert (Hdm : dk <> mk) by (unfold dk, mk; simpl; intros [=]).
  destruct (redis_setex_store rk 86400 (BRequest request) w Hc ltac:(lia))
    as (w1 & E1 & C1 & S1 & T1 & L1).
  destruct (redis_lpush_store dk (request_id request) w1 C1)
    as (w2 & e2 & E2 & C2 & S2 & T2 & L2 & V2).
  destruct (redis_expire_store dk 2592000 _ _ w2 C2 V2)
    as (w3 & E3 & C3 & S3 & T3 & L3).
  destruct (redis_lpush_store mk (request_id request) w3 C3)
    as (w4 & e4 & E4 & C4 & S4 & T4 & L4 & V4).
  destruct (redis_expire_store mk 2592000 _ _ w4 C4 V4)
    as (w5 & E5 & C5 & S5 & T5 & L5).
  assert (N1 : w_now w1 = w_now w) by apply S1.
  assert (N2 : w_now w2 = w_now w) by (rewrite <- N1; apply S2).
  assert (N3 : w_now w3 = w_now w) by (rewrite <- N2; apply S3).
  assert (N4 : w_now w4 = w_now w) by (rewrite <- N3; apply S4).
  assert (B1 : forall k, k <> rk -> bucket w1 k = bucket w k).
  { intros k Hk. unfold bucket, live_list. rewrite L1, N1, lookup_delete_ne by done. done. }
  assert (B3 : forall k, k <> dk -> bucket w3 k = bucket w1 k).
  { intros k Hk. unfold bucket, live_list.
    rewrite L3, L2, N3, N1, !lookup_insert_ne by done. done. }
  exists w5. split.
  - unfold _save_request, try_except, mbind, M_bind. fold rk dk mk.
    rewrite E1, E2, E3, E4, E5. done.
  - split; [done|]. split.
    { repeat (eapply same_env_trans; [eassumption|]). apply same_env_refl. }
    split; [|split; [|split]].
    + rewrite T5, T4, T3, T2, T1. done.
    + rewrite L5, L4, !lookup_insert_ne, L3, lookup_insert_eq, N2, B1 by done. done.
    + rewrite L5, lookup_insert_eq, N4, B3, B1 by done. done.
    + intros k K1 K2 K3.
      rewrite L5, L4, L3, L2, L1, !lookup_insert_ne, lookup_delete_ne by done. done.
Qed.

(** ** Retention *)

Lemma live_list_lookup (now : Z) (r : Redis) (key : string) (l : list string) (t : Z) :
  r_lists r !! key = Some (l, Some t) ->
  match live_list now r key with Some (l', _) => l' | None => [] end
  = if now <=? t then l else [].
Proof. intros H. unfold live_list. rewrite H. destruct (now <=? t); done. Qed.

(** X1.  [_save_request] keeps the record of a request for 24 hours and its
    id, in the list of its day and in the list of its model and day, for 30
    days: with the store connected, the record is read back during the next
    86400 seconds, up to and including the instant of its expiry, and no
    longer; the two lists hold the id in front of their former content
    during the next 2592000 seconds, up to and including the instant of
    their expiry, after which they are empty. *)
Theorem record_outlived_by_its_index (request : LLMRequest) (w : World) (elapsed : Z) :
  connected w -> 0 <= elapsed ->
  let date_key := "requests:" +:+ strftime_Ymd (timestamp request) in
  let model_key := "model_requests:" +:+ model_name request +:+ ":"
                   +:+ strftime_Ymd (timestamp request) in
  let w' := later elapsed (exec (_save_request request) w) in
  live_record w' (request_id request)
  = (if elapsed <=? 86400 * second then Some (BRequest request) else None)
  /\ bucket w' date_key
     = (if elapsed <=? 2592000 * second then request_id request :: bucket w date_key else [])
  /\ bucket w' model_key
     = (if elapsed <=? 2592000 * second then request_id request :: bucket w model_key
        else []).
Proof.
  intros Hc He dk mk.
  destruct (_save_request_store request w Hc) as (w1 & E & C & S & T & Ld & Lm & _).
  fold dk mk in Ld, Lm. unfold exec. rewrite E. cbn [snd].
  assert (N : w_now w1 = w_now w) by apply S.
  unfold later, live_record, bucket, live_string. cbn [w_now w_redis set_now].
  rewrite T, lookup_insert_eq, N.
  rewrite (live_list_lookup _ _ _ _ _ Ld), (live_list_lookup _ _ _ _ _ Lm).
  assert (Hle : forall t, (w_now w + elapsed <=? w_now w + t) = (elapsed <=? t)).
  { intros t. destruct (Z.leb_spec elapsed t), (Z.leb_spec (w_now w + elapsed) (w_now w + t));
      (done || lia). }
  rewrite !Hle. done.
Qed.

Lemma record_outlived_by_its_index_witness :
  let request := sample_request "r1" noon (Py.ratio 150 1) (Py.ratio 60 1) true in
  let saved := exec (_save_request request) (sample_world noon) in
  (live_record (later (86400 * second) saved) "r1" = Some (BRequest request)
   /\ bucket (later (86400 * second) saved) "requests:2024-01-01" = ["r1"])
  /\ (live_record (later (86400 * second + 1) saved) "r1" = None
      /\ bucket (later (86400 * second + 1) saved) "requests:2024-01-01" = ["r1"])
  /\ bucket (later (2592000 * second + 1) saved) "requests:2024-01-01" = [].
Proof.
  intros request saved. split; [|split].
  - destruct (record_outlived_by_its_index request (sample_world noon) (86400 * second))
      as (H1 & H2 & _); [reflexivity | unfold second; lia |].
    split; [exact H1 | exact H2].
  - destruct (record_outlived_by_its_index request (sample_world noon) (86400 * second + 1))
      as (H1 & H2 & _); [reflexivity | unfold second; lia |].
    split; [exact H1 | exact H2].
  - destruct (record_outlived_by_its_index request (sample_world noon) (2592000 * second + 1))
      as (_ & H2 & _); [reflexivity | unfold second; lia |].
    exact H2.
Defined.

(** ** A logged request in the cost scan *)

Lemma float_div_int_finite (x : float) (n : Z) :
  0 < n < 2 ^ 1023 -> exists y, Py.float_div_int x n = OK y.
Proof.
  intros [Hlo Hhi]. destruct n as [|p|p]; [lia| |lia].
  assert (Hd : digits p <= 1023) by (apply digits_le; lia).
  destruct (of_Z_pos_finite p Hd) as (m & e & Hf).
  unfold Py.float_div_int, Py.float_of_int, Py.float_truediv. rewrite Hf. simpl. eauto.
Qed.

Lemma cost_metrics_of_ok (total_cost : float) (total_requests total_tokens s e : Z) :
  total_requests < 2 ^ 1023 -> total_tokens < 2 ^ 1023 ->
  exists m, cost_metrics_of (total_cost, total_requests, total_tokens) s e = OK m
            /\ total_cost_usd m = total_cost
            /\ requests_count m = total_requests
            /\ tokens_count m = total_tokens.
Proof.
  intros Hr Ht. unfold cost_metrics_of.
  assert (exists y, (if 0 <? total_requests then Py.float_div_int total_cost total_requests
                     else OK Py.zero) = OK y) as [y ->].
  { destruct (Z.ltb_spec 0 total_requests); [apply float_div_int_finite; lia | eauto]. }
  assert (exists y, (if 0 <? total_tokens then Py.float_div_int total_cost total_tokens
                     else OK Py.zero) = OK y) as [y' ->].
  { destruct (Z.ltb_spec 0 total_tokens); [apply float_div_int_finite; lia | eauto]. }
  eexists. split; [reflexivity|]. done.
Qed.

Lemma cost_metrics_of_inv (totals : float * Z * Z) (s e : Z) (m : CostMetrics) :
  cost_metrics_of totals s e = OK m ->
  totals = (total_cost_usd m, requests_count m, tokens_count m).
Proof.
  destruct totals as [[c n] t]. unfold cost_metrics_of.
  destruct (if 0 <? n then _ else _); [|discriminate].
  destruct (if 0 <? t then _ else _); [|discriminate].
  intros [= <-]. done.
Qed.

Lemma fold_cost_step_counts (l : list Blob) (c : float) (n t : Z) :
  exists c',
    fold_left cost_step l (c, n, t)
    = (c', n + len l,
       t + sum_Z (map (λ d, get_input_tokens d + get_output_tokens d) l)).
Proof.
  revert c n t. induction l as [|d l IH]; intros c n t.
  - exists c. unfold len. simpl. f_equal; [f_equal|]; lia.
  - simpl. destruct (IH (Py.fadd c (get_cost_usd d)) (n + 1)
                        (t + (get_input_tokens d + get_output_tokens d))) as [c' ->].
    exists c'. unfold len. simpl length. f_equal; [f_equal|]; simpl; lia.
Qed.

Lemma single_day (s e : Z) :
  s <= e < s + day -> visited_days (scan_fuel s e) s e = [s].
Proof.
  intros [H1 H2]. unfold scan_fuel. rewrite Z.div_small by lia. simpl.
  destruct (Z.leb_spec s e); [done|lia].
Qed.

Lemma scanned_single_day (w : World) (key : Z -> string) (s e : Z) :
  s <= e < s + day -> scanned w key s e = live_blobs w (bucket w (key s)).
Proof. intros H. unfold scanned. rewrite single_day by done. simpl. apply app_nil_r. Qed.

Lemma live_blobs_ext (w w' : World) (ids : list string) :
  (forall id, In id ids -> live_record w' id = live_record w id) ->
  live_blobs w' ids = live_blobs w ids.
Proof.
  induction ids as [|id ids IH]; intros H; [done|].
  rewrite !live_blobs_cons, H, IH; [done| |left; done].
  intros id' Hin. apply H. right. done.
Qed.

Lemma _save_request_records (request : LLMRequest) (w : World) :
  connected w ->
  let w' := exec (_save_request request) w in
  _save_request request w = (OK tt, w')
  /\ connected w'
  /\ w_now w' = w_now w
  /\ live_record w' (request_id request) = Some (BRequest request)
  /\ (forall id, id <> request_id request -> live_record w' id = live_record w id)
  /\ (forall model, model = None \/ model = Some (model_name request) ->
      bucket w' (date_key model (timestamp request))
      = request_id request :: bucket w (date_key model (timestamp request))).
Proof.
  intros Hc w'.
  destruct (_save_request_store request w Hc) as (w1 & E & C & S & T & Ld & Lm & _).
  assert (w' = w1) as -> by (unfold w', exec; rewrite E; done).
  assert (N : w_now w1 = w_now w) by apply S.
  assert (0 < second) by (unfold second; lia).
  assert (Hlive : forall t, 0 < t -> (w_now w <=? w_now w + t * second) = true).
  { intros t Ht. apply Z.leb_le. nia. }
  split; [done|]. split; [done|]. split; [done|]. split; [|split].
  - unfold live_record, live_string. rewrite T, lookup_insert_eq, N, Hlive by lia. done.
  - intros id Hid. unfold live_record, live_string. rewrite T, N, lookup_insert_ne; [done|].
    simpl. intros [=]. done.
  - assert (Hd : bucket w1 ("requests:" +:+ strftime_Ymd (timestamp request))
                 = request_id request
                   :: bucket w ("requests:" +:+ strftime_Ymd (timestamp request))).
    { unfold bucket at 1. rewrite (live_list_lookup _ _ _ _ _ Ld), N, Hlive by lia. done. }
    intros model [->| ->]; [exact Hd|].
    unfold date_key. destruct (truthy (model_name request)); [|exact Hd].
    unfold bucket at 1. rewrite (live_list_lookup _ _ _ _ _ Lm), N, Hlive by lia. done.
Qed.

Lemma date_key_same_day (model : option string) (s t : Z) :
  strftime_Ymd s = strftime_Ymd t -> date_key model s = date_key model t.
Proof. intros H. unfold date_key. rewrite H. done. Qed.

(** X2.  A request saved under an id that its day does not list yet is
    counted exactly once: with the store connected, a cost scan of that day
    (without a model filter, or filtered by the model of the request) that
    returned [m] before [_save_request] returns afterwards one request more
    and the tokens of the request more. *)
Theorem saved_request_is_counted_once (request : LLMRequest) (model : option string)
    (w : World) (s e : Z) (m : CostMetrics) :
  connected w ->
  model = None \/ model = Some (model_name request) ->
  s <= e < s + day ->
  strftime_Ymd s = strftime_Ymd (timestamp request) ->
  ~ In (request_id request) (bucket w (date_key model s)) ->
  get_cost_metrics model (Some s) (Some e) w = (OK m, w) ->
  requests_count m + 1 < 2 ^ 1023 ->
  tokens_count m + tokens_of request < 2 ^ 1023 ->
  let w' := exec (_save_request request) w in
  exists m',
    get_cost_metrics model (Some s) (Some e) w' = (OK m', w')
    /\ requests_count m' = requests_count m + 1
    /\ tokens_count m' = tokens_count m + tokens_of request.
Proof.
  intros Hc Hmodel Hse Hday Hfresh Hm Hn Ht w'.
  destruct (_save_request_records request w Hc) as (_ & C & N & Lid & Lother & B).
  fold w' in C, N, Lid, Lother, B.
  rewrite get_cost_metrics_connected in Hm by done. injection Hm as Hm.
  apply cost_metrics_of_inv in Hm. cbn [default from_option id] in Hm.
  rewrite scanned_single_day in Hm by done.
  rewrite get_cost_metrics_connected by done. cbn [default from_option id].
  rewrite scanned_single_day by done.
  rewrite (date_key_same_day model s (timestamp request)) in * by done.
  rewrite B by done. rewrite live_blobs_cons, Lid.
  rewrite (live_blobs_ext w w').
  2:{ intros id Hin. apply Lother. intros ->. done. }
  destruct (fold_cost_step_counts
              (live_blobs w (bucket w (date_key model (timestamp request)))) Py.zero 0 0)
    as [c Hc0].
  rewrite Hc0 in Hm. injection Hm as Hcost Hcount Htokens.
  destruct (fold_cost_step_counts
              (BRequest request
               :: live_blobs w (bucket w (date_key model (timestamp request)))) Py.zero 0 0)
    as [c' Hc1].
  rewrite Hc1. unfold len in *. simpl length. simpl map. simpl sum_Z.
  unfold tokens_of in *.
  destruct (cost_metrics_of_ok c'
              (0 + Z.of_nat (S (length (live_blobs w
                 (bucket w (date_key model (timestamp request)))))))
              (0 + (input_tokens request + output_tokens request
                    + sum_Z (map (λ d, get_input_tokens d + get_output_tokens d)
                               (live_blobs w
                                  (bucket w (date_key model (timestamp request)))))))
              s e) as (m' & Em & _ & Hr' & Ht'); [lia|lia|].
  exists m'. split; [rewrite Em; done|]. lia.
Qed.

Lemma saved_request_is_counted_once_witness :
  let request := sample_request "r1" (at_time 19723 11 0 0)
                                (Py.ratio 150 1) (Py.ratio 60 1) true in
  let w := sample_world noon in
  let w' := exec (_save_request request) w in
  exists m',
    get_cost_metrics None (Some (at_time 19723 0 0 0)) (Some noon) w' = (OK m', w')
    /\ requests_count m' = 0 + 1
    /\ tokens_count m' = 0 + 150.
Proof.
  intros request w w'.
  apply (saved_request_is_counted_once request None w (at_time 19723 0 0 0) noon
           (zero_cost_metrics (at_time 19723 0 0 0) noon)).
  - reflexivity.
  - left. reflexivity.
  - vm_compute. split; [discriminate | reflexivity].
  - reflexivity.
  - vm_compute. intros H. exact H.
  - reflexivity.
  - change (0 + 1 < 2 ^ 1023). lia.
  - change (0 + 150 < 2 ^ 1023). lia.
Defined.

(** X3.  Request ids are not deduplicated.  When a request is saved and a
    second request with the same id is saved on the same day, the id is
    listed twice and the record of the first is overwritten: a cost scan of
    that day counts two requests more than before, and twice the tokens of
    the second request. *)
Theorem relogged_request_is_counted_twice (first second : LLMRequest)
    (model : option string) (w : World) (s e : Z) (m : CostMetrics) :
  connected w ->
  request_id second = request_id first ->
  strftime_Ymd (timestamp second) = strftime_Ymd (timestamp first) ->
  model = None \/ (model = Some (model_name first) /\ model_name second = model_name first) ->
  s <= e < s + day ->
  strftime_Ymd s = strftime_Ymd (timestamp first) ->
  ~ In (request_id first) (bucket w (date_key model s)) ->
  get_cost_metrics model (Some s) (Some e) w = (OK m, w) ->
  requests_count m + 2 < 2 ^ 1023 ->
  tokens_count m + 2 * tokens_of second < 2 ^ 1023 ->
  let w' := exec (_save_request second) (exec (_save_request first) w) in
  exists m',
    get_cost_metrics model (Some s) (Some e) w' = (OK m', w')
    /\ requests_count m' = requests_count m + 2
    /\ tokens_count m' = tokens_count m + 2 * tokens_of second.
Proof.
  intros Hc Hid Hsame Hmodel Hse Hday Hfresh Hm Hn Ht w'.
  destruct (_save_request_records first w Hc) as (_ & C1 & N1 & _ & Lother1 & B1).
  destruct (_save_request_records second _ C1) as (_ & C2 & N2 & Lid2 & Lother2 & B2).
  fold w' in C2, N2, Lid2, Lother2, B2.
  set (w1 := exec (_save_request first) w) in *.
  assert (K1 : date_key model s = date_key model (timestamp first))
    by (apply date_key_same_day; done).
  assert (K2 : date_key model (timestamp second) = date_key model (timestamp first))
    by (apply date_key_same_day; done).
  assert (M1 : model = None \/ model = Some (model_name first)) by tauto.
  assert (M2 : model = None \/ model = Some (model_name second)).
  { destruct Hmodel as [|[? ->]]; tauto. }
  specialize (B1 model M1). specialize (B2 model M2). rewrite K2, B1 in B2.
  rewrite get_cost_metrics_connected in Hm by done. injection Hm as Hm.
  apply cost_metrics_of_inv in Hm. cbn [default from_option id] in Hm.
  rewrite scanned_single_day in Hm by done.
  rewrite get_cost_metrics_connected by done. cbn [default from_option id].
  rewrite scanned_single_day by done.
  rewrite K1 in *. rewrite B2, Hid. rewrite !live_blobs_cons. rewrite <- Hid, Lid2.
  rewrite (live_blobs_ext w1 w').
  2:{ intros id Hin. apply Lother2. rewrite Hid. intros ->. done. }
  rewrite (live_blobs_ext w w1).
  2:{ intros id Hin. apply Lother1. intros ->. done. }
  set (old := live_blobs w (bucket w (date_key model (timestamp first)))) in *.
  destruct (fold_cost_step_counts old Py.zero 0 0) as [c Hc0].
  rewrite Hc0 in Hm. injection Hm as Hcost Hcount Htokens.
  destruct (fold_cost_step_counts (BRequest second :: BRequest second :: old) Py.zero 0 0)
    as [c' Hc1].
  rewrite Hc1. unfold len in *. simpl length. simpl map. simpl sum_Z.
  unfold tokens_of in *.
  match goal with |- context [cost_metrics_of (c', ?n, ?t) s e] =>
    destruct (cost_metrics_of_ok c' n t s e) as (m' & Em & _ & Hr' & Ht'); [lia|lia|]
  end.
  exists m'. split; [rewrite Em; done|]. lia.
Qed.

Lemma relogged_request_is_counted_twice_witness :
  let first := sample_request "r1" (at_time 19723 10 0 0)
                              (Py.ratio 150 1) (Py.ratio 60 1) true in
  let second := sample_request "r1" (at_time 19723 11 0 0)
                               (Py.ratio 90 1) (Py.ratio 40 1) false in
  let w := sample_world noon in
  let w' := exec (_save_request second) (exec (_save_request first) w) in
  exists m',
    get_cost_metrics None (Some (at_time 19723 0 0 0)) (Some noon) w' = (OK m', w')
    /\ requests_count m' = 0 + 2
    /\ tokens_count m' = 0 + 2 * 150.
Proof.
  intros first second w w'.
  apply (relogged_request_is_counted_twice first second None w (at_time 19723 0 0 0) noon
           (zero_cost_metrics (at_time 19723 0 0 0) noon)).
  - reflexivity.
  - reflexivity.
  - reflexivity.
  - left. reflexivity.
  - vm_compute. split; [discriminate | reflexivity].
  - reflexivity.
  - vm_compute. intros H. exact H.
  - reflexivity.
  - change (0 + 2 < 2 ^ 1023). lia.
  - change (0 + 2 * 150 < 2 ^ 1023). lia.
Defined.

(** ** The aggregations only read *)

Lemma window_scan_same_data (model : option string) (hours : Z)
    (keep : LLMRequest -> bool) (w : World) :
  same_data w
    (snd ((end_time ← datetime_now;
           delta ← lift (timedelta_hours hours);
           start_time ← lift (datetime_sub end_time delta);
           scan_days (scan_fuel start_time end_time) (date_key model)
             (window_visit start_time end_time keep) start_time end_time [])
          w)).
Proof.
  unfold mbind, M_bind, datetime_now, lift. cbv beta iota.
  destruct (timedelta_hours hours) as [delta|e]; [|apply same_data_refl].
  destruct (datetime_sub (w_now w) delta) as [start_time|e]; [|apply same_data_refl].
  match goal with |- context [scan_days ?f ?k ?v ?s ?e ?a ?w] =>
    pose proof (scan_days_same_data v _ (window_visit_pure s e _) f k s e a w) as H;
    destruct (scan_days f k v s e a w) as [[t|ex] w'] end; exact H.
Qed.

(** X4.  The four aggregations of the monitor never write: whatever they
    return or raise, and whatever the connection does, the stored records
    and lists, the clock, the settings, the prompts and the output are the
    same after the call as before. *)
Theorem aggregations_only_read (sorted_nan : list float -> list float)
    (model : option string) (start_date end_date : option Z) (hours : Z) (w : World) :
  same_data w (exec (get_cost_metrics model start_date end_date) w)
  /\ same_data w (exec (get_performance_metrics sorted_nan model hours) w)
  /\ same_data w (exec (get_error_summary hours) w)
  /\ same_data w (exec check_cost_alerts w).
Proof.
  unfold exec. split; [|split; [|split]].
  - apply get_cost_metrics_same_data.
  - pose proof (window_scan_same_data model hours (λ _, true) w) as H.
    fold (window_requests model hours) in H.
    unfold get_performance_metrics. unfold mbind, M_bind, lift.
    destruct (window_requests model hours w) as [[requests|e] w']; exact H.
  - pose proof (window_scan_same_data None hours (λ r, negb (success r)) w) as H.
    fold (window_errors hours) in H.
    unfold get_error_summary. unfold mbind, M_bind, lift.
    destruct (window_errors hours w) as [[errors|e] w']; exact H.
  - rewrite check_cost_alerts_unfold. cbv zeta.
    pose proof (get_cost_metrics_same_data None (Some (w_now w - day)) (Some (w_now w)) w)
      as H.
    destruct (get_cost_metrics None (Some (w_now w - day)) (Some (w_now w)) w)
      as [[m|e] w']; exact H.
Qed.

(** ** Windows of no or negative length *)

Lemma scan_days_inverted {S} (key : Z -> string) (visit : S -> Blob -> M S)
    (start_date end_date : Z) (acc : S) (w : World) :
  end_date < start_date ->
  scan_days (scan_fuel start_date end_date) key visit start_date end_date acc w
  = (OK acc, w).
Proof. intros H. rewrite scan_fuel_done by done. done. Qed.

Lemma timedelta_hours_ok (hours : Z) :
  -23999999976 <= hours <= 23999999999 -> timedelta_hours hours = OK (hours * hour).
Proof.
  intros [H1 H2]. unfold timedelta_hours.
  assert (Hd : hours * hour / day = hours / 24).
  { unfold hour, day, second.
    replace (hours * (3600 * 1000000)) with (hours * 3600000000) by lia.
    replace (86400 * 1000000) with (24 * 3600000000) by lia.
    rewrite Z.mul_comm, (Z.mul_comm 24). rewrite Z.div_mul_cancel_l by lia. done. }
  rewrite Hd.
  assert (-999999999 <= hours / 24 <= 999999999).
  { pose proof (Z.div_mod hours 24 ltac:(lia)).
    pose proof (Z.mod_pos_bound hours 24 ltac:(lia)). lia. }
  destruct (Z.leb_spec (-999999999) (hours / 24)); [|lia].
  destruct (Z.leb_spec (hours / 24) 999999999); [|lia]. done.
Qed.

Lemma window_start_ok (end_time hours : Z) :
  -23999999976 <= hours <= 23999999999 ->
  datetime_min <= end_time - hours * hour <= datetime_max ->
  window_start end_time hours = OK (end_time - hours * hour).
Proof.
  intros Hh [Hlo Hhi]. unfold window_start. rewrite timedelta_hours_ok by done.
  unfold datetime_sub. cbv zeta.
  destruct (Z.leb_spec datetime_min (end_time - hours * hour)); [|lia].
  destruct (Z.leb_spec (end_time - hours * hour) datetime_max); [|lia]. done.
Qed.

Lemma window_start_overflow (end_time hours : Z) :
  end_time - hours * hour < datetime_min \/ datetime_max < end_time - hours * hour ->
  window_start end_time hours = Raise OverflowError.
Proof.
  intros Hout. unfold window_start, timedelta_hours.
  destruct (_ && _); [|done]. unfold datetime_sub. cbv zeta.
  destruct (Z.leb_spec datetime_min (end_time - hours * hour)); [|done].
  destruct (Z.leb_spec (end_time - hours * hour) datetime_max); [lia|done].
Qed.

Lemma window_requests_unfold (model : option string) (hours : Z) (w : World) :
  window_requests model hours w
  = match window_start (w_now w) hours with
    | OK start_time =>
        scan_days (scan_fuel start_time (w_now w)) (date_key model)
          (window_visit start_time (w_now w) (λ _, true)) start_time (w_now w) [] w
    | Raise e => (Raise e, w)
    end.
Proof.
  unfold window_requests, window_start, mbind, M_bind, datetime_now, lift. cbv beta iota.
  destruct (timedelta_hours hours) as [delta|e]; [|done].
  destruct (datetime_sub (w_now w) delta) as [start_time|e]; done.
Qed.

Lemma window_errors_unfold (hours : Z) (w : World) :
  window_errors hours w
  = match window_start (w_now w) hours with
    | OK start_time =>
        scan_days (scan_fuel start_time (w_now w)) (date_key None)
          (window_visit start_time (w_now w) (λ r, negb (success r)))
          start_time (w_now w) [] w
    | Raise e => (Raise e, w)
    end.
Proof.
  unfold window_errors, window_start, mbind, M_bind, datetime_now, lift. cbv beta iota.
  destruct (timedelta_hours hours) as [delta|e]; [|done].
  destruct (datetime_sub (w_now w) delta) as [start_time|e]; done.
Qed.

(** X5.  A window that ends before it starts is scanned without a single
    command to the store.  With [hours < 0] and the clock showing a
    datetime, the start of the window is later than the present instant;
    when it is a datetime, at most 9999-12-31T23:59:59.999999,
    [get_performance_metrics] returns the all-zero dict and
    [get_error_summary] no error and the rate 0.0; when it is not, both
    raise [OverflowError].  With [end_date < start_date], [get_cost_metrics]
    returns the all-zero metrics.  This holds whether or not the store
    answers, and the world is left as it is. *)
Theorem inverted_window_reads_nothing :
  (forall (sorted_nan : list float -> list float) (model : option string) (hours : Z)
          (w : World),
     hours < 0 ->
     datetime_min <= w_now w ->
     w_now w - hours * hour <= datetime_max ->
     get_performance_metrics sorted_nan model hours w = (OK zero_performance, w)
     /\ get_error_summary hours w
        = (OK {| total_errors := 0; error_types := []; error_rate := Py.zero |}, w))
  /\ (forall (sorted_nan : list float -> list float) (model : option string) (hours : Z)
             (w : World),
        datetime_max < w_now w - hours * hour ->
        get_performance_metrics sorted_nan model hours w = (Raise OverflowError, w)
        /\ get_error_summary hours w = (Raise OverflowError, w))
  /\ (forall (model : option string) (start_date end_date : Z) (w : World),
        end_date < start_date ->
        get_cost_metrics model (Some start_date) (Some end_date) w
        = (OK (zero_cost_metrics start_date end_date), w)).
Proof.
  split; [|split].
  - intros sorted_nan model hours w Hneg Hlo Hhi.
    assert (Hlt : w_now w < w_now w - hours * hour) by (unfold hour, second; lia).
    assert (Hstart : window_start (w_now w) hours = OK (w_now w - hours * hour)).
    { apply window_start_ok; [|lia].
      unfold datetime_min, datetime_max, day, hour, second in *. lia. }
    split.
    + unfold get_performance_metrics, mbind, M_bind, lift.
      rewrite window_requests_unfold, Hstart. rewrite scan_days_inverted by done. done.
    + unfold get_error_summary, mbind, M_bind, lift.
      rewrite window_errors_unfold, Hstart. rewrite scan_days_inverted by done. done.
  - intros sorted_nan model hours w Hout.
    assert (Hstart : window_start (w_now w) hours = Raise OverflowError)
      by (apply window_start_overflow; right; done).
    split.
    + unfold get_performance_metrics, mbind, M_bind, lift.
      rewrite window_requests_unfold, Hstart. done.
    + unfold get_error_summary, mbind, M_bind, lift.
      rewrite window_errors_unfold, Hstart. done.
  - intros model start_date end_date w Hlt.
    rewrite get_cost_metrics_unfold. cbn [default from_option id].
    rewrite scan_days_inverted by done. done.
Qed.

Lemma inverted_window_reads_nothing_witness :
  get_performance_metrics (λ xs, xs) None (-1) (unavailable world_at_threshold)
  = (OK zero_performance, unavailable world_at_threshold)
  /\ get_error_summary (-70000000) (unavailable world_at_threshold)
     = (Raise OverflowError, unavailable world_at_threshold)
  /\ get_cost_metrics None (Some noon) (Some (noon - hour)) (unavailable world_at_threshold)
     = (OK (zero_cost_metrics noon (noon - hour)), unavailable world_at_threshold).
Proof.
  destruct inverted_window_reads_nothing as (H1 & H2 & H3). split; [|split].
  - apply (H1 (λ xs, xs) None (-1) (unavailable world_at_threshold)).
    + lia.
    + vm_compute. discriminate.
    + vm_compute. discriminate.
  - apply (H2 (λ xs, xs) None (-70000000) (unavailable world_at_threshold)).
    vm_compute. reflexivity.
  - apply (H3 None noon (noon - hour) (unavailable world_at_threshold)).
    unfold hour, second. lia.
Defined.

(** ** Windows shorter than a day *)

(** X26.  A window shorter than a day is read from one list.  With the
    store connected and [0 <= hours < 24], the loops of
    [get_performance_metrics] and [get_error_summary] run once, for the
    start of the window: the requests they collect are those of the live
    records listed under the day of the start, whatever the list of the
    present day holds.  When the list of the day of the start holds nothing,
    the first returns the all-zero dict and the second no error.  The
    records of the present day are therefore left out whenever the window
    starts on the day before. *)
Theorem short_window_reads_one_list (sorted_nan : list float -> list float)
    (model : option string) (hours start_time : Z) (w : World) :
  connected w ->
  0 <= hours < 24 ->
  window_start (w_now w) hours = OK start_time ->
  window_requests model hours w
  = (fold_result (window_step start_time (w_now w) (λ _, true))
                 (live_blobs w (bucket w (date_key model start_time))) [], w)
  /\ window_errors hours w
     = (fold_result (window_step start_time (w_now w) (λ r, negb (success r)))
                    (live_blobs w (bucket w (date_key None start_time))) [], w)
  /\ (bucket w (date_key model start_time) = [] ->
      get_performance_metrics sorted_nan model hours w = (OK zero_performance, w))
  /\ (bucket w (date_key None start_time) = [] ->
      get_error_summary hours w
      = (OK {| total_errors := 0; error_types := []; error_rate := Py.zero |}, w)).
Proof.
  intros Hc Hh Hstart.
  destruct (window_start_hours _ _ _ Hstart) as [Hs _].
  assert (Hday : start_time <= w_now w < start_time + day).
  { rewrite Hs. unfold day, hour, second. lia. }
  assert (Hreq : window_requests model hours w
                 = (fold_result (window_step start_time (w_now w) (λ _, true))
                      (live_blobs w (bucket w (date_key model start_time))) [], w)).
  { rewrite window_requests_connected by done.
    rewrite Hstart, scanned_single_day by done. done. }
  assert (Herr : window_errors hours w
                 = (fold_result (window_step start_time (w_now w) (λ r, negb (success r)))
                      (live_blobs w (bucket w (date_key None start_time))) [], w)).
  { rewrite window_errors_connected by done.
    rewrite Hstart, scanned_single_day by done. done. }
  split; [exact Hreq|]. split; [exact Herr|]. split.
  - intros Hempty. unfold get_performance_metrics, mbind, M_bind, lift.
    rewrite Hreq, Hempty. done.
  - intros Hempty. unfold get_error_summary, mbind, M_bind, lift.
    rewrite Herr, Hempty. done.
Qed.

Lemma short_window_reads_one_list_witness :
  bucket world_failed_after_midnight "requests:2024-01-02" = ["r1"]
  /\ get_performance_metrics (λ xs, xs) None 2 world_failed_after_midnight
     = (OK zero_performance, world_failed_after_midnight)
  /\ get_error_summary 2 world_failed_after_midnight
     = (OK {| total_errors := 0; error_types := []; error_rate := Py.zero |},
        world_failed_after_midnight).
Proof.
  split; [reflexivity|].
  destruct (short_window_reads_one_list (λ xs, xs) None 2 (at_time 19723 22 45 0)
              world_failed_after_midnight) as (_ & _ & H3 & H4);
    [reflexivity | lia | reflexivity |].
  split; [apply H3; reflexivity | apply H4; reflexivity].
Defined.

(** ** A window of no length *)

(** X6.  With [hours = 0] the window is the present instant, and a request
    stamped with it makes [get_performance_metrics] fail: whenever the scan
    collects at least one request, the call raises [ZeroDivisionError] at
    [len(requests) / hours]. *)
Theorem performance_of_zero_hours_raises (sorted_nan : list float -> list float)
    (model : option string) (w w' : World) (requests : list LLMRequest) :
  window_requests model 0 w = (OK requests, w') ->
  requests <> [] ->
  len requests < 2 ^ 47 ->
  get_performance_metrics sorted_nan model 0 w = (Raise ZeroDivisionError, w').
Proof.
  intros Hw Hne Hlen.
  unfold get_performance_metrics, mbind, M_bind, lift. rewrite Hw.
  destruct requests as [|r0 rest]; [done|].
  set (requests := r0 :: rest) in *.
  assert (Hpos : 0 < len requests) by (unfold len, requests; simpl; lia).
  assert (Hlat : len (map latency_ms requests) = len requests)
    by (unfold len; rewrite length_map; done).
  assert (Hsuc : len (map success requests) = len requests)
    by (unfold len; rewrite length_map; done).
  unfold performance_dict. fold requests. rewrite Hlat, Hsuc.
  destruct (float_div_int_ok (py_sum (map latency_ms requests)) (len requests))
    as [avg ->]; [lia|].
  destruct (int_truediv_ok (len (filter (λ b, b = true) (map success requests)))
              (len requests)) as [rate ->]; [|lia|].
  { split; [unfold len; lia|].
    assert (len (filter (λ b, b = true) (map success requests))
            <= len (map success requests)); [|lia].
    unfold len. apply inj_le. apply length_filter. }
  destruct (len requests); [lia|done|lia].
Qed.

Lemma performance_of_zero_hours_raises_witness :
  let w := exec (_save_request (sample_request "r1" noon (Py.ratio 150 1)
                                  (Py.ratio 60 1) true))
                (sample_world noon) in
  get_performance_metrics (λ xs, xs) None 0 w = (Raise ZeroDivisionError, w).
Proof.
  intros w.
  apply (performance_of_zero_hours_raises (λ xs, xs) None w w
           [sample_request "r1" noon (Py.ratio 150 1) (Py.ratio 60 1) true]).
  - vm_compute. reflexivity.
  - discriminate.
  - reflexivity.
Defined.

(** ** The messages of the error summary *)

Lemma count_error_count (msg msg' : option string) (types : list (option string * Z)) :
  type_count msg (count_error msg' types)
  = type_count msg types + (if decide (msg' = msg) then 1 else 0).
Proof.
  induction types as [|[m c] types IH]; simpl.
  - destruct (decide (msg' = msg)); lia.
  - destruct (decide (m = msg')) as [->|Hne]; simpl.
    + destruct (decide (msg' = msg)); lia.
    + destruct (decide (m = msg)) as [->|Hne'].
      * destruct (decide (msg' = msg)); [congruence|lia].
      * exact IH.
Qed.

Lemma count_error_sum (msg : option string) (types : list (option string * Z)) :
  sum_Z (map snd (count_error msg types)) = sum_Z (map snd types) + 1.
Proof.
  induction types as [|[m c] types IH]; simpl; [done|].
  destruct (decide (m = msg)); simpl; lia.
Qed.

Lemma count_error_keys (msg : option string) (types : list (option string * Z)) (k : option string) :
  In k (map fst (count_error msg types)) <-> k = msg \/ In k (map fst types).
Proof.
  induction types as [|[m c] types IH]; simpl; [intuition|].
  destruct (decide (m = msg)) as [->|Hne]; simpl; [intuition|].
  rewrite IH. intuition.
Qed.

Lemma count_error_NoDup (msg : option string) (types : list (option string * Z)) :
  List.NoDup (map fst types) -> List.NoDup (map fst (count_error msg types)).
Proof.
  induction types as [|[m c] types IH]; simpl; intros Hnd.
  - constructor; [intros []|constructor].
  - inversion Hnd as [|? ? Hnotin Hnd']; subst.
    destruct (decide (m = msg)) as [->|Hne]; simpl; [constructor; done|].
    constructor; [|apply IH; done].
    rewrite count_error_keys. intros [->|Hin]; done.
Qed.

Lemma count_error_positive (msg : option string) (types : list (option string * Z)) :
  Forall (λ mc, 1 <= mc.2) types -> Forall (λ mc, 1 <= mc.2) (count_error msg types).
Proof.
  induction types as [|[m c] types IH]; simpl; intros Hall.
  - constructor; [simpl; lia|constructor].
  - inversion Hall as [|? ? Hc Hall']; subst. simpl in Hc.
    destruct (decide (m = msg)); constructor; simpl; auto with zarith.
Qed.

Lemma occurrences_cons (msg : option string) (error : LLMRequest) (errors : list LLMRequest) :
  occurrences msg (error :: errors)
  = (if decide (error_message error = msg) then 1 else 0) + occurrences msg errors.
Proof.
  unfold occurrences, len. simpl.
  destruct (decide (error_message error = msg)) as [H|H].
  - rewrite bool_decide_eq_true_2 by done. simpl length. lia.
  - rewrite bool_decide_eq_false_2 by done. lia.
Qed.

Lemma error_types_fold (errors : list LLMRequest) (types : list (option string * Z)) :
  let types' := fold_left (λ types error, count_error (error_message error) types)
                          errors types in
  (forall msg, type_count msg types' = type_count msg types + occurrences msg errors)
  /\ sum_Z (map snd types') = sum_Z (map snd types) + len errors
  /\ (List.NoDup (map fst types) -> List.NoDup (map fst types'))
  /\ (Forall (λ mc, 1 <= mc.2) types -> Forall (λ mc, 1 <= mc.2) types').
Proof.
  revert types. induction errors as [|error errors IH]; intros types; simpl.
  - split; [|split; [|split]]; try done.
    + intros msg. unfold occurrences, len. simpl. lia.
    + unfold len. simpl. lia.
  - destruct (IH (count_error (error_message error) types)) as (H1 & H2 & H3 & H4).
    split; [|split; [|split]].
    + intros msg. rewrite H1, count_error_count, occurrences_cons. lia.
    + rewrite H2, count_error_sum. unfold len. simpl length. lia.
    + intros Hnd. apply H3, count_error_NoDup, Hnd.
    + intros Hall. apply H4, count_error_positive, Hall.
Qed.

(** X7.  The error summary tallies the errors by message: [error_types] has
    each message once, with the number of errors that carry it, which is at
    least 1; a message that no error carries is absent (its count is 0);
    and the counts add up to [total_errors], the number of errors. *)
Theorem error_types_tally (errors : list LLMRequest) :
  exists summary,
    error_dict errors = OK summary
    /\ total_errors summary = len errors
    /\ List.NoDup (map fst (error_types summary))
    /\ Forall (λ mc, 1 <= mc.2) (error_types summary)
    /\ (forall msg, type_count msg (error_types summary) = occurrences msg errors)
    /\ sum_Z (map snd (error_types summary)) = total_errors summary.
Proof.
  destruct (error_dict_spec errors) as (rate & E & _).
  eexists. split; [exact E|]. cbn [total_errors error_types].
  destruct (error_types_fold errors []) as (H1 & H2 & H3 & H4).
  unfold error_types_of.
  split; [done|]. split; [apply H3; constructor|]. split; [apply H4; constructor|].
  split; [intros msg; rewrite H1; simpl; lia|]. rewrite H2. simpl. lia.
Qed.

(** ** The order of doubles is transitive *)

Lemma fle_trans (x y z : float) :
  Py.fle x y = true -> Py.fle y z = true -> Py.fle x z = true.
Proof.
  unfold Py.fle, SFleb.
  destruct x as [sx|sx| |sx mx ex], y as [sy|sy| |sy my ey], z as [sz|sz| |sz mz ez];
    simpl; try done;
    try (destruct sx; done); try (destruct sy; done); try (destruct sz; done);
    try (destruct sx, sy; done); try (destruct sy, sz; done); try (destruct sx, sz; done);
    try (destruct sx, sy, sz; done).
  destruct sx, sy, sz; try done;
    change (Pos.compare_cont Eq ?a ?b) with (a ?= b)%positive;
    destruct (Z.compare_spec ex ey), (Z.compare_spec ey ez), (Z.compare_spec ex ez);
    subst; try lia; try done;
    destruct (Pos.compare_spec mx my), (Pos.compare_spec my mz), (Pos.compare_spec mx mz);
    subst; simpl; try lia; try done.
Qed.

Lemma fle_refl (x : float) : Py.is_nan x = false -> Py.fle x x = true.
Proof.
  intros Hx. apply fle_of_not_flt; [done|done|].
  unfold Py.flt, SFltb. destruct (SFcompare x x) as [c|] eqn:E; [|done].
  pose proof (SFcompare_antisym _ _ _ E) as E'. rewrite E in E'.
  destruct c; done.
Qed.

(** ** Minimum, maximum and percentile *)

Lemma py_min_spec (x : float) (xs : list float) :
  Forall not_nan (x :: xs) ->
  In (py_min x xs) (x :: xs)
  /\ Forall (λ y, Py.fle (py_min x xs) y = true) (x :: xs).
Proof.
  unfold py_min. revert x. induction xs as [|y xs IH]; intros x Hnan.
  - simpl. inversion Hnan; subst. split; [left; done|].
    constructor; [apply fle_refl; done|constructor].
  - inversion Hnan as [|? ? Hx Hrest]; subst. inversion Hrest as [|? ? Hy Hxs]; subst.
    simpl fold_left. destruct (Py.flt y x) eqn:E.
    + destruct (IH y) as (Hin & Hall); [constructor; done|].
      split; [right; exact Hin|].
      inversion Hall as [|? ? Hry Hrxs]; subst.
      constructor; [|constructor; done].
      eapply fle_trans; [exact Hry|]. apply fle_of_flt. done.
    + destruct (IH x) as (Hin & Hall); [constructor; done|].
      inversion Hall as [|? ? Hrx Hrxs]; subst.
      split; [destruct Hin as [<-|Hin]; [left; done|right; right; done]|].
      constructor; [done|]. constructor; [|done].
      eapply fle_trans; [exact Hrx|]. apply fle_of_not_flt; done.
Qed.

Lemma py_max_spec (x : float) (xs : list float) :
  Forall not_nan (x :: xs) ->
  In (py_max x xs) (x :: xs)
  /\ Forall (λ y, Py.fle y (py_max x xs) = true) (x :: xs).
Proof.
  unfold py_max. revert x. induction xs as [|y xs IH]; intros x Hnan.
  - simpl. inversion Hnan; subst. split; [left; done|].
    constructor; [apply fle_refl; done|constructor].
  - inversion Hnan as [|? ? Hx Hrest]; subst. inversion Hrest as [|? ? Hy Hxs]; subst.
    simpl fold_left. destruct (Py.flt x y) eqn:E.
    + destruct (IH y) as (Hin & Hall); [constructor; done|].
      split; [right; exact Hin|].
      inversion Hall as [|? ? Hry Hrxs]; subst.
      constructor; [|constructor; done].
      eapply fle_trans; [|exact Hry]. apply fle_of_flt. done.
    + destruct (IH x) as (Hin & Hall); [constructor; done|].
      inversion Hall as [|? ? Hrx Hrxs]; subst.
      split; [destruct Hin as [<-|Hin]; [left; done|right; right; done]|].
      constructor; [done|]. constructor; [|done].
      eapply fle_trans; [|exact Hrx]. apply fle_of_not_flt; done.
Qed.

Lemma performance_dict_inv (sorted_nan : list float -> list float)
    (r0 : LLMRequest) (rest : list LLMRequest) (hours : Z) (d : list (string * Num)) :
  performance_dict sorted_nan (r0 :: rest) hours = OK d ->
  dict_get "min_latency_ms" d
  = Some (NFloat (py_min (latency_ms r0) (map latency_ms rest)))
  /\ dict_get "max_latency_ms" d
     = Some (NFloat (py_max (latency_ms r0) (map latency_ms rest)))
  /\ dict_get "total_requests" d = Some (NInt (len (r0 :: rest))).
Proof.
  unfold performance_dict.
  destruct (Py.float_div_int _ _); [|discriminate].
  destruct (Py.int_truediv _ _); [|discriminate].
  destruct (Py.int_truediv _ _); [|discriminate].
  destruct (p95_index _); [|discriminate].
  destruct (py_index _ _); [|discriminate].
  intros [= <-]. done.
Qed.

(** X8.  The latency figures of [get_performance_metrics] are consistent.
    For a non-empty list of requests without a NaN latency (fewer than
    [2 ^ 47] requests, a positive number of hours), [min_latency_ms],
    [p95_latency_ms] and [max_latency_ms] are latencies of the list,
    [min_latency_ms] is at most and [max_latency_ms] at least every latency
    of the list, so that min <= p95 <= max, and [total_requests] is the
    length of the list. *)
Theorem latency_extremes_bracket_p95 (sorted_nan : list float -> list float)
    (requests : list LLMRequest) (hours : Z) :
  requests <> [] -> 0 < hours < 2 ^ 47 -> len requests < 2 ^ 47 ->
  forallb (λ x, negb (Py.is_nan x)) (map latency_ms requests) = true ->
  exists d lo p95 hi,
    performance_dict sorted_nan requests hours = OK d
    /\ dict_get "min_latency_ms" d = Some (NFloat lo)
    /\ dict_get "p95_latency_ms" d = Some (NFloat p95)
    /\ dict_get "max_latency_ms" d = Some (NFloat hi)
    /\ dict_get "total_requests" d = Some (NInt (len requests))
    /\ In lo (map latency_ms requests)
    /\ In p95 (map latency_ms requests)
    /\ In hi (map latency_ms requests)
    /\ (forall x, In x (map latency_ms requests) ->
        Py.fle lo x = true /\ Py.fle x hi = true).
Proof.
  intros Hne Hh Hn Hnan.
  assert (Hnan' : Forall not_nan (map latency_ms requests)).
  { apply List.Forall_forall. intros x Hx.
    rewrite forallb_forall in Hnan. specialize (Hnan x Hx).
    unfold not_nan. destruct (Py.is_nan x); done. }
  destruct (performance_dict_ok sorted_nan requests hours Hne Hh Hn Hnan')
    as (d & p95 & Hd & Hp & Hx).
  destruct requests as [|r0 rest]; [done|].
  destruct (performance_dict_inv sorted_nan r0 rest hours d Hd) as (Hmin & Hmax & Htot).
  simpl map in *.
  destruct (py_min_spec _ _ Hnan') as (Hlo_in & Hlo).
  destruct (py_max_spec _ _ Hnan') as (Hhi_in & Hhi).
  exists d, (py_min (latency_ms r0) (map latency_ms rest)), p95,
         (py_max (latency_ms r0) (map latency_ms rest)).
  split; [done|]. split; [done|]. split; [done|]. split; [done|]. split; [done|].
  split; [done|]. split.
  - eapply Permutation_in; [apply (py_sorted_perm sorted_nan), Hnan'|].
    apply list_elem_of_In. eapply list_elem_of_lookup_2. exact Hx.
  - split; [done|]. intros x Hin. rewrite List.Forall_forall in Hlo, Hhi. auto.
Qed.

Lemma latency_extremes_bracket_p95_witness :
  exists d lo p95 hi,
    performance_dict (λ xs, xs) twenty_requests 24 = OK d
    /\ dict_get "min_latency_ms" d = Some (NFloat lo)
    /\ dict_get "p95_latency_ms" d = Some (NFloat p95)
    /\ dict_get "max_latency_ms" d = Some (NFloat hi)
    /\ dict_get "total_requests" d = Some (NInt (len twenty_requests))
    /\ In lo (map latency_ms twenty_requests)
    /\ In p95 (map latency_ms twenty_requests)
    /\ In hi (map latency_ms twenty_requests)
    /\ (forall x, In x (map latency_ms twenty_requests) ->
        Py.fle lo x = true /\ Py.fle x hi = true).
Proof.
  apply (latency_extremes_bracket_p95 (λ xs, xs) twenty_requests 24).
  - vm_compute. intros H. discriminate H.
  - lia.
  - vm_compute. reflexivity.
  - vm_compute. reflexivity.
Defined.

(** ** Dicts *)

Lemma dict_get_alter {V} (f : V -> V) (key k : string) (d : list (string * V)) :
  dict_get k (dict_alter f key d)
  = if decide (k = key) then f <$> dict_get key d else dict_get k d.
Proof.
  induction d as [|[k' v] d IH]; simpl.
  - destruct (decide (k = key)); done.
  - destruct (decide (k' = key)) as [->|Hne]; simpl.
    + destruct (decide (key = k)) as [->|Hne'].
      * rewrite decide_True by done. done.
      * rewrite decide_False by done. done.
    + destruct (decide (k' = k)) as [->|Hne'].
      * rewrite decide_False by done. done.
      * exact IH.
Qed.

Lemma dict_alter_keys {V} (f : V -> V) (key : string) (d : list (string * V)) :
  map fst (dict_alter f key d) = map fst d.
Proof.
  induction d as [|[k' v] d IH]; simpl; [done|].
  destruct (decide (k' = key)); simpl; [done|]. rewrite IH. done.
Qed.

Lemma dict_get_None {V} (key : string) (d : list (string * V)) :
  dict_get key d = None <-> ~ In key (map fst d).
Proof.
  induction d as [|[k v] d IH]; simpl; [tauto|].
  destruct (decide (k = key)) as [->|Hne].
  - split; [done|]. intros H. exfalso. apply H. left. done.
  - rewrite IH. intuition.
Qed.

Lemma dict_alter_fresh {V} (f : V -> V) (key : string) (d : list (string * V)) :
  ~ In key (map fst d) -> dict_alter f key d = d.
Proof.
  induction d as [|[k v] d IH]; simpl; [done|]. intros H.
  destruct (decide (k = key)) as [->|Hne]; [exfalso; apply H; left; done|].
  rewrite IH; [done|]. intros Hin. apply H. right. done.
Qed.

Lemma dict_alter_map {V} (f : V -> V) (key : string) (d : list (string * V)) :
  distinct_keys d ->
  dict_alter f key d = map (λ kv, (kv.1, if decide (kv.1 = key) then f kv.2 else kv.2)) d.
Proof.
  unfold distinct_keys. induction d as [|[k v] d IH]; simpl; [done|].
  intros Hnd. inversion Hnd as [|? ? Hnotin Hnd']; subst.
  destruct (decide (k = key)) as [->|Hne].
  - f_equal. rewrite <- (dict_alter_fresh f key d) at 1 by done.
    rewrite IH by done. done.
  - rewrite IH by done. done.
Qed.

Lemma dict_get_set {V} (key k : string) (v : V) (d : list (string * V)) :
  dict_get k (dict_set key v d) = if decide (k = key) then Some v else dict_get k d.
Proof.
  induction d as [|[k' x] d IH]; simpl.
  - destruct (decide (key = k)) as [->|Hne].
    + rewrite decide_True by done. done.
    + rewrite decide_False by done. done.
  - destruct (decide (k' = key)) as [->|Hne]; simpl.
    + destruct (decide (key = k)) as [->|Hne'].
      * rewrite decide_True by done. done.
      * rewrite decide_False by done. done.
    + destruct (decide (k' = k)) as [->|Hne'].
      * rewrite decide_False by done. done.
      * exact IH.
Qed.

Lemma dict_set_fresh {V} (key : string) (v : V) (d : list (string * V)) :
  dict_get key d = None -> dict_set key v d = (d ++ [(key, v)])%list.
Proof.
  induction d as [|[k x] d IH]; simpl; [done|].
  destruct (decide (k = key)); [done|]. intros H. rewrite IH by done. done.
Qed.

Lemma dict_set_keys {V} (key : string) (v : V) (d : list (string * V)) :
  distinct_keys d -> distinct_keys (dict_set key v d).
Proof.
  unfold distinct_keys. intros Hnd.
  destruct (dict_get key d) as [x|] eqn:E.
  - assert (map fst (dict_set key v d) = map fst d) as ->; [|done].
    clear Hnd. induction d as [|[k y] d IH]; simpl in *; [done|].
    destruct (decide (k = key)) as [->|Hne]; simpl; [done|]. rewrite IH by done. done.
  - rewrite dict_set_fresh by done. rewrite map_app. simpl.
    apply NoDup_ListNoDup. apply NoDup_app. split; [apply NoDup_ListNoDup; done|].
    split; [|apply NoDup_singleton].
    intros k Hk Hk'. apply list_elem_of_singleton in Hk'. subst.
    apply dict_get_None in E. apply E. apply list_elem_of_In. done.
Qed.

Lemma dict_get_del {V} (key k : string) (d : list (string * V)) :
  dict_get k (dict_del key d) = if decide (k = key) then None else dict_get k d.
Proof.
  induction d as [|[k' x] d IH]; simpl.
  - destruct (decide (k = key)); done.
  - destruct (decide (k' = key)) as [->|Hne]; simpl.
    + rewrite IH. destruct (decide (k = key)) as [->|Hne']; [done|].
      rewrite decide_False by done. done.
    + destruct (decide (k' = k)) as [->|Hne'].
      * rewrite decide_False by done. done.
      * exact IH.
Qed.

(** ** Saving a prompt, whatever the store does *)

Lemma same_clock_refl (w : World) : same_clock w w.
Proof. done. Qed.

Lemma same_clock_trans (w1 w2 w3 : World) :
  same_clock w1 w2 -> same_clock w2 w3 -> same_clock w1 w3.
Proof. unfold same_clock. intros (?&?&?&?) (?&?&?&?). repeat split; congruence. Qed.

Lemma redis_call_any {A} (cmd : Z -> Redis -> Result A * Redis) (w : World) :
  (forall now r, r_faults (snd (cmd now r)) = r_faults r) ->
  same_clock w (snd (redis_call cmd w))
  /\ w_prompts (snd (redis_call cmd w)) = w_prompts w
  /\ w_out (snd (redis_call cmd w)) = w_out w
  /\ (connected w -> connected (snd (redis_call cmd w))).
Proof.
  intros Hf. unfold redis_call, connected.
  destruct w as [st now [strs lsts fs] ps h g o]. simpl.
  destruct fs as [|[] fs]; simpl.
  - destruct (cmd now _) as [a r'] eqn:E. simpl.
    specialize (Hf now {| r_strings := strs; r_lists := lsts; r_faults := [] |}).
    rewrite E in Hf. done.
  - done.
  - destruct (cmd now _) as [a r'] eqn:E. simpl. done.
Qed.

Lemma _save_prompt_any (prompt : PromptVersion) (w : World) :
  exists w',
    _save_prompt prompt w = (OK tt, w')
    /\ same_clock w w' /\ w_prompts w' = w_prompts w
    /\ (connected w -> connected w').
Proof.
  unfold _save_prompt, try_except, mbind, M_bind, settings, redis_setex.
  match goal with |- context [redis_call ?c w] =>
    destruct (redis_call_any c w) as (Hs & Hp & Ho & Hc);
      [intros now r; destruct (_ <=? 0); done|];
    destruct (redis_call c w) as [[[]|e] w1]
  end; simpl in *.
  - eexists. split; [reflexivity|]. done.
  - eexists. split; [reflexivity|].
    destruct w1; unfold same_clock, connected in *; simpl in *. done.
Qed.

Lemma save_registered_any (key : string) (w : World) :
  exists w',
    save_registered key w = (OK tt, w')
    /\ same_clock w w' /\ w_prompts w' = w_prompts w
    /\ (connected w -> connected w').
Proof.
  unfold save_registered, mbind, M_bind, get_prompt.
  destruct (dict_get key (w_prompts w)) as [p|].
  - apply _save_prompt_any.
  - exists w. done.
Qed.

Lemma save_registered_live (key : string) (p : PromptVersion) (w w' : World) :
  save_registered key w = (OK tt, w') ->
  connected w -> 0 < prompt_cache_ttl (w_settings w) ->
  dict_get key (w_prompts w) = Some p ->
  live w' ("prompt:" +:+ pv_id p) = Some (BPrompt p)
  /\ forall k, k <> "prompt:" +:+ pv_id p -> live w' k = live w k.
Proof.
  intros E Hc Httl Hget. unfold save_registered, mbind, M_bind, get_prompt in E.
  rewrite Hget in E. unfold _save_prompt, try_except, mbind, M_bind, settings in E.
  destruct (redis_setex_effect ("prompt:" +:+ pv_id p) (prompt_cache_ttl (w_settings w))
              (BPrompt p) w Hc Httl) as (w1 & E1 & C1 & S1 & L1 & L1' & _).
  rewrite E1 in E. injection E as <-. done.
Qed.

(** ** [activate_prompt] *)

Lemma deprecate_if_active_run (template_name key : string) (w : World) :
  exists w',
    deprecate_if_active template_name key w = (OK tt, w')
    /\ same_clock w w'
    /\ w_prompts w' = deprecate_key (w_now w) template_name key (w_prompts w)
    /\ (connected w -> connected w').
Proof.
  unfold deprecate_if_active, deprecate_key, mbind at 1, M_bind at 1, get_prompt at 1.
  destruct (dict_get key (w_prompts w)) as [other|]; [|exists w; done].
  destruct (_ && _); [|exists w; done].
  unfold mbind, M_bind, mutate_prompt, datetime_now. cbv beta iota. cbn [w_now set_prompts].
  match goal with |- context [save_registered key ?W] =>
    destruct (save_registered_any key W) as (w' & E & Hs & Hp & Hc)
  end.
  rewrite E. exists w'. split; [done|]. split; [exact Hs|]. split; [exact Hp|exact Hc].
Qed.

Lemma deprecate_loop_run (template_name : string) (keys : list string) (w : World) :
  exists w',
    foldM (λ _ key, deprecate_if_active template_name key) keys tt w = (OK tt, w')
    /\ same_clock w w'
    /\ w_prompts w'
       = fold_left (λ ps key, deprecate_key (w_now w) template_name key ps) keys (w_prompts w)
    /\ (connected w -> connected w').
Proof.
  revert w. induction keys as [|key keys IH]; intros w; simpl.
  - exists w. done.
  - destruct (deprecate_if_active_run template_name key w) as (w1 & E1 & S1 & P1 & C1).
    destruct (IH w1) as (w2 & E2 & S2 & P2 & C2).
    unfold mbind, M_bind. rewrite E1, E2.
    exists w2. split; [done|]. split; [eapply same_clock_trans; eassumption|].
    split; [|auto]. rewrite P2, P1. destruct S1 as (_ & -> & _). done.
Qed.

Lemma dict_get_middle {V} (key : string) (v : V) (pre post : list (string * V)) :
  ~ In key (map fst pre) -> dict_get key (pre ++ (key, v) :: post)%list = Some v.
Proof.
  induction pre as [|[k x] pre IH]; simpl; intros H.
  - rewrite decide_True by done. done.
  - destruct (decide (k = key)) as [->|Hne]; [exfalso; apply H; left; done|].
    apply IH. intros Hin. apply H. right. done.
Qed.

Lemma dict_alter_middle {V} (f : V -> V) (key : string) (v : V)
    (pre post : list (string * V)) :
  ~ In key (map fst pre) ->
  dict_alter f key (pre ++ (key, v) :: post)%list = (pre ++ (key, f v) :: post)%list.
Proof.
  induction pre as [|[k x] pre IH]; simpl; intros H.
  - rewrite decide_True by done. done.
  - destruct (decide (k = key)) as [->|Hne]; [exfalso; apply H; left; done|].
    rewrite IH; [done|]. intros Hin. apply H. right. done.
Qed.

Lemma deprecate_loop_map (now : Z) (template_name : string)
    (pre post : list (string * PromptVersion)) :
  distinct_keys (pre ++ post)%list ->
  fold_left (λ ps key, deprecate_key now template_name key ps) (map fst post)
            (pre ++ post)%list
  = (pre ++ map (λ kv, (kv.1, deprecated now template_name kv.2)) post)%list.
Proof.
  unfold distinct_keys. revert pre. induction post as [|[k p] post IH]; intros pre Hnd; [done|].
  assert (Hfresh : ~ In k (map fst pre)).
  { rewrite map_app in Hnd. simpl in Hnd. apply NoDup_ListNoDup in Hnd.
    apply NoDup_app in Hnd. destruct Hnd as (_ & Hdisj & _).
    intros Hin. apply (Hdisj k); [apply list_elem_of_In; done|left]. }
  simpl fold_left. unfold deprecate_key at 2. rewrite dict_get_middle by done.
  assert (Hstep : (if bool_decide (pv_template_name p = template_name)
                      && status_eqb (pv_status p) ACTIVE
                   then dict_alter (with_updated_at now) k
                          (dict_alter (with_status DEPRECATED) k
                             (pre ++ (k, p) :: post)%list)
                   else (pre ++ (k, p) :: post)%list)
                  = ((pre ++ [(k, deprecated now template_name p)]) ++ post)%list).
  { unfold deprecated. destruct (_ && _).
    - rewrite !dict_alter_middle by done. rewrite <- app_assoc. done.
    - rewrite <- app_assoc. done. }
  rewrite Hstep. rewrite IH.
  - rewrite <- app_assoc. done.
  - rewrite <- app_assoc. simpl. rewrite !map_app in *. exact Hnd.
Qed.

Lemma activated_deprecated (now : Z) (template_name : string) (p : PromptVersion) :
  activated now (deprecated now template_name p) = activated now p.
Proof. unfold deprecated. destruct (_ && _); done. Qed.

Lemma activate_prompt_run (prompt_id : string) (prompt : PromptVersion) (w : World) :
  distinct_keys (w_prompts w) ->
  dict_get prompt_id (w_prompts w) = Some prompt ->
  exists w',
    activate_prompt prompt_id w = (OK true, w')
    /\ same_clock w w'
    /\ w_prompts w'
       = registry_after_activation (w_now w) (pv_template_name prompt) prompt_id (w_prompts w)
    /\ (connected w -> connected w')
    /\ (connected w -> 0 < prompt_cache_ttl (w_settings w) ->
        live w' ("prompt:" +:+ pv_id prompt) = Some (BPrompt (activated (w_now w) prompt))).
Proof.
  intros Hnd Hget.
  unfold activate_prompt, mbind at 1, M_bind at 1, registered.
  rewrite Hget. rewrite bool_decide_eq_true_2 by eauto. cbn [negb].
  unfold mbind at 1, M_bind at 1, get_prompt at 1. rewrite Hget.
  unfold mbind at 1, M_bind at 1, prompt_keys.
  destruct (deprecate_loop_run (pv_template_name prompt) (map fst (w_prompts w)) w)
    as (w1 & E1 & S1 & P1 & C1).
  unfold mbind at 1, M_bind at 1. rewrite E1.
  unfold mbind, M_bind, mutate_prompt, datetime_now, print, mret, M_ret.
  cbv beta iota. cbn [w_now set_prompts].
  match goal with |- context [save_registered prompt_id ?W] =>
    destruct (save_registered_any prompt_id W) as (w2 & E2 & S2 & P2 & C2)
  end.
  rewrite E2. eexists. split; [reflexivity|].
  destruct S1 as (Hs1 & Hn1 & Hh1 & Hr1). destruct S2 as (Hs2 & Hn2 & Hh2 & Hr2).
  simpl in *.
  assert (Hreg : dict_alter (with_updated_at (w_now w1)) prompt_id
                   (dict_alter (with_status ACTIVE) prompt_id (w_prompts w1))
                 = registry_after_activation (w_now w) (pv_template_name prompt) prompt_id
                     (w_prompts w)).
  { rewrite P1, Hn1.
    pose proof (deprecate_loop_map (w_now w) (pv_template_name prompt) [] (w_prompts w) Hnd)
      as Hloop.
    simpl app in Hloop. rewrite Hloop.
    set (dep := map (λ kv, (kv.1, deprecated (w_now w) (pv_template_name prompt) kv.2))
                    (w_prompts w)).
    assert (Hdep : distinct_keys dep).
    { unfold distinct_keys, dep. rewrite map_map. simpl. exact Hnd. }
    rewrite (dict_alter_map _ _ _ Hdep).
    assert (Hdep' : distinct_keys
                      (map (λ kv, (kv.1, if decide (kv.1 = prompt_id)
                                         then with_status ACTIVE kv.2 else kv.2)) dep)).
    { unfold distinct_keys. rewrite map_map. simpl. exact Hdep. }
    rewrite (dict_alter_map _ _ _ Hdep').
    unfold dep, registry_after_activation. rewrite !map_map. apply map_ext.
    intros [k p]. simpl. destruct (decide (k = prompt_id)); [|done].
    f_equal. apply activated_deprecated. }
  split; [|split; [|split]].
  - unfold same_clock. simpl. repeat split; congruence.
  - rewrite P2. exact Hreg.
  - intros Hc. unfold connected in *. simpl. apply C2. unfold connected. simpl.
    apply C1. exact Hc.
  - intros Hc Httl.
    match type of E2 with save_registered _ ?W = _ =>
      destruct (save_registered_live prompt_id (activated (w_now w) prompt) W w2 E2)
        as (Hlive & _)
    end.
    + unfold connected. simpl. apply C1. exact Hc.
    + simpl. rewrite Hs1. exact Httl.
    + simpl. rewrite Hreg. unfold registry_after_activation.
      clear -Hget. induction (w_prompts w) as [|[k q] ps IH]; simpl in *; [done|].
      destruct (decide (k = prompt_id)) as [->|Hne]; [injection Hget as ->; done|].
      apply IH. exact Hget.
    + exact Hlive.
Qed.

Lemma deprecated_not_active (now : Z) (template_name : string) (p : PromptVersion) :
  bool_decide (pv_template_name (deprecated now template_name p) = template_name)
  && status_eqb (pv_status (deprecated now template_name p)) ACTIVE = false.
Proof.
  unfold deprecated.
  destruct (bool_decide (pv_template_name p = template_name)
            && status_eqb (pv_status p) ACTIVE) eqn:E; [|exact E].
  simpl. apply andb_false_r.
Qed.

Lemma status_eqb_eq (a b : PromptStatus) : status_eqb a b = true <-> a = b.
Proof. destruct a, b; simpl; split; (done || discriminate). Qed.

Lemma dict_get_after_activation (now : Z) (template_name prompt_id k : string)
    (ps : list (string * PromptVersion)) :
  dict_get k (registry_after_activation now template_name prompt_id ps)
  = (λ p, if decide (k = prompt_id) then activated now p
          else deprecated now template_name p) <$> dict_get k ps.
Proof.
  unfold registry_after_activation.
  induction ps as [|[k' p] ps IH]; simpl; [done|].
  destruct (decide (k' = k)) as [->|Hne]; [done|exact IH].
Qed.

Lemma active_after_activation_others (now : Z) (template_name prompt_id : string)
    (ps : list (string * PromptVersion)) :
  ~ In prompt_id (map fst ps) ->
  active_of template_name (registry_after_activation now template_name prompt_id ps) = [].
Proof.
  unfold active_of, registry_after_activation.
  induction ps as [|[k p] ps IH]; simpl; [done|]. intros Hnotin.
  rewrite decide_False by (intros ->; apply Hnotin; left; done).
  rewrite deprecated_not_active. apply IH. intros Hin. apply Hnotin. right. done.
Qed.

Lemma active_after_activation (now : Z) (prompt_id : string) (prompt : PromptVersion)
    (ps : list (string * PromptVersion)) :
  distinct_keys ps ->
  dict_get prompt_id ps = Some prompt ->
  active_of (pv_template_name prompt)
    (registry_after_activation now (pv_template_name prompt) prompt_id ps)
  = [activated now prompt].
Proof.
  unfold distinct_keys. induction ps as [|[k p] ps IH]; simpl; [done|].
  intros Hnd Hget. inversion Hnd as [|? ? Hnotin Hnd']; subst.
  destruct (decide (k = prompt_id)) as [->|Hne].
  - injection Hget as ->.
    pose proof (active_after_activation_others now (pv_template_name prompt) prompt_id ps
                  Hnotin) as Hrest.
    unfold active_of, registry_after_activation in *. simpl.
    rewrite ?decide_True by done. simpl.
    rewrite bool_decide_eq_true_2 by done. simpl. rewrite Hrest. done.
  - specialize (IH Hnd' Hget).
    unfold active_of, registry_after_activation in *. simpl.
    rewrite ?decide_False by done. rewrite deprecated_not_active. exact IH.
Qed.

Lemma activate_prompt_active (prompt_id : string) (prompt : PromptVersion) (w : World) :
  distinct_keys (w_prompts w) ->
  dict_get prompt_id (w_prompts w) = Some prompt ->
  exists w',
    activate_prompt prompt_id w = (OK true, w')
    /\ get_active_prompt (pv_template_name prompt) w'
       = (OK (Some (activated (w_now w) prompt)), w').
Proof.
  intros Hnd Hget.
  destruct (activate_prompt_run prompt_id prompt w Hnd Hget) as (w1 & E & S & P & _).
  exists w1. split; [exact E|].
  unfold get_active_prompt.
  pose proof (active_after_activation (w_now w) prompt_id prompt (w_prompts w) Hnd Hget)
    as Hact.
  unfold active_of in Hact. rewrite P. rewrite Hact. done.
Qed.

Lemma unregistered (prompt_id : string) (w : World) :
  dict_get prompt_id (w_prompts w) = None -> registered prompt_id w = (OK false, w).
Proof.
  intros Hget. unfold registered. rewrite Hget.
  rewrite bool_decide_eq_false_2; [done|]. intros [x Hx]. discriminate.
Qed.

(** X9.  [activate_prompt] leaves exactly one active prompt for the
    template.  For a registered id (the registry being a dict, its keys are
    distinct), whatever the store does, the call returns [True]; the prompt
    is registered with the status ACTIVE and [updated_at] the present
    instant, and [get_active_prompt] of its template returns it; it is the
    only prompt of the template with the status ACTIVE; every other prompt
    is kept, those of the template that were ACTIVE with the status
    DEPRECATED and the present instant as [updated_at], the others as they
    were.  For an id that is not registered the call returns [False] and
    changes nothing. *)
Theorem activate_prompt_spec :
  (forall (prompt_id : string) (prompt : PromptVersion) (w : World),
     distinct_keys (w_prompts w) ->
     dict_get prompt_id (w_prompts w) = Some prompt ->
     let w' := exec (activate_prompt prompt_id) w in
     let name := pv_template_name prompt in
     eval (activate_prompt prompt_id) w = OK true
     /\ map fst (w_prompts w') = map fst (w_prompts w)
     /\ get_prompt prompt_id w' = (OK (Some (activated (w_now w) prompt)), w')
     /\ get_active_prompt name w' = (OK (Some (activated (w_now w) prompt)), w')
     /\ (forall k q, dict_get k (w_prompts w') = Some q ->
                     pv_template_name q = name -> pv_status q = ACTIVE -> k = prompt_id)
     /\ (forall k q, dict_get k (w_prompts w) = Some q -> k <> prompt_id ->
                     dict_get k (w_prompts w') = Some (deprecated (w_now w) name q)))
  /\ (forall (prompt_id : string) (w : World),
        dict_get prompt_id (w_prompts w) = None ->
        activate_prompt prompt_id w = (OK false, w)).
Proof.
  split.
  - intros prompt_id prompt w Hnd Hget w' name. subst name.
    destruct (activate_prompt_run prompt_id prompt w Hnd Hget) as (w1 & E & S & P & _).
    assert (w' = w1) as -> by (unfold w', exec; rewrite E; done).
    unfold eval. rewrite E. cbn [fst].
    split; [done|]. split; [|split; [|split; [|split]]].
    + rewrite P. unfold registry_after_activation. rewrite map_map. done.
    + unfold get_prompt. rewrite P, dict_get_after_activation, Hget. simpl.
      rewrite decide_True by done. done.
    + unfold get_active_prompt.
      pose proof (active_after_activation (w_now w) prompt_id prompt (w_prompts w) Hnd Hget)
        as Hact.
      unfold active_of in Hact. rewrite P. rewrite Hact. done.
    + intros k q Hk Hname Hstatus. rewrite P, dict_get_after_activation in Hk.
      destruct (dict_get k (w_prompts w)) as [q0|]; [|discriminate]. simpl in Hk.
      destruct (decide (k = prompt_id)) as [|Hne]; [done|]. injection Hk as <-.
      pose proof (deprecated_not_active (w_now w) (pv_template_name prompt) q0) as Hno.
      rewrite Hname, Hstatus in Hno. rewrite bool_decide_eq_true_2 in Hno by done.
      discriminate.
    + intros k q Hk Hne. rewrite P, dict_get_after_activation, Hk. simpl.
      rewrite decide_False by done. done.
  - intros prompt_id w Hget.
    unfold activate_prompt, mbind, M_bind. rewrite unregistered by done. done.
Qed.

Lemma activate_prompt_spec_witness :
  let w := sample_world noon in
  let w' := exec (activate_prompt "pb") w in
  eval (activate_prompt "pb") w = OK true
  /\ get_active_prompt "chat" w' = (OK (Some (activated noon (sample_prompt "pb"))), w')
  /\ activate_prompt "pc" w = (OK false, w).
Proof.
  intros w w'.
  destruct activate_prompt_spec as [Hknown Hunknown].
  destruct (Hknown "pb" (sample_prompt "pb") w) as (H1 & _ & _ & H4 & _).
  - apply NoDup_ListNoDup. apply (bool_decide_unpack _). vm_compute. exact I.
  - reflexivity.
  - split; [exact H1|]. split; [exact H4|]. apply Hunknown. reflexivity.
Defined.

(** ** [create_prompt] *)

Lemma create_prompt_run (md5_hexdigest : string -> string) (lapse1 lapse2 : Z)
    (template_name template : string) (variables : list string)
    (description : option string) (tags : option (list string)) (w : World) :
  exists prompt_id p w',
    create_prompt md5_hexdigest lapse1 lapse2 template_name template variables
      description tags w
    = (OK prompt_id, w')
    /\ dict_get prompt_id (w_prompts w') = Some p
    /\ pv_id p = prompt_id /\ pv_template_name p = template_name
    /\ pv_template p = template /\ pv_variables p = variables
    /\ (distinct_keys (w_prompts w) -> distinct_keys (w_prompts w')).
Proof.
  unfold create_prompt, mbind, M_bind, datetime_now, clock_advances, prompt_values, print,
    mret, M_ret.
  cbv beta iota.
  match goal with |- context [_save_prompt ?P ?W] =>
    set (w0 := W); set (prompt := P);
    destruct (_save_prompt_any prompt w0) as (w1 & E & S & Pr & _)
  end.
  rewrite E. exists (pv_id prompt), prompt. eexists. split; [reflexivity|].
  simpl in Pr. split.
  { simpl. rewrite Pr, dict_get_set, decide_True by done. done. }
  do 4 (split; [done|]).
  intros Hnd. simpl. rewrite Pr. apply dict_set_keys. exact Hnd.
Qed.

(** X10.  [create_prompt] registers a draft and returns its id.  Whatever
    the store does, the call returns an id under which [get_prompt] finds
    the new prompt: it carries the id, the template name, the template and
    the variables given, the status DRAFT, no metrics, and the version label
    "v" followed by one more than the number of prompts registered for the
    template name.  The clock is read three times: the id is the template
    name, the ISO form of the first reading and the first eight hex digits
    of the MD5 of the template, joined by "_"; [created_at] is the second
    reading and [updated_at] the third, each later than the one before by
    the time that passed.  Every other id keeps its prompt and the keys stay
    distinct.  When the id was free, no template changes its active
    prompt. *)
Theorem create_prompt_spec (md5_hexdigest : string -> string) (lapse1 lapse2 : Z)
    (template_name template : string) (variables : list string)
    (description : option string) (tags : option (list string)) (w : World) :
  exists prompt_id p w',
    create_prompt md5_hexdigest lapse1 lapse2 template_name template variables
      description tags w
    = (OK prompt_id, w')
    /\ prompt_id = template_name +:+ "_" +:+ isoformat (w_now w) +:+ "_"
                   +:+ String.substring 0 8 (md5_hexdigest template)
    /\ get_prompt prompt_id w' = (OK (Some p), w')
    /\ pv_id p = prompt_id /\ pv_template_name p = template_name
    /\ pv_template p = template /\ pv_variables p = variables
    /\ pv_status p = DRAFT
    /\ pv_created_at p = w_now w + lapse1
    /\ pv_updated_at p = w_now w + lapse1 + lapse2
    /\ pv_performance_metrics p = []
    /\ pv_version p = "v" +:+ pretty (versions_of template_name (w_prompts w) + 1)
    /\ w_now w' = w_now w + lapse1 + lapse2
    /\ w_settings w' = w_settings w /\ w_hash w' = w_hash w /\ w_rng w' = w_rng w
    /\ (forall k, k <> prompt_id -> dict_get k (w_prompts w') = dict_get k (w_prompts w))
    /\ (distinct_keys (w_prompts w) -> distinct_keys (w_prompts w'))
    /\ (dict_get prompt_id (w_prompts w) = None ->
        forall name, eval (get_active_prompt name) w' = eval (get_active_prompt name) w).
Proof.
  unfold create_prompt, mbind, M_bind, datetime_now, clock_advances, prompt_values, print,
    mret, M_ret.
  cbv beta iota.
  match goal with |- context [_save_prompt ?P ?W] =>
    set (w0 := W); set (prompt := P);
    destruct (_save_prompt_any prompt w0) as (w1 & E & S & Pr & _)
  end.
  rewrite E. exists (pv_id prompt), prompt. eexists. split; [reflexivity|].
  destruct S as (Hs & Hn & Hh & Hr). simpl in Hs, Hn, Hh, Hr, Pr.
  split; [done|]. split.
  { unfold get_prompt. simpl. rewrite Pr, dict_get_set, decide_True by done. done. }
  do 9 (split; [done|]). do 4 (split; [done|]). split.
  { intros k Hk. simpl. rewrite Pr, dict_get_set, decide_False by done. done. }
  split.
  - intros Hnd. simpl. rewrite Pr. apply dict_set_keys. exact Hnd.
  - intros Hfree name. unfold eval, get_active_prompt. simpl. rewrite Pr.
    rewrite dict_set_fresh by done.
    rewrite map_app, List.filter_app. simpl. rewrite andb_false_r, app_nil_r. done.
Qed.

Lemma create_prompt_spec_witness :
  let now := at_time 19723 12 34 56 + 789012 in
  let w := sample_world now in
  let w' := exec (create_prompt sample_digest 3 2 "chat" "Hello {name}" ["name"] None None)
                 w in
  let prompt_id := "chat_2024-01-01T12:34:56.789012_01234567" in
  eval (create_prompt sample_digest 3 2 "chat" "Hello {name}" ["name"] None None) w
  = OK prompt_id
  /\ (pv_version <$> dict_get prompt_id (w_prompts w')) = Some "v3"
  /\ (pv_created_at <$> dict_get prompt_id (w_prompts w')) = Some (now + 3)
  /\ (pv_updated_at <$> dict_get prompt_id (w_prompts w')) = Some (now + 3 + 2)
  /\ eval (get_active_prompt "chat") w' = eval (get_active_prompt "chat") w.
Proof.
  intros now w w' id.
  destruct (create_prompt_spec sample_digest 3 2 "chat" "Hello {name}" ["name"] None None w)
    as (prompt_id & p & w1 & E & Hid & Hget & _ & _ & _ & _ & _ & Hc & Hu & _ & Hv & _ & _
        & _ & _ & _ & _ & Hfree).
  assert (w' = w1) as -> by (unfold w', exec; rewrite E; done).
  assert (Hname : prompt_id = id) by (rewrite Hid; vm_compute; reflexivity).
  rewrite Hname in *. injection Hget as Hget.
  split; [unfold eval; rewrite E; done|].
  rewrite Hget. simpl. split; [rewrite Hv; vm_compute; reflexivity|].
  split; [rewrite Hc; done|]. split; [rewrite Hu; done|].
  apply Hfree. reflexivity.
Defined.

(** X11.  A prompt that was just created can be activated: with distinct
    keys in the registry, and whatever the store does and whatever time
    passes, [activate_prompt] on the id that [create_prompt] returned gives
    [True], and [get_active_prompt] of the template name then returns the
    new prompt, with the template given and the status ACTIVE. *)
Theorem created_prompt_can_be_activated (md5_hexdigest : string -> string)
    (lapse1 lapse2 : Z) (template_name template : string) (variables : list string)
    (description : option string) (tags : option (list string)) (w : World) :
  distinct_keys (w_prompts w) ->
  exists prompt_id p w1 w2,
    create_prompt md5_hexdigest lapse1 lapse2 template_name template variables
      description tags w
    = (OK prompt_id, w1)
    /\ activate_prompt prompt_id w1 = (OK true, w2)
    /\ get_active_prompt template_name w2 = (OK (Some p), w2)
    /\ pv_id p = prompt_id /\ pv_template p = template /\ pv_variables p = variables
    /\ pv_status p = ACTIVE.
Proof.
  intros Hnd.
  destruct (create_prompt_run md5_hexdigest lapse1 lapse2 template_name template variables
              description tags w)
    as (prompt_id & p & w1 & E & Hget & Hid & Hname & Htemplate & Hvars & Hkeys).
  destruct (activate_prompt_active prompt_id p w1 (Hkeys Hnd) Hget) as (w2 & E2 & Hact).
  rewrite Hname in Hact.
  exists prompt_id, (activated (w_now w1) p), w1, w2. done.
Qed.

Lemma created_prompt_can_be_activated_witness :
  exists prompt_id p w1 w2,
    create_prompt sample_digest 3 2 "chat" "Hello {name}" ["name"] None None
      (sample_world noon)
    = (OK prompt_id, w1)
    /\ activate_prompt prompt_id w1 = (OK true, w2)
    /\ get_active_prompt "chat" w2 = (OK (Some p), w2)
    /\ pv_id p = prompt_id /\ pv_template p = "Hello {name}" /\ pv_variables p = ["name"]
    /\ pv_status p = ACTIVE.
Proof.
  apply (created_prompt_can_be_activated sample_digest 3 2 "chat" "Hello {name}" ["name"]
           None None (sample_world noon)).
  apply NoDup_ListNoDup. apply (bool_decide_unpack _). vm_compute. exact I.
Defined.

(** ** [update_prompt_metrics] *)

Lemma dict_get_update {V} (k : string) (other d : list (string * V)) :
  distinct_keys other ->
  dict_get k (dict_update other d)
  = match dict_get k other with Some v => Some v | None => dict_get k d end.
Proof.
  unfold distinct_keys, dict_update. revert d.
  induction other as [|[k' v'] other IH]; intros d Hnd; [done|].
  inversion Hnd as [|? ? Hnotin Hnd']; subst. simpl.
  rewrite IH by done. rewrite dict_get_set.
  destruct (decide (k' = k)) as [->|Hne].
  - rewrite decide_True by done.
    apply dict_get_None in Hnotin. rewrite Hnotin. done.
  - rewrite decide_False by done. done.
Qed.

(** X12.  [update_prompt_metrics] merges the given metrics into those of
    the prompt.  For a registered id, whatever the store does, the call
    returns [True]; afterwards a metric given in the call has the value
    given, every other metric the value it had, [updated_at] is the present
    instant, and nothing else of the prompt and no other prompt has changed.
    For an id that is not registered the call returns [False] and changes
    nothing. *)
Theorem update_prompt_metrics_spec :
  (forall (prompt_id : string) (metrics : list (string * float)) (prompt : PromptVersion)
          (w : World),
     dict_get prompt_id (w_prompts w) = Some prompt ->
     distinct_keys metrics ->
     exists p' w',
       update_prompt_metrics prompt_id metrics w = (OK true, w')
       /\ get_prompt prompt_id w' = (OK (Some p'), w')
       /\ (forall name, dict_get name (pv_performance_metrics p')
                        = match dict_get name metrics with
                          | Some v => Some v
                          | None => dict_get name (pv_performance_metrics prompt)
                          end)
       /\ pv_updated_at p' = w_now w
       /\ with_updated_at 0 (with_performance_metrics [] p')
          = with_updated_at 0 (with_performance_metrics [] prompt)
       /\ (forall k, k <> prompt_id ->
                     dict_get k (w_prompts w') = dict_get k (w_prompts w)))
  /\ (forall (prompt_id : string) (metrics : list (string * float)) (w : World),
        dict_get prompt_id (w_prompts w) = None ->
        update_prompt_metrics prompt_id metrics w = (OK false, w)).
Proof.
  split.
  - intros prompt_id metrics prompt w Hget Hnd.
    unfold update_prompt_metrics, mbind at 1, M_bind at 1, registered.
    rewrite Hget. rewrite bool_decide_eq_true_2 by eauto. cbn [negb].
    unfold mbind, M_bind, mutate_prompt, datetime_now, mret, M_ret.
    cbv beta iota. cbn [w_now set_prompts].
    match goal with |- context [save_registered prompt_id ?W] =>
      destruct (save_registered_any prompt_id W) as (w' & E & S & P & _)
    end.
    rewrite E. simpl in P.
    exists (with_updated_at (w_now w)
              (with_performance_metrics
                 (dict_update metrics (pv_performance_metrics prompt)) prompt)), w'.
    split; [done|]. split.
    { unfold get_prompt. rewrite P, !dict_get_alter, !decide_True, Hget by done. done. }
    split; [intros name; apply dict_get_update; done|].
    split; [done|]. split; [done|].
    intros k Hk. rewrite P, !dict_get_alter, !decide_False by done. done.
  - intros prompt_id metrics w Hget.
    unfold update_prompt_metrics, mbind, M_bind. rewrite unregistered by done. done.
Qed.

Lemma update_prompt_metrics_spec_witness :
  exists p' w',
    update_prompt_metrics "pa" [("accuracy", Py.ratio 9 10)] (sample_world noon)
    = (OK true, w')
    /\ get_prompt "pa" w' = (OK (Some p'), w')
    /\ dict_get "accuracy" (pv_performance_metrics p') = Some (Py.ratio 9 10)
    /\ update_prompt_metrics "pc" [("accuracy", Py.ratio 9 10)] (sample_world noon)
       = (OK false, sample_world noon).
Proof.
  destruct update_prompt_metrics_spec as [Hknown Hunknown].
  destruct (Hknown "pa" [("accuracy", Py.ratio 9 10)] (sample_prompt "pa")
              (sample_world noon)) as (p' & w' & E & Hget & Hm & _).
  - reflexivity.
  - apply NoDup_ListNoDup. apply (bool_decide_unpack _). vm_compute. exact I.
  - exists p', w'. split; [exact E|]. split; [exact Hget|]. split.
    + rewrite Hm. reflexivity.
    + apply Hunknown. reflexivity.
Defined.

(** ** [delete_prompt] *)

Lemma redis_delete_connected (key : string) (w : World) :
  connected w ->
  exists w',
    redis_delete key w = (OK tt, w')
    /\ connected w' /\ same_env w w'
    /\ live w' key = None
    /\ (forall k, k <> key -> live w' k = live w k).
Proof.
  intros Hc. unfold redis_delete. rewrite redis_call_connected by done. cbn [fst snd].
  eexists. split; [reflexivity|].
  destruct w as [st now [strs lsts fs] ps h g o]. unfold connected in *. simpl in *.
  subst fs. repeat split.
  - unfold live, live_string. simpl. rewrite lookup_delete_eq. done.
  - intros k Hk. unfold live, live_string. simpl. rewrite lookup_delete_ne by done. done.
Qed.

Lemma delete_prompt_connected (prompt_id : string) (prompt : PromptVersion) (w : World) :
  dict_get prompt_id (w_prompts w) = Some prompt ->
  connected w ->
  exists w',
    delete_prompt prompt_id w = (OK true, w')
    /\ connected w' /\ same_clock w w'
    /\ w_prompts w' = dict_del prompt_id (w_prompts w)
    /\ live w' ("prompt:" +:+ prompt_id) = None
    /\ (forall k, k <> "prompt:" +:+ prompt_id -> live w' k = live w k).
Proof.
  intros Hget Hc.
  unfold delete_prompt, mbind at 1, M_bind at 1, registered.
  rewrite Hget. rewrite bool_decide_eq_true_2 by eauto. cbn [negb].
  destruct (redis_delete_connected ("prompt:" +:+ prompt_id) w Hc)
    as (w1 & E & C & S & L & L').
  unfold mbind, M_bind, print, mret, M_ret. rewrite E.
  eexists. split; [reflexivity|].
  destruct S as (Hs & Hn & Hp & Hh & Hr & Ho).
  split; [exact C|]. split; [done|]. split; [simpl; rewrite Hp; done|].
  split; [exact L|exact L'].
Qed.

(** X13.  [delete_prompt] removes a registered prompt from the store first
    and from the registry second.  With the store connected the call
    returns [True]; afterwards [get_prompt] does not find the id, the store
    has no value under ["prompt:<id>"], and every other prompt and every
    other stored value is as before.  When the connection fails, the call
    raises [ConnectionError] and the prompt is still registered.  For an id
    that is not registered the call returns [False] and sends no command to
    the store. *)
Theorem delete_prompt_spec :
  (forall (prompt_id : string) (prompt : PromptVersion) (w : World),
     dict_get prompt_id (w_prompts w) = Some prompt ->
     connected w ->
     let w' := exec (delete_prompt prompt_id) w in
     eval (delete_prompt prompt_id) w = OK true
     /\ get_prompt prompt_id w' = (OK None, w')
     /\ (forall k, k <> prompt_id -> dict_get k (w_prompts w') = dict_get k (w_prompts w))
     /\ live w' ("prompt:" +:+ prompt_id) = None
     /\ (forall k, k <> "prompt:" +:+ prompt_id -> live w' k = live w k))
  /\ (forall (prompt_id : string) (prompt : PromptVersion) (w : World) (fs : list bool),
        dict_get prompt_id (w_prompts w) = Some prompt ->
        r_faults (w_redis w) = true :: fs ->
        let w' := exec (delete_prompt prompt_id) w in
        eval (delete_prompt prompt_id) w = Raise ConnectionError
        /\ w_prompts w' = w_prompts w
        /\ r_strings (w_redis w') = r_strings (w_redis w))
  /\ (forall (prompt_id : string) (w : World),
        dict_get prompt_id (w_prompts w) = None ->
        delete_prompt prompt_id w = (OK false, w)).
Proof.
  split; [|split].
  - intros prompt_id prompt w Hget Hc w'.
    destruct (delete_prompt_connected prompt_id prompt w Hget Hc)
      as (w1 & E & C & S & P & L & L').
    assert (w' = w1) as -> by (unfold w', exec; rewrite E; done).
    unfold eval. rewrite E. split; [done|]. split.
    { unfold get_prompt. rewrite P, dict_get_del, decide_True by done. done. }
    split; [|done].
    intros k Hk. rewrite P, dict_get_del, decide_False by done. done.
  - intros prompt_id prompt w fs Hget Hf w'. subst w'.
    unfold eval, exec, delete_prompt, mbind, M_bind, registered.
    rewrite Hget. rewrite bool_decide_eq_true_2 by eauto. cbn [negb].
    unfold redis_delete, redis_call. rewrite Hf. done.
  - intros prompt_id w Hget.
    unfold delete_prompt, mbind, M_bind. rewrite unregistered by done. done.
Qed.

Lemma delete_prompt_spec_witness :
  let w := world_with_experiment in
  eval (delete_prompt "pa") w = OK true
  /\ get_prompt "pa" (exec (delete_prompt "pa") w) = (OK None, exec (delete_prompt "pa") w)
  /\ eval (delete_prompt "pa") (unavailable w) = Raise ConnectionError
  /\ w_prompts (exec (delete_prompt "pa") (unavailable w)) = w_prompts (unavailable w)
  /\ delete_prompt "pc" w = (OK false, w).
Proof.
  intros w. destruct delete_prompt_spec as (Hok & Hfail & Hunknown).
  destruct (Hok "pa" (sample_prompt_testing "pa") w) as (H1 & H2 & _);
    [reflexivity | reflexivity |].
  destruct (Hfail "pa" (sample_prompt_testing "pa") (unavailable w)
              [true; true; true; true; true; true; true]) as (H3 & H4 & _);
    [reflexivity | reflexivity |].
  split; [exact H1|]. split; [exact H2|]. split; [exact H3|]. split; [exact H4|].
  apply Hunknown. reflexivity.
Defined.

(** X14.  Deleting a prompt does not end the experiment that serves it.
    While an active A/B test configuration is stored for a name and the
    store is connected, a user whose id hashes to the deleted variant gets
    [None] from [get_ab_test_prompt], not the active prompt of the name and
    not the other variant. *)
Theorem deleted_variant_is_served_as_none (name u prompt_id : string) (c : AbTestConfig)
    (prompt : PromptVersion) (w : World) :
  connected w ->
  live w ("ab_test:" +:+ name) = Some (BAbTest c) ->
  active c = true ->
  truthy u = true ->
  sticky_variant c (w_hash w u) = prompt_id ->
  dict_get prompt_id (w_prompts w) = Some prompt ->
  let w' := exec (delete_prompt prompt_id) w in
  eval (delete_prompt prompt_id) w = OK true
  /\ get_ab_test_prompt name (Some u) w' = (OK None, w').
Proof.
  intros Hc Hl Ha Hu Hv Hget w'.
  destruct (delete_prompt_connected prompt_id prompt w Hget Hc)
    as (w1 & E & C & S & P & L & L').
  assert (w' = w1) as -> by (unfold w', exec; rewrite E; done).
  unfold eval. rewrite E. split; [done|].
  rewrite (get_ab_test_prompt_active name (Some u) c w1); [|done| |done].
  - rewrite choose_variant_user by done.
    destruct S as (_ & _ & Hh & _). rewrite Hh, Hv, P, dict_get_del, decide_True by done.
    done.
  - rewrite L'; [done|]. simpl. intros [=].
Qed.

Lemma deleted_variant_is_served_as_none_witness :
  let w' := exec (delete_prompt "pa") world_with_experiment in
  eval (delete_prompt "pa") world_with_experiment = OK true
  /\ get_ab_test_prompt "chat" (Some "user123") w' = (OK None, w').
Proof.
  apply (deleted_variant_is_served_as_none "chat" "user123" "pa"
           {| ab_template_name := "chat"; prompt_a := "pa"; prompt_b := "pb";
              traffic_split := Py.ratio 1 2; started_at := noon; active := true |}
           (sample_prompt_testing "pa") world_with_experiment);
    reflexivity.
Defined.

(** ** [list_prompts] *)

Lemma insert_newest_perm (p : PromptVersion) (l : list PromptVersion) :
  Permutation (insert_newest p l) (p :: l).
Proof.
  induction l as [|q l IH]; simpl; [done|].
  destruct (pv_updated_at p <? pv_updated_at q); [|done].
  rewrite IH. apply perm_swap.
Qed.

Lemma sorted_newest_first_perm (l : list PromptVersion) :
  Permutation (sorted_newest_first l) l.
Proof.
  induction l as [|p l IH]; simpl; [done|].
  rewrite insert_newest_perm. constructor. exact IH.
Qed.

Lemma insert_newest_sorted (p : PromptVersion) (l : list PromptVersion) :
  StronglySorted not_older l -> StronglySorted not_older (insert_newest p l).
Proof.
  induction l as [|q l IH]; simpl; intros Hs.
  - constructor; constructor.
  - inversion Hs as [|? ? Hs' Hall]; subst.
    destruct (Z.ltb_spec (pv_updated_at p) (pv_updated_at q)).
    + constructor; [apply IH; done|].
      apply List.Forall_forall. intros x Hx.
      apply (Permutation_in _ (insert_newest_perm p l)) in Hx.
      destruct Hx as [<-|Hx]; [unfold not_older; lia|].
      rewrite List.Forall_forall in Hall. apply Hall. done.
    + constructor; [done|]. constructor; [unfold not_older; lia|].
      eapply List.Forall_impl; [|exact Hall]. unfold not_older. intros x Hx. lia.
Qed.

Lemma sorted_newest_first_sorted (l : list PromptVersion) :
  StronglySorted not_older (sorted_newest_first l).
Proof.
  induction l as [|p l IH]; simpl; [constructor|]. apply insert_newest_sorted. exact IH.
Qed.

Lemma insert_newest_stable (t : Z) (p : PromptVersion) (l : list PromptVersion) :
  updated_at_instant t (insert_newest p l) = updated_at_instant t (p :: l).
Proof.
  unfold updated_at_instant. induction l as [|q l IH]; [done|].
  simpl insert_newest. destruct (Z.ltb_spec (pv_updated_at p) (pv_updated_at q)); [|done].
  simpl in *. rewrite IH.
  destruct (Z.eqb_spec (pv_updated_at p) t), (Z.eqb_spec (pv_updated_at q) t); (done || lia).
Qed.

Lemma sorted_newest_first_stable (t : Z) (l : list PromptVersion) :
  updated_at_instant t (sorted_newest_first l) = updated_at_instant t l.
Proof.
  induction l as [|p l IH]; [done|]. simpl sorted_newest_first.
  rewrite insert_newest_stable. unfold updated_at_instant in *. simpl. rewrite IH. done.
Qed.

Lemma filter_filter {A} (f g : A -> bool) (l : list A) :
  List.filter g (List.filter f l) = List.filter (λ x, f x && g x) l.
Proof.
  induction l as [|x l IH]; simpl; [done|].
  destruct (f x); simpl; [|done]. destruct (g x); rewrite IH; done.
Qed.

Lemma filter_true {A} (f : A -> bool) (l : list A) :
  (forall x, f x = true) -> List.filter f l = l.
Proof.
  intros H. induction l as [|x l IH]; simpl; [done|]. rewrite H, IH. done.
Qed.

Lemma list_prompts_run (template_name : option string) (status : option PromptStatus)
    (w : World) :
  list_prompts template_name status w
  = (OK (sorted_newest_first
           (List.filter (matching template_name status) (map snd (w_prompts w)))), w).
Proof.
  unfold list_prompts, mbind, M_bind, prompt_values, mret, M_ret. cbv beta iota.
  match goal with |- (OK (sorted_newest_first ?a), w) = (OK (sorted_newest_first ?b), w) =>
    assert (a = b) as ->; [|done]
  end.
  unfold matching.
  destruct template_name as [name|], status as [st|]; try destruct (truthy name).
  - apply filter_filter.
  - apply List.filter_ext. intros p. done.
  - apply List.filter_ext. intros p. rewrite andb_true_r. done.
  - symmetry. apply filter_true. done.
  - apply List.filter_ext. intros p. done.
  - symmetry. apply filter_true. done.
Qed.

(** X15.  [list_prompts] returns, without changing anything, the registered
    prompts that pass the filters, each as often as it is registered,
    sorted by [updated_at] with the newest first, and prompts of the same
    [updated_at] in the order of the registry.  An absent template name, an
    empty template name and an absent status filter nothing. *)
Theorem list_prompts_spec (template_name : option string) (status : option PromptStatus)
    (w : World) :
  exists l,
    list_prompts template_name status w = (OK l, w)
    /\ Permutation l (List.filter (matching template_name status) (map snd (w_prompts w)))
    /\ StronglySorted not_older l
    /\ (forall t, updated_at_instant t l
                  = updated_at_instant t (List.filter (matching template_name status)
                                            (map snd (w_prompts w))))
    /\ list_prompts (Some EmptyString) status w = list_prompts None status w.
Proof.
  eexists. split; [apply list_prompts_run|].
  split; [apply sorted_newest_first_perm|].
  split; [apply sorted_newest_first_sorted|].
  split; [intros t; apply sorted_newest_first_stable|].
  rewrite !list_prompts_run. done.
Qed.

(** ** The end of an experiment *)

Lemma start_ab_test_run (name id_a id_b : string) (split : float) (w : World)
    (pa pb : PromptVersion) :
  connected w ->
  ab_test_enabled (w_settings w) = true ->
  dict_get id_a (w_prompts w) = Some pa ->
  dict_get id_b (w_prompts w) = Some pb ->
  exists w',
    start_ab_test name id_a id_b split w = (OK true, w')
    /\ connected w' /\ w_now w' = w_now w
    /\ w_prompts w'
       = dict_alter (with_updated_at (w_now w)) id_b
           (dict_alter (with_updated_at (w_now w)) id_a
              (dict_alter (with_status TESTING) id_b
                 (dict_alter (with_status TESTING) id_a (w_prompts w))))
    /\ r_strings (w_redis w') !! ("ab_test:" +:+ name)
       = Some (BAbTest {| ab_template_name := name; prompt_a := id_a; prompt_b := id_b;
                          traffic_split := split; started_at := w_now w;
                          active := true |}, w_now w + 86400 * second).
Proof.
  intros Hc Hen Ha Hb.
  unfold start_ab_test. unfold mbind at 1, M_bind at 1, settings at 1.
  rewrite Hen. cbn [negb].
  unfold mbind at 1, M_bind at 1, get_prompt at 1. rewrite Ha.
  unfold mbind at 1, M_bind at 1, get_prompt at 1. rewrite Hb.
  unfold mbind, M_bind, mutate_prompt, datetime_now, print, mret, M_ret.
  cbv beta iota. cbn [w_now set_prompts].
  match goal with |- context [save_registered id_a ?W] => set (w0 := W) end.
  assert (C0 : connected w0) by exact Hc.
  destruct (save_registered_steady id_a w0 C0) as (w1 & E1 & C1 & N1 & _ & P1).
  rewrite E1.
  destruct (save_registered_steady id_b w1 C1) as (w2 & E2 & C2 & N2 & _ & P2).
  rewrite E2.
  match goal with |- context [redis_setex ?k ?t ?v w2] =>
    destruct (redis_setex_store k t v w2 C2 ltac:(lia)) as (w3 & E3 & C3 & S3 & T3 & _)
  end.
  rewrite E3. eexists. split; [reflexivity|].
  destruct S3 as (_ & N3 & P3 & _). simpl.
  split; [exact C3|]. split; [rewrite N3, N2, N1; done|].
  split; [rewrite P3, P2, P1; done|].
  rewrite T3, lookup_insert_eq, N2, N1. done.
Qed.

Lemma status_after_start (now : Z) (id_a id_b key : string) (p : PromptVersion)
    (ps : list (string * PromptVersion)) :
  dict_get key ps = Some p ->
  key = id_a \/ key = id_b ->
  pv_status <$> dict_get key
    (dict_alter (with_updated_at now) id_b
       (dict_alter (with_updated_at now) id_a
          (dict_alter (with_status TESTING) id_b
             (dict_alter (with_status TESTING) id_a ps))))
  = Some TESTING.
Proof.
  intros Hget Hkey. rewrite !dict_get_alter.
  repeat case_decide; subst; rewrite ?Hget; try done; destruct Hkey; done.
Qed.

(** X16.  An experiment ends by the expiry of its configuration, and its
    variants are not restored.  After a successful [start_ab_test], with the
    store connected, the configuration is served during the next 86400
    seconds, up to and including the instant of its expiry.  Later than
    that, [get_ab_test_prompt] answers as [get_active_prompt] does: the
    prompt it returns, if any, has the status ACTIVE, while the two variants
    are still registered with the status TESTING.  A variant that was the
    active prompt of the name is therefore no longer served. *)
Theorem expired_experiment_falls_back (name id_a id_b : string) (split : float)
    (user : option string) (w : World) (pa pb : PromptVersion) (elapsed : Z) :
  connected w ->
  ab_test_enabled (w_settings w) = true ->
  dict_get id_a (w_prompts w) = Some pa ->
  dict_get id_b (w_prompts w) = Some pb ->
  0 <= elapsed ->
  let w' := later elapsed (exec (start_ab_test name id_a id_b split) w) in
  (elapsed <= 86400 * second ->
   live w' ("ab_test:" +:+ name)
   = Some (BAbTest {| ab_template_name := name; prompt_a := id_a; prompt_b := id_b;
                      traffic_split := split; started_at := w_now w; active := true |}))
  /\ (86400 * second < elapsed ->
      get_ab_test_prompt name user w' = get_active_prompt name w'
      /\ (forall p, eval (get_ab_test_prompt name user) w' = OK (Some p) ->
                    pv_template_name p = name /\ pv_status p = ACTIVE))
  /\ (pv_status <$> dict_get id_a (w_prompts w')) = Some TESTING
  /\ (pv_status <$> dict_get id_b (w_prompts w')) = Some TESTING.
Proof.
  intros Hc Hen Ha Hb Hel w'.
  destruct (start_ab_test_run name id_a id_b split w pa pb Hc Hen Ha Hb)
    as (w1 & E & C & N & P & T).
  assert (w' = later elapsed w1) as -> by (unfold w', exec; rewrite E; done).
  split; [|split; [|split]].
  - intros Hin. unfold live, later, live_string. cbn [w_now w_redis set_now]. rewrite T, N.
    destruct (Z.leb_spec (w_now w + elapsed) (w_now w + 86400 * second)); [done|lia].
  - intros Hout.
    assert (Hfall : get_ab_test_prompt name user (later elapsed w1)
                    = get_active_prompt name (later elapsed w1)).
    { unfold get_ab_test_prompt. unfold mbind at 1, M_bind at 1.
      rewrite redis_get_connected by exact C.
      unfold later, live_string. cbn [w_now w_redis set_now]. rewrite T, N.
      destruct (Z.leb_spec (w_now w + elapsed) (w_now w + 86400 * second)); [lia|]. done. }
    split; [exact Hfall|].
    intros p. unfold eval. rewrite Hfall. unfold get_active_prompt. cbn [fst].
    intros [= Hhead].
    apply head_Some_elem_of in Hhead. apply list_elem_of_In in Hhead.
    apply List.filter_In in Hhead. destruct Hhead as (_ & Hp).
    apply andb_true_iff in Hp. destruct Hp as (Hname & Hstatus).
    apply bool_decide_eq_true_1 in Hname. apply status_eqb_eq in Hstatus. done.
  - unfold later. cbn [w_prompts set_now]. rewrite P.
    apply (status_after_start _ _ _ _ pa); [done|left; done].
  - unfold later. cbn [w_prompts set_now]. rewrite P.
    apply (status_after_start _ _ _ _ pb); [done|right; done].
Qed.

Lemma expired_experiment_falls_back_witness :
  let started := exec (start_ab_test "chat" "pa" "pb" (Py.ratio 1 2)) (sample_world noon) in
  live (later (86400 * second) started) "ab_test:chat"
  = Some (BAbTest {| ab_template_name := "chat"; prompt_a := "pa"; prompt_b := "pb";
                     traffic_split := Py.ratio 1 2; started_at := noon; active := true |})
  /\ get_ab_test_prompt "chat" (Some "user123") (later (86400 * second + 1) started)
     = get_active_prompt "chat" (later (86400 * second + 1) started)
  /\ (pv_status <$> dict_get "pa" (w_prompts (later (86400 * second + 1) started)))
     = Some TESTING.
Proof.
  intros started. split.
  - destruct (expired_experiment_falls_back "chat" "pa" "pb" (Py.ratio 1 2) (Some "user123")
                (sample_world noon) (sample_prompt "pa") (sample_prompt "pb")
                (86400 * second))
      as (H1 & _);
      [reflexivity | reflexivity | reflexivity | reflexivity | unfold second; lia |].
    apply H1. lia.
  - destruct (expired_experiment_falls_back "chat" "pa" "pb" (Py.ratio 1 2) (Some "user123")
                (sample_world noon) (sample_prompt "pa") (sample_prompt "pb")
                (86400 * second + 1))
      as (_ & H2 & H3 & _);
      [reflexivity | reflexivity | reflexivity | reflexivity | unfold second; lia |].
    split; [apply H2; lia | exact H3].
Defined.

(** ** [log_request] *)

Lemma _save_request_run (request : LLMRequest) (w : World) :
  _save_request request w = (OK tt, exec (_save_request request) w).
Proof.
  pose proof (_save_request_never_raises request w) as H. unfold eval, exec in *.
  destruct (_save_request request w) as [r w']. simpl in *. rewrite H. done.
Qed.

Lemma seconds_of_latency (x : float) : exists y, Py.float_div_int x 1000 = OK y.
Proof. apply float_div_int_ok. split; [lia|reflexivity]. Qed.

Lemma _update_prometheus_metrics_run (request : LLMRequest) (reg : Prometheus) (w : World)
    (seconds : float) :
  0 <= input_tokens request -> 0 <= output_tokens request ->
  Py.float_div_int (latency_ms request) 1000 = OK seconds ->
  _update_prometheus_metrics request reg w
  = (OK (reg ++ updates_of request seconds)%list, w).
Proof.
  intros Hi Ho Hs. unfold _update_prometheus_metrics, run_updates, counter_inc,
    histogram_observe, gauge_inc. rewrite Hs.
  destruct (Z.ltb_spec (input_tokens request) 0); [lia|].
  destruct (Z.ltb_spec (output_tokens request) 0); [lia|].
  simpl. unfold updates_of. rewrite <- !app_assoc. done.
Qed.

Lemma len_nonneg {A} (l : list A) : 0 <= len l.
Proof. unfold len. lia. Qed.

(** X17.  [log_request] builds the record of a request from the token
    counts of the prompt and of the response and returns it even when the
    store is down.  When the tokenizer accepts the prompt and the response
    (a response that is empty is not tokenized and counts 0 tokens), and
    the tokens are fewer than [2 ^ 1024], the call returns a record with
    the arguments given, the present instant as timestamp, the two token
    counts, and as [cost_usd] the value of [calculate_cost], the thousandth
    of the tokens times the rate of the model; the metrics receive the five
    updates of the request; the last line of output is the event
    "LLM request processed"; and with the store connected the record is
    read back under its id, which heads the list of its day.  When the
    tokenizer refuses the prompt, the call raises what the tokenizer raised
    and nothing is stored, counted or logged. *)
Theorem log_request_spec (tokenizer_encode : string -> Result (list Z))
    (id model version prompt response : string) (latency : float) (ok : bool)
    (error prompt_id user_id : option string) (meta : option (list (string * string)))
    (reg : Prometheus) (w : World) :
  (forall tokens_in tokens_out : list Z,
     tokenizer_encode prompt = OK tokens_in ->
     (if truthy response then tokenizer_encode response else OK []) = OK tokens_out ->
     len tokens_in + len tokens_out < 2 ^ 1024 ->
     exists request seconds q w',
       log_request tokenizer_encode id model version prompt response latency ok error
         prompt_id user_id meta reg w
       = (OK (request, (reg ++ updates_of request seconds)%list), w')
       /\ request
          = {| request_id := id; model_name := model; model_version := version;
               prompt_id := prompt_id; user_id := user_id; timestamp := w_now w;
               input_tokens := len tokens_in; output_tokens := len tokens_out;
               latency_ms := latency; cost_usd := Py.fmul q (rate_of model);
               success := ok; error_message := error; metadata := default [] meta |}
       /\ Py.int_truediv (len tokens_in + len tokens_out) 1000 = OK q
       /\ calculate_cost model (len tokens_in) (len tokens_out) = OK (cost_usd request)
       /\ Py.float_div_int latency 1000 = OK seconds
       /\ head (w_out w') = Some "LLM request processed"
       /\ (connected w ->
           live_record w' id = Some (BRequest request)
           /\ bucket w' ("requests:" +:+ strftime_Ymd (w_now w))
              = id :: bucket w ("requests:" +:+ strftime_Ymd (w_now w))))
  /\ (forall e, tokenizer_encode prompt = Raise e ->
        log_request tokenizer_encode id model version prompt response latency ok error
          prompt_id user_id meta reg w
        = (Raise e, w)).
Proof.
  split.
  - intros tokens_in tokens_out Hin Hout Hlen.
    destruct (model_rate model) as (cfg & Hcfg & Hrate).
    destruct (int_truediv_1000 (len tokens_in + len tokens_out)) as (q & Hq).
    { pose proof (len_nonneg tokens_in). pose proof (len_nonneg tokens_out). lia. }
    destruct (seconds_of_latency latency) as (seconds & Hs).
    assert (Hcost : calculate_cost model (len tokens_in) (len tokens_out)
                    = OK (Py.fmul q (rate_of model))).
    { unfold calculate_cost. rewrite Hcfg, Hrate, Hq. done. }
    set (request :=
           {| request_id := id; model_name := model; model_version := version;
              prompt_id := prompt_id; user_id := user_id; timestamp := w_now w;
              input_tokens := len tokens_in; output_tokens := len tokens_out;
              latency_ms := latency; cost_usd := Py.fmul q (rate_of model);
              success := ok; error_message := error; metadata := default [] meta |}).
    exists request, seconds, q.
    assert (Hout' : (if truthy response
                     then lift (count_tokens tokenizer_encode response)
                     else mret 0) w = (OK (len tokens_out), w)).
    { unfold count_tokens, lift. destruct (truthy response).
      - rewrite Hout. done.
      - injection Hout as <-. done. }
    unfold log_request.
    unfold mbind at 1, M_bind at 1, lift at 1, count_tokens at 1. rewrite Hin.
    unfold mbind at 1, M_bind at 1. rewrite Hout'.
    unfold mbind at 1, M_bind at 1, lift at 1. rewrite Hcost.
    unfold mbind at 1, M_bind at 1, datetime_now at 1.
    fold request.
    unfold mbind at 1, M_bind at 1. rewrite _save_request_run.
    unfold mbind at 1, M_bind at 1.
    rewrite (_update_prometheus_metrics_run request reg _ seconds);
      [|apply len_nonneg|apply len_nonneg|exact Hs].
    unfold mbind, M_bind, logger_info, print, mret, M_ret.
    eexists. split; [reflexivity|]. split; [done|]. split; [done|]. split; [done|].
    split; [done|]. split; [done|].
    intros Hc.
    destruct (_save_request_records request w Hc) as (_ & _ & _ & Lid & _ & B).
    split; [exact Lid|]. exact (B None (or_introl eq_refl)).
  - intros e He. unfold log_request, mbind, M_bind, lift, count_tokens. rewrite He. done.
Qed.

Lemma log_request_spec_witness :
  exists request seconds q w',
    log_request sample_encode "r9" "gpt-4" "1" "Hi" EmptyString (Py.ratio 150 1) false
      (Some "timeout") None None None [] (unavailable (sample_world noon))
    = (OK (request, updates_of request seconds), w')
    /\ input_tokens request = 2 /\ output_tokens request = 0
    /\ Py.int_truediv 2 1000 = OK q
    /\ cost_usd request = Py.fmul q (rate_of "gpt-4").
Proof.
  destruct (log_request_spec sample_encode "r9" "gpt-4" "1" "Hi" EmptyString
              (Py.ratio 150 1) false (Some "timeout") None None None []
              (unavailable (sample_world noon))) as [Hok _].
  destruct (Hok [72; 105] []) as (request & seconds & q & w' & E & Hr & Hq & _).
  - reflexivity.
  - reflexivity.
  - apply Z.lt_trans with (2 ^ 8); [reflexivity | apply Z.pow_lt_mono_r; lia].
  - exists request, seconds, q, w'. split; [exact E|]. rewrite Hr. simpl.
    split; [reflexivity|]. split; [reflexivity|]. split; [exact Hq | reflexivity].
Defined.

(** ** [render_prompt] *)

Lemma missing_vars_nil (declared : list string) (variables : list (string * string)) :
  missing_vars declared variables = []
  <-> forall v, In v declared -> dict_get v variables <> None.
Proof.
  unfold missing_vars. induction declared as [|d declared IH]; simpl; [tauto|].
  destruct (dict_get d variables) as [x|] eqn:E.
  - rewrite bool_decide_eq_true_2 by eauto. simpl. rewrite IH. split.
    + intros H v [<-|Hv]; [congruence|auto].
    + intros H v Hv. apply H. right. done.
  - rewrite bool_decide_eq_false_2 by (intros [x Hx]; discriminate). simpl.
    split; [discriminate|]. intros H. exfalso. apply (H d); [left; done|done].
Qed.

Lemma render_registered (str_format : string -> list (string * string) -> Result string)
    (p : PromptVersion) (variables : list (string * string)) (w : World) :
  match missing_vars (pv_variables p) variables with
  | _ :: _ => raise ValueError
  | [] =>
      try_except (lift (str_format (pv_template p) variables))
        (λ e, match e with
              | KeyError => raise ValueError
              | _ => raise e
              end)
  end w
  = (match missing_vars (pv_variables p) variables with
     | _ :: _ => Raise ValueError
     | [] => registered_rendering (str_format (pv_template p) variables)
     end, w).
Proof.
  destruct (missing_vars _ _); [|done].
  unfold try_except, lift, registered_rendering, raise.
  destruct (str_format _ _) as [s|[]]; done.
Qed.

(** X18.  [render_prompt] never changes anything, and chooses its template
    as follows.  A non-empty prompt id that is not registered makes it
    format the built-in template of the name, whether or not the name has an
    active prompt, and raise [ValueError] when the name has no built-in
    template; an error of the formatting, [KeyError] included, is passed
    on.  For a registered prompt id it raises [ValueError] when a declared
    variable is not given, without formatting; otherwise it formats the
    template of the prompt and raises a [KeyError] of the formatting again
    as [ValueError], so that it never raises [KeyError].  Only "chatbot",
    "summarization" and "translation" have a built-in template. *)
Theorem render_prompt_spec
    (str_format : string -> list (string * string) -> Result string)
    (template_name prompt_id : string) (variables : list (string * string)) (w : World) :
  truthy prompt_id = true ->
  (dict_get prompt_id (w_prompts w) = None ->
   render_prompt str_format template_name variables (Some prompt_id) w
   = (builtin_rendering str_format template_name variables, w))
  /\ (forall p, dict_get prompt_id (w_prompts w) = Some p ->
        ((exists v, In v (pv_variables p) /\ dict_get v variables = None) ->
         render_prompt str_format template_name variables (Some prompt_id) w
         = (Raise ValueError, w))
        /\ ((forall v, In v (pv_variables p) -> dict_get v variables <> None) ->
            render_prompt str_format template_name variables (Some prompt_id) w
            = (registered_rendering (str_format (pv_template p) variables), w))
        /\ eval (render_prompt str_format template_name variables (Some prompt_id)) w
           <> Raise KeyError)
  /\ (get_prompt_template template_name <> None ->
      template_name = "chatbot" \/ template_name = "summarization"
      \/ template_name = "translation").
Proof.
  intros Hid. split; [|split].
  - intros Hget. unfold render_prompt, builtin_rendering. rewrite Hid.
    unfold mbind, M_bind, get_prompt. rewrite Hget.
    destruct (get_prompt_template template_name); done.
  - intros p Hget.
    assert (Hrun : render_prompt str_format template_name variables (Some prompt_id) w
                   = (match missing_vars (pv_variables p) variables with
                      | _ :: _ => Raise ValueError
                      | [] => registered_rendering (str_format (pv_template p) variables)
                      end, w)).
    { unfold render_prompt. rewrite Hid. unfold mbind, M_bind, get_prompt. rewrite Hget.
      apply render_registered. }
    split; [|split].
    + intros (v & Hv & Hnone). rewrite Hrun.
      destruct (missing_vars (pv_variables p) variables) eqn:E; [|done].
      exfalso. apply (proj1 (missing_vars_nil _ _) E v Hv Hnone).
    + intros Hall. rewrite Hrun.
      rewrite (proj2 (missing_vars_nil _ _) Hall). done.
    + unfold eval. rewrite Hrun. cbn [fst].
      destruct (missing_vars (pv_variables p) variables); [|discriminate].
      unfold registered_rendering. destruct (str_format _ _) as [s|[]]; discriminate.
  - unfold get_prompt_template, PROMPT_TEMPLATES. cbn [dict_get].
    repeat case_decide; subst; tauto.
Qed.

Lemma render_prompt_spec_witness :
  render_prompt sample_format "chatbot" [("question", "Why?")] (Some "gone")
    (sample_world noon)
  = (builtin_rendering sample_format "chatbot" [("question", "Why?")], sample_world noon)
  /\ eval (render_prompt sample_format "chat" [("question", "Why?")] (Some "pa"))
       (sample_world noon)
     <> Raise KeyError.
Proof.
  destruct (render_prompt_spec sample_format "chatbot" "gone" [("question", "Why?")]
              (sample_world noon)) as (H1 & _); [reflexivity|].
  destruct (render_prompt_spec sample_format "chat" "pa" [("question", "Why?")]
              (sample_world noon)) as (_ & H2 & _); [reflexivity|].
  split.
  - apply H1. reflexivity.
  - apply (H2 (sample_prompt "pa")). reflexivity.
Defined.

(** ** [_load_prompts] *)

Lemma prefix_append (s k : string) : String.prefix s (s +:+ k) = true.
Proof.
  induction s as [|a s IH]; simpl; [destruct k; done|].
  destruct (Ascii.ascii_dec a a); [exact IH|done].
Qed.

Lemma prompt_key_prefix (k : string) : String.prefix "prompt:" ("prompt:" +:+ k) = true.
Proof. apply prefix_append. Qed.

Lemma prompt_key_inj (k k' : string) : "prompt:" +:+ k = "prompt:" +:+ k' -> k = k'.
Proof. simpl. intros [=]. done. Qed.

Lemma live_keys_strings (w : World) (key : string) (b : Blob) :
  live w key = Some b -> In key (live_keys (w_now w) (w_redis w)).
Proof.
  unfold live, live_string, live_keys. intros H.
  destruct (r_strings (w_redis w) !! key) as [[b' e]|] eqn:E; [|discriminate].
  destruct (w_now w <=? e) eqn:Elt; [|discriminate].
  apply in_or_app. left. apply in_map_iff. exists (key, (b', e)). split; [done|].
  apply List.filter_In. split; [|exact Elt].
  apply list_elem_of_In. apply elem_of_map_to_list. exact E.
Qed.

Lemma prompt_store_ok_keys (w : World) (key : string) :
  prompt_store_ok w = true ->
  String.prefix "prompt:" key = true ->
  In key (live_keys (w_now w) (w_redis w)) ->
  exists p, live w key = Some (BPrompt p) /\ key = "prompt:" +:+ pv_id p.
Proof.
  unfold prompt_store_ok. intros Hok Hprefix Hin.
  apply andb_true_iff in Hok. destruct Hok as (Hs & Hl).
  rewrite forallb_forall in Hs, Hl.
  unfold live_keys in Hin. apply in_app_or in Hin. destruct Hin as [Hin|Hin].
  - apply in_map_iff in Hin. destruct Hin as ([k [b e]] & <- & Hin).
    apply List.filter_In in Hin. destruct Hin as (Hin & Hlive). simpl in *.
    specialize (Hs _ Hin). simpl in Hs. rewrite Hprefix, Hlive in Hs. simpl in Hs.
    destruct b as [r|c|p]; try discriminate.
    apply bool_decide_eq_true_1 in Hs.
    exists p. split; [|exact Hs].
    apply list_elem_of_In, elem_of_map_to_list in Hin.
    unfold live, live_string. rewrite Hin, Hlive. done.
  - apply in_map_iff in Hin. destruct Hin as ([k [l e]] & <- & Hin).
    apply List.filter_In in Hin. destruct Hin as (Hin & Hlive). simpl in *.
    specialize (Hl _ Hin). simpl in Hl. rewrite Hprefix, Hlive in Hl. discriminate.
Qed.

Lemma load_loop_run (w : World) (keys : list string) (ps : list (string * PromptVersion)) :
  connected w ->
  (forall key, In key keys -> exists p, live w key = Some (BPrompt p)) ->
  foldM (λ _ key,
           prompt_data ← redis_get key;
           match prompt_data with
           | Some (BPrompt prompt) =>
               λ w, (OK tt, set_prompts (dict_set (pv_id prompt) prompt (w_prompts w)) w)
           | Some _ => raise KeyError
           | None => mret tt
           end) keys tt (set_prompts ps w)
  = (OK tt, set_prompts (fold_left (load_key w) keys ps) w).
Proof.
  intros Hc. revert ps. induction keys as [|key keys IH]; intros ps Hall; [done|].
  destruct (Hall key (or_introl eq_refl)) as (p & Hp).
  simpl foldM. unfold mbind at 1, M_bind at 1. unfold mbind at 1, M_bind at 1.
  rewrite redis_get_connected by exact Hc.
  change (live_string (w_now (set_prompts ps w)) (w_redis (set_prompts ps w)) key)
    with (live w key).
  rewrite Hp. cbn [w_prompts set_prompts].
  change (set_prompts (dict_set (pv_id p) p ps) (set_prompts ps w))
    with (set_prompts (dict_set (pv_id p) p ps) w).
  rewrite IH by (intros k Hk; apply Hall; right; done).
  simpl fold_left. assert (load_key w ps key = dict_set (pv_id p) p ps) as ->; [|done].
  unfold load_key. rewrite Hp. done.
Qed.

Lemma load_loop_lookup (w : World) (keys : list string) (ps : list (string * PromptVersion))
    (k : string) :
  (forall key, In key keys ->
     exists p, live w key = Some (BPrompt p) /\ key = "prompt:" +:+ pv_id p) ->
  dict_get k (fold_left (load_key w) keys ps)
  = if bool_decide (("prompt:" +:+ k) ∈ keys) then stored_prompt w k else dict_get k ps.
Proof.
  revert ps. induction keys as [|key keys IH]; intros ps Hall.
  - cbn [fold_left]. rewrite bool_decide_eq_false_2 by (apply not_elem_of_nil). done.
  - destruct (Hall key (or_introl eq_refl)) as (p & Hp & Hkey).
    simpl fold_left. rewrite IH by (intros k' Hk'; apply Hall; right; done).
    unfold load_key. rewrite Hp.
    destruct (decide (("prompt:" +:+ k) ∈ keys)) as [Hin|Hnotin].
    + rewrite !bool_decide_eq_true_2; [done|apply elem_of_cons; right; done|done].
    + rewrite (bool_decide_eq_false_2 _ Hnotin). rewrite dict_get_set.
      destruct (decide (k = pv_id p)) as [->|Hne].
      * rewrite bool_decide_eq_true_2 by (apply elem_of_cons; left; done).
        unfold stored_prompt. rewrite <- Hkey, Hp. done.
      * rewrite bool_decide_eq_false_2; [done|].
        intros Hin. apply elem_of_cons in Hin. destruct Hin as [Heq|Hin]; [|done].
        rewrite Hkey in Heq. apply prompt_key_inj in Heq. congruence.
Qed.

Lemma load_loop_keys (w : World) (keys : list string) (ps : list (string * PromptVersion)) :
  distinct_keys ps -> distinct_keys (fold_left (load_key w) keys ps).
Proof.
  revert ps. induction keys as [|key keys IH]; intros ps Hnd; [done|].
  simpl. apply IH. unfold load_key.
  destruct (live w key) as [[r|c|p]|]; try done. apply dict_set_keys. done.
Qed.

Lemma _load_prompts_restarted (key_order : list string -> list string) (w : World) :
  (forall l, Permutation (key_order l) l) ->
  connected w ->
  prompt_store_ok w = true ->
  exists ps,
    _load_prompts key_order (restarted w) = (OK tt, set_prompts ps w)
    /\ distinct_keys ps
    /\ forall k, dict_get k ps = stored_prompt w k.
Proof.
  intros Hperm Hc Hok.
  set (keys := key_order (List.filter (String.prefix "prompt:")
                            (live_keys (w_now w) (w_redis w)))).
  assert (Hkeys : forall key, In key keys ->
            exists p, live w key = Some (BPrompt p) /\ key = "prompt:" +:+ pv_id p).
  { intros key Hin. apply (Permutation_in _ (Hperm _)) in Hin.
    apply List.filter_In in Hin. destruct Hin as (Hin & Hprefix).
    apply prompt_store_ok_keys; done. }
  exists (fold_left (load_key w) keys []). split; [|split].
  - unfold _load_prompts, try_except, restarted.
    unfold mbind at 1, M_bind at 1, redis_keys.
    rewrite redis_call_connected by exact Hc. cbn [fst snd].
    rewrite set_redis_id.
    change (w_now (set_prompts [] w)) with (w_now w).
    change (w_redis (set_prompts [] w)) with (w_redis w). fold keys.
    rewrite (load_loop_run w keys []); [done|exact Hc|].
    intros key Hin. destruct (Hkeys key Hin) as (p & Hp & _). eauto.
  - apply load_loop_keys. constructor.
  - intros k. rewrite load_loop_lookup by exact Hkeys. simpl.
    destruct (decide (("prompt:" +:+ k) ∈ keys)) as [Hin|Hnotin].
    + rewrite bool_decide_eq_true_2 by done. done.
    + rewrite bool_decide_eq_false_2 by done.
      unfold stored_prompt. destruct (live w ("prompt:" +:+ k)) as [b|] eqn:E; [|done].
      exfalso. apply Hnotin. apply list_elem_of_In.
      apply (Permutation_in _ (Permutation_sym (Hperm _))).
      apply List.filter_In. split; [|apply prompt_key_prefix].
      eapply live_keys_strings. exact E.
Qed.

(** X19.  After a restart the registry is what the store still holds.  In
    a new process, with the store connected and holding under the keys
    ["prompt:..."] what [_save_prompt] wrote, [_load_prompts] registers
    under every id the prompt that is alive in the store under
    ["prompt:<id>"], and nothing else, whatever the order in which the
    server lists the keys; the keys of the registry are distinct and the
    store is not changed. *)
Theorem registry_after_restart (key_order : list string -> list string) (w : World) :
  (forall l, Permutation (key_order l) l) ->
  connected w ->
  prompt_store_ok w = true ->
  let w' := exec (_load_prompts key_order) (restarted w) in
  eval (_load_prompts key_order) (restarted w) = OK tt
  /\ (forall k, get_prompt k w' = (OK (stored_prompt w k), w'))
  /\ distinct_keys (w_prompts w')
  /\ w_redis w' = w_redis w /\ w_now w' = w_now w.
Proof.
  intros Hperm Hc Hok w'.
  destruct (_load_prompts_restarted key_order w Hperm Hc Hok) as (ps & E & Hnd & Hget).
  assert (w' = set_prompts ps w) as -> by (unfold w', exec; rewrite E; done).
  unfold eval. rewrite E. split; [done|]. split; [|done].
  intros k. unfold get_prompt. simpl. rewrite Hget. done.
Qed.

Lemma registry_after_restart_witness :
  let w := exec (create_prompt sample_digest 3 2 "chat" "Hello {name}" ["name"] None None)
                (sample_world noon) in
  let w' := exec (_load_prompts (λ l, l)) (restarted w) in
  eval (_load_prompts (λ l, l)) (restarted w) = OK tt
  /\ (forall k, get_prompt k w' = (OK (stored_prompt w k), w')).
Proof.
  intros w w'.
  destruct (registry_after_restart (λ l, l) w) as (H1 & H2 & _).
  - intros l. reflexivity.
  - reflexivity.
  - vm_compute. reflexivity.
  - split; [exact H1 | exact H2].
Defined.

Lemma _save_prompt_store (prompt : PromptVersion) (w : World) :
  connected w -> 0 < prompt_cache_ttl (w_settings w) ->
  exists w',
    _save_prompt prompt w = (OK tt, w')
    /\ connected w' /\ same_env w w'
    /\ r_strings (w_redis w')
       = <["prompt:" +:+ pv_id prompt
           := (BPrompt prompt, w_now w + prompt_cache_ttl (w_settings w) * second)]>
           (r_strings (w_redis w)).
Proof.
  intros Hc Httl.
  destruct (redis_setex_store ("prompt:" +:+ pv_id prompt) (prompt_cache_ttl (w_settings w))
              (BPrompt prompt) w Hc Httl) as (w' & E & C & S & T & _).
  exists w'. unfold _save_prompt, try_except, mbind, M_bind, settings. rewrite E. done.
Qed.

Lemma create_prompt_stored (md5_hexdigest : string -> string) (lapse1 lapse2 : Z)
    (template_name template : string) (variables : list string)
    (description : option string) (tags : option (list string)) (w : World) :
  connected w -> 0 < prompt_cache_ttl (w_settings w) ->
  exists prompt_id p w',
    create_prompt md5_hexdigest lapse1 lapse2 template_name template variables
      description tags w
    = (OK prompt_id, w')
    /\ connected w' /\ w_now w' = w_now w + lapse1 + lapse2
    /\ dict_get prompt_id (w_prompts w') = Some p
    /\ r_strings (w_redis w') !! ("prompt:" +:+ prompt_id)
       = Some (BPrompt p,
               w_now w + lapse1 + lapse2 + prompt_cache_ttl (w_settings w) * second).
Proof.
  intros Hc Httl.
  unfold create_prompt, mbind, M_bind, datetime_now, clock_advances, prompt_values, print,
    mret, M_ret.
  cbv beta iota.
  match goal with |- context [_save_prompt ?P ?W] =>
    set (w0 := W); set (prompt := P);
    destruct (_save_prompt_store prompt w0) as (w1 & E & C & S & T); [exact Hc|exact Httl|]
  end.
  rewrite E. exists (pv_id prompt), prompt. eexists. split; [reflexivity|].
  destruct S as (Hs & Hn & Hp & _). simpl in Hs, Hn, Hp.
  split; [exact C|]. split; [exact Hn|]. split.
  - simpl. rewrite Hp, dict_get_set, decide_True by done. done.
  - simpl. rewrite T, lookup_insert_eq. done.
Qed.

(** X20.  A prompt outlives a restart for [prompt_cache_ttl] seconds
    only.  When [create_prompt] has stored a prompt (the store connected,
    the setting positive) and a new process loads the registry [elapsed]
    microseconds after the call, [get_prompt] finds the prompt under the id
    that [create_prompt] returned if at most [prompt_cache_ttl] seconds have
    passed, the instant of the expiry included, and finds nothing under that
    id otherwise. *)
Theorem created_prompt_survives_restart_for_ttl (key_order : list string -> list string)
    (md5_hexdigest : string -> string) (lapse1 lapse2 : Z)
    (template_name template : string)
    (variables : list string) (description : option string) (tags : option (list string))
    (w : World) (elapsed : Z) :
  (forall l, Permutation (key_order l) l) ->
  connected w ->
  0 < prompt_cache_ttl (w_settings w) ->
  0 <= elapsed ->
  let create := create_prompt md5_hexdigest lapse1 lapse2 template_name template variables
                  description tags in
  let w1 := later elapsed (exec create w) in
  prompt_store_ok w1 = true ->
  exists prompt_id p,
    eval create w = OK prompt_id
    /\ get_prompt prompt_id (exec create w) = (OK (Some p), exec create w)
    /\ let w2 := exec (_load_prompts key_order) (restarted w1) in
       get_prompt prompt_id w2
       = (OK (if elapsed <=? prompt_cache_ttl (w_settings w) * second then Some p else None),
          w2).
Proof.
  intros Hperm Hc Httl Hel create w1 Hok.
  destruct (create_prompt_stored md5_hexdigest lapse1 lapse2 template_name template variables
              description tags w Hc Httl) as (prompt_id & p & w' & E & C & N & Hget & T).
  fold create in E.
  assert (exec create w = w') as Hw' by (unfold exec; rewrite E; done).
  unfold w1 in *. rewrite Hw' in *.
  exists prompt_id, p. split; [unfold eval; rewrite E; done|].
  split; [unfold get_prompt; rewrite Hget; done|].
  assert (Hc1 : connected (later elapsed w')) by exact C.
  destruct (_load_prompts_restarted key_order (later elapsed w') Hperm Hc1 Hok)
    as (ps & E2 & _ & Hps).
  cbv zeta. unfold exec at 1 2. rewrite E2. cbn [snd].
  unfold get_prompt. cbn [w_prompts set_prompts]. rewrite Hps.
  unfold stored_prompt, live, live_string, later. cbn [w_now w_redis set_now].
  rewrite T, N.
  destruct (Z.leb_spec (w_now w + lapse1 + lapse2 + elapsed)
              (w_now w + lapse1 + lapse2 + prompt_cache_ttl (w_settings w) * second)),
           (Z.leb_spec elapsed (prompt_cache_ttl (w_settings w) * second));
    (done || lia).
Qed.

Lemma created_prompt_survives_restart_for_ttl_witness :
  let create := create_prompt sample_digest 3 2 "chat" "Hello {name}" ["name"] None None in
  let created := exec create (sample_world noon) in
  (exists prompt_id p,
     eval create (sample_world noon) = OK prompt_id
     /\ get_prompt prompt_id created = (OK (Some p), created)
     /\ let w2 := exec (_load_prompts (λ l, l)) (restarted (later (3600 * second) created)) in
        get_prompt prompt_id w2
        = (OK (if 3600 * second <=? 3600 * second then Some p else None), w2))
  /\ (exists prompt_id p,
        eval create (sample_world noon) = OK prompt_id
        /\ get_prompt prompt_id created = (OK (Some p), created)
        /\ let w2 := exec (_load_prompts (λ l, l))
                          (restarted (later (3600 * second + 1) created)) in
           get_prompt prompt_id w2
           = (OK (if 3600 * second + 1 <=? 3600 * second then Some p else None), w2)).
Proof.
  split.
  - apply (created_prompt_survives_restart_for_ttl (λ l, l) sample_digest 3 2 "chat"
             "Hello {name}" ["name"] None None (sample_world noon) (3600 * second)).
    + intros l. reflexivity.
    + reflexivity.
    + reflexivity.
    + unfold second. lia.
    + vm_compute. reflexivity.
  - apply (created_prompt_survives_restart_for_ttl (λ l, l) sample_digest 3 2 "chat"
             "Hello {name}" ["name"] None None (sample_world noon) (3600 * second + 1)).
    + intros l. reflexivity.
    + reflexivity.
    + reflexivity.
    + unfold second. lia.
    + vm_compute. reflexivity.
Defined.

(** ** From [log_request] to the cost metrics *)

Lemma scanned_same_store (w w' : World) (key : Z -> string) (s e : Z) :
  w_now w' = w_now w -> w_redis w' = w_redis w ->
  scanned w' key s e = scanned w key s e.
Proof.
  intros Hn Hr. unfold scanned, live_blobs, live_record, bucket. rewrite Hn, Hr. done.
Qed.

Lemma cost_after_fresh_save (request : LLMRequest) (model : option string)
    (w w' : World) (s e : Z) (m : CostMetrics) :
  connected w ->
  model = None \/ model = Some (model_name request) ->
  s <= e < s + day ->
  strftime_Ymd s = strftime_Ymd (timestamp request) ->
  ~ In (request_id request) (bucket w (date_key model s)) ->
  get_cost_metrics model (Some s) (Some e) w = (OK m, w) ->
  requests_count m + 1 < 2 ^ 1023 ->
  tokens_count m + tokens_of request < 2 ^ 1023 ->
  connected w' ->
  w_now w' = w_now (exec (_save_request request) w) ->
  w_redis w' = w_redis (exec (_save_request request) w) ->
  exists m',
    get_cost_metrics model (Some s) (Some e) w' = (OK m', w')
    /\ requests_count m' = requests_count m + 1
    /\ tokens_count m' = tokens_count m + tokens_of request.
Proof.
  intros Hc Hmodel Hse Hday Hfresh Hm Hn Ht Hc' Hnow Hredis.
  destruct (_save_request_records request w Hc) as (_ & C & N & Lid & Lother & B).
  set (w1 := exec (_save_request request) w) in *.
  rewrite get_cost_metrics_connected in Hm by done. injection Hm as Hm.
  apply cost_metrics_of_inv in Hm. cbn [default from_option id] in Hm.
  rewrite scanned_single_day in Hm by done.
  rewrite get_cost_metrics_connected by done. cbn [default from_option id].
  rewrite (scanned_same_store w1 w') by done.
  rewrite scanned_single_day by done.
  rewrite (date_key_same_day model s (timestamp request)) in * by done.
  rewrite B by done. rewrite live_blobs_cons, Lid.
  rewrite (live_blobs_ext w w1).
  2:{ intros id Hin. apply Lother. intros ->. done. }
  set (old := live_blobs w (bucket w (date_key model (timestamp request)))) in *.
  destruct (fold_cost_step_counts old Py.zero 0 0) as [c Hc0].
  rewrite Hc0 in Hm. injection Hm as Hcost Hcount Htokens.
  destruct (fold_cost_step_counts (BRequest request :: old) Py.zero 0 0) as [c' Hc1].
  rewrite Hc1. unfold len in *. simpl length. simpl map. simpl sum_Z.
  unfold tokens_of in *.
  match goal with |- context [cost_metrics_of (c', ?n, ?t) s e] =>
    destruct (cost_metrics_of_ok c' n t s e) as (m' & Em & _ & Hr' & Ht'); [lia|lia|]
  end.
  exists m'. split; [rewrite Em; done|]. lia.
Qed.

Lemma log_request_run (tokenizer_encode : string -> Result (list Z))
    (id model version prompt response : string) (latency : float) (ok : bool)
    (error prompt_id user_id : option string) (meta : option (list (string * string)))
    (reg : Prometheus) (w : World) (tokens_in tokens_out : list Z) :
  tokenizer_encode prompt = OK tokens_in ->
  (if truthy response then tokenizer_encode response else OK []) = OK tokens_out ->
  len tokens_in + len tokens_out < 2 ^ 1024 ->
  exists request seconds w',
    log_request tokenizer_encode id model version prompt response latency ok error
      prompt_id user_id meta reg w
    = (OK (request, (reg ++ updates_of request seconds)%list), w')
    /\ request_id request = id /\ model_name request = model
    /\ timestamp request = w_now w
    /\ input_tokens request = len tokens_in /\ output_tokens request = len tokens_out
    /\ w_now w' = w_now (exec (_save_request request) w)
    /\ w_redis w' = w_redis (exec (_save_request request) w).
Proof.
  intros Hin Hout Hlen.
  destruct (model_rate model) as (cfg & Hcfg & Hrate).
  destruct (int_truediv_1000 (len tokens_in + len tokens_out)) as (q & Hq).
  { pose proof (len_nonneg tokens_in). pose proof (len_nonneg tokens_out). lia. }
  destruct (seconds_of_latency latency) as (seconds & Hs).
  assert (Hcost : calculate_cost model (len tokens_in) (len tokens_out)
                  = OK (Py.fmul q (rate_of model))).
  { unfold calculate_cost. rewrite Hcfg, Hrate, Hq. done. }
  set (request :=
         {| request_id := id; model_name := model; model_version := version;
            prompt_id := prompt_id; user_id := user_id; timestamp := w_now w;
            input_tokens := len tokens_in; output_tokens := len tokens_out;
            latency_ms := latency; cost_usd := Py.fmul q (rate_of model);
            success := ok; error_message := error; metadata := default [] meta |}).
  exists request, seconds.
  assert (Hout' : (if truthy response
                   then lift (count_tokens tokenizer_encode response)
                   else mret 0) w = (OK (len tokens_out), w)).
  { unfold count_tokens, lift. destruct (truthy response).
    - rewrite Hout. done.
    - injection Hout as <-. done. }
  unfold log_request.
  unfold mbind at 1, M_bind at 1, lift at 1, count_tokens at 1. rewrite Hin.
  unfold mbind at 1, M_bind at 1. rewrite Hout'.
  unfold mbind at 1, M_bind at 1, lift at 1. rewrite Hcost.
  unfold mbind at 1, M_bind at 1, datetime_now at 1.
  fold request.
  unfold mbind at 1, M_bind at 1. rewrite _save_request_run.
  unfold mbind at 1, M_bind at 1.
  rewrite (_update_prometheus_metrics_run request reg _ seconds);
    [|apply len_nonneg|apply len_nonneg|exact Hs].
  unfold mbind, M_bind, logger_info, print, mret, M_ret.
  eexists. split; [reflexivity|]. done.
Qed.

(** X21.  A logged request shows in the cost metrics at once.  With the
    store connected, when [log_request] logs a request whose id the present
    day does not list yet, a cost scan of the present day (unfiltered, or
    filtered by the model of the request) that returned [m] before the call
    returns afterwards one request more, and as many tokens more as the
    tokenizer counted in the prompt and the response. *)
Theorem logged_request_is_counted (tokenizer_encode : string -> Result (list Z))
    (id model version prompt response : string) (latency : float) (ok : bool)
    (error prompt_id user_id : option string) (meta : option (list (string * string)))
    (reg : Prometheus) (w : World) (tokens_in tokens_out : list Z)
    (filter : option string) (s e : Z) (m : CostMetrics) :
  connected w ->
  tokenizer_encode prompt = OK tokens_in ->
  (if truthy response then tokenizer_encode response else OK []) = OK tokens_out ->
  filter = None \/ filter = Some model ->
  s <= e < s + day ->
  strftime_Ymd s = strftime_Ymd (w_now w) ->
  ~ In id (bucket w (date_key filter s)) ->
  get_cost_metrics filter (Some s) (Some e) w = (OK m, w) ->
  len tokens_in + len tokens_out < 2 ^ 1024 ->
  requests_count m + 1 < 2 ^ 1023 ->
  tokens_count m + (len tokens_in + len tokens_out) < 2 ^ 1023 ->
  exists request reg' w' m',
    log_request tokenizer_encode id model version prompt response latency ok error
      prompt_id user_id meta reg w
    = (OK (request, reg'), w')
    /\ get_cost_metrics filter (Some s) (Some e) w' = (OK m', w')
    /\ requests_count m' = requests_count m + 1
    /\ tokens_count m' = tokens_count m + (len tokens_in + len tokens_out).
Proof.
  intros Hc Hin Hout Hfilter Hse Hday Hfresh Hm Hlen Hn Ht.
  destruct (log_request_run tokenizer_encode id model version prompt response latency ok
              error prompt_id user_id meta reg w tokens_in tokens_out Hin Hout Hlen)
    as (request & seconds & w' & E & Hid & Hmodel & Hts & Hi & Ho & Hnow & Hredis).
  destruct (_save_request_records request w Hc) as (_ & C & _).
  destruct (cost_after_fresh_save request filter w w' s e m) as (m' & Em & Hr & Htok);
    try done.
  - rewrite Hmodel. exact Hfilter.
  - rewrite Hts. exact Hday.
  - rewrite Hid. exact Hfresh.
  - unfold tokens_of. rewrite Hi, Ho. exact Ht.
  - unfold connected in *. rewrite Hredis. exact C.
  - exists request, (reg ++ updates_of request seconds)%list, w', m'.
    split; [exact E|]. split; [exact Em|]. split; [exact Hr|].
    rewrite Htok. unfold tokens_of. rewrite Hi, Ho. done.
Qed.

Lemma logged_request_is_counted_witness :
  exists request reg' w' m',
    log_request sample_encode "r9" "gpt-4" "1" "Hi" "Hello" (Py.ratio 150 1) true
      None None None None [] (sample_world noon)
    = (OK (request, reg'), w')
    /\ get_cost_metrics (Some "gpt-4") (Some (at_time 19723 0 0 0)) (Some noon) w'
       = (OK m', w')
    /\ requests_count m' = 0 + 1
    /\ tokens_count m' = 0 + (len [72; 105] + len [72; 101; 108; 108; 111]).
Proof.
  apply (logged_request_is_counted sample_encode "r9" "gpt-4" "1" "Hi" "Hello"
           (Py.ratio 150 1) true None None None None [] (sample_world noon)
           [72; 105] [72; 101; 108; 108; 111] (Some "gpt-4") (at_time 19723 0 0 0) noon
           (zero_cost_metrics (at_time 19723 0 0 0) noon)).
  - reflexivity.
  - reflexivity.
  - reflexivity.
  - right. reflexivity.
  - vm_compute. split; [discriminate | reflexivity].
  - reflexivity.
  - vm_compute. intros H. exact H.
  - reflexivity.
  - apply Z.lt_trans with (2 ^ 8); [reflexivity | apply Z.pow_lt_mono_r; lia].
  - change (0 + 1 < 2 ^ 1023). lia.
  - change (0 + 7 < 2 ^ 1023). lia.
Defined.

(** ** Serving a prompt when there is no experiment *)

(** X22.  Without an experiment [get_ab_test_prompt] serves the active
    prompt, but only while the store answers.  With the store connected,
    when no configuration is alive under ["ab_test:<name>"], or the one
    that is says it is not active, the call returns what
    [get_active_prompt] returns, draws no random number and changes
    nothing.  When the connection fails the call raises
    [ConnectionError], although the registry could have answered; the
    registry and the generator are as before. *)
Theorem no_experiment_serves_active_prompt (name : string) (user : option string)
    (w : World) :
  (connected w ->
   live w ("ab_test:" +:+ name) = None
   \/ (exists c, live w ("ab_test:" +:+ name) = Some (BAbTest c) /\ active c = false) ->
   get_ab_test_prompt name user w = get_active_prompt name w
   /\ exec (get_ab_test_prompt name user) w = w)
  /\ (forall fs, r_faults (w_redis w) = true :: fs ->
        let w' := exec (get_ab_test_prompt name user) w in
        eval (get_ab_test_prompt name user) w = Raise ConnectionError
        /\ w_prompts w' = w_prompts w /\ w_rng w' = w_rng w
        /\ r_strings (w_redis w') = r_strings (w_redis w)).
Proof.
  split.
  - intros Hc Hnone.
    assert (Hrun : get_ab_test_prompt name user w = get_active_prompt name w).
    { unfold get_ab_test_prompt. unfold mbind at 1, M_bind at 1.
      rewrite redis_get_connected by exact Hc. unfold live in Hnone.
      destruct Hnone as [->|(c & -> & Hinactive)]; [done|].
      cbn [get_active]. rewrite Hinactive. done. }
    split; [exact Hrun|]. unfold exec. rewrite Hrun. done.
  - intros fs Hf w'. subst w'.
    unfold eval, exec, get_ab_test_prompt, mbind, M_bind, redis_get, redis_call.
    rewrite Hf. done.
Qed.

Lemma no_experiment_serves_active_prompt_witness :
  let w := exec (activate_prompt "pa") (sample_world noon) in
  get_ab_test_prompt "chat" (Some "user123") w = get_active_prompt "chat" w
  /\ eval (get_ab_test_prompt "chat" (Some "user123")) (unavailable w)
     = Raise ConnectionError.
Proof.
  intros w.
  destruct (no_experiment_serves_active_prompt "chat" (Some "user123") w) as [H1 _].
  destruct (no_experiment_serves_active_prompt "chat" (Some "user123") (unavailable w))
    as [_ H2].
  split.
  - apply H1; [reflexivity | left; reflexivity].
  - apply (H2 [true; true; true; true; true; true; true]). reflexivity.
Defined.
